(** * VLHoldings finance API: the report and history endpoints

    A shallow embedding of [src/app/api/finance/summary/route.ts] (the
    single-period report) and of the monthly history route that follows it in
    the same source file, together with the parts of ECMAScript they run on:
    [parseInt], [String] on integers, the [Date] constructor with its getters,
    [Math.min], [Math.ceil], [Math.round] and binary64 arithmetic.

    Conventions of the model.
    - A JavaScript number that the routes use as an integer is a [number]:
      [NaN] or [Num z] with [z : Z] (exact; integers beyond 2^53 and the
      infinities are not modelled).
    - A [Date] is its time value, a [number] of milliseconds since the epoch;
      [NaN] is the Invalid Date.  The host's zone is taken to be UTC, so local
      time and UTC coincide.
    - The completion rate is computed on the kernel's binary64 floats, which
      are the numbers JavaScript computes with.
    - [estimatedCost] is an integer column (the schema is not part of the
      sources at hand): a cost is an [option Z].
    - A text is a [string] holding its UTF-8 encoding, which is how a query
      parameter, a header or a column reaches the program.  The routes and
      pages compare texts, cut them at ASCII characters and skip white space;
      white space is skipped by whole characters, all of StrWhiteSpaceChar,
      U+00A0 being the two bytes 194 160 and U+FEFF the three bytes
      239 187 191.

    The development also covers the helpers of the card pages
    ([getYoutubeEmbedUrl], [formatFileSize], the tags, the gallery and the
    file attachments) and of the scripts [debug-attachments] and
    [test-db-connection].  There [new URL] and [JSON.parse] are arguments of
    the functions that call them, and a parsed JSON text is a [Json]. *)

From Stdlib Require Import ZArith List String Ascii Bool Lia.
From Stdlib Require Import PrimFloat FloatOps.
From Stdlib Require Uint63 DecimalString DecimalPos.
Import ListNotations.

Open Scope string_scope.
Open Scope list_scope.
Open Scope Z_scope.

(** ** JavaScript numbers used as integers *)

Inductive number : Type :=
| NaN
| Num (z : Z).

Module Js.

Definition lift2 (f : Z -> Z -> Z) (a b : number) : number :=
  match a, b with
  | Num x, Num y => Num (f x y)
  | _, _ => NaN
  end.

Definition add := lift2 Z.add.
Definition sub := lift2 Z.sub.
Definition mul := lift2 Z.mul.

(** [Math.ceil(a / b)] for an integer [a] and a positive integer constant
    [b]: the ceiling of the quotient. *)
Definition ceil_div (a : number) (b : Z) : number :=
  match a with
  | Num x => Num (- ((- x) / b))
  | NaN => NaN
  end.

(** [Math.min(a, b)]: NaN if either argument is NaN. *)
Definition min := lift2 Z.min.

(** [a < b] on numbers: false when either side is NaN. *)
Definition ltb (a b : number) : bool :=
  match a, b with
  | Num x, Num y => x <? y
  | _, _ => false
  end.

End Js.

(** ** ECMAScript dates (ECMA-262, "Date Objects") *)

Module Date.

Definition msPerDay : Z := 86400000.
Definition msPerHour : Z := 3600000.
Definition msPerMinute : Z := 60000.
Definition msPerSecond : Z := 1000.

Definition Day (t : Z) : Z := t / msPerDay.
Definition TimeWithinDay (t : Z) : Z := t mod msPerDay.

Definition DaysInYear (y : Z) : Z :=
  if negb (y mod 4 =? 0) then 365
  else if negb (y mod 100 =? 0) then 366
  else if negb (y mod 400 =? 0) then 365
  else 366.

Definition DayFromYear (y : Z) : Z :=
  365 * (y - 1970) + (y - 1969) / 4 - (y - 1901) / 100 + (y - 1601) / 400.

Definition TimeFromYear (y : Z) : Z := msPerDay * DayFromYear y.

(** The year of a day number: the largest [y] with [DayFromYear y <= d].
    The quotient by the mean year length is off by at most one. *)
Definition YearFromDay (d : Z) : Z :=
  let y0 := 1970 + (400 * d) / 146097 in
  if DayFromYear (y0 + 1) <=? d then y0 + 1
  else if DayFromYear y0 <=? d then y0
  else y0 - 1.

Definition YearFromTime (t : Z) : Z := YearFromDay (Day t).

Definition InLeapYear (t : Z) : Z :=
  if DaysInYear (YearFromTime t) =? 366 then 1 else 0.

Definition DayWithinYear (t : Z) : Z :=
  Day t - DayFromYear (YearFromTime t).

Definition MonthFromTime (t : Z) : Z :=
  let d := DayWithinYear t in
  let l := InLeapYear t in
  if d <? 31 then 0
  else if d <? 59 + l then 1
  else if d <? 90 + l then 2
  else if d <? 120 + l then 3
  else if d <? 151 + l then 4
  else if d <? 181 + l then 5
  else if d <? 212 + l then 6
  else if d <? 243 + l then 7
  else if d <? 273 + l then 8
  else if d <? 304 + l then 9
  else if d <? 334 + l then 10
  else 11.

Definition DateFromTime (t : Z) : Z :=
  let d := DayWithinYear t in
  let l := InLeapYear t in
  match MonthFromTime t with
  | 0 => d + 1
  | 1 => d - 30
  | 2 => d - 58 - l
  | 3 => d - 89 - l
  | 4 => d - 119 - l
  | 5 => d - 150 - l
  | 6 => d - 180 - l
  | 7 => d - 211 - l
  | 8 => d - 242 - l
  | 9 => d - 272 - l
  | 10 => d - 303 - l
  | _ => d - 333 - l
  end.

Definition MakeTime (hour min sec ms : Z) : Z :=
  hour * msPerHour + min * msPerMinute + sec * msPerSecond + ms.

(** Days of the year before month [mn] (0-based), in a year of [diy] days. *)
Definition DaysBeforeMonth (diy mn : Z) : Z :=
  let l := if diy =? 366 then 1 else 0 in
  match mn with
  | 0 => 0
  | 1 => 31
  | 2 => 59 + l
  | 3 => 90 + l
  | 4 => 120 + l
  | 5 => 151 + l
  | 6 => 181 + l
  | 7 => 212 + l
  | 8 => 243 + l
  | 9 => 273 + l
  | 10 => 304 + l
  | _ => 334 + l
  end.

(** [MakeDay]: months beyond 0..11 carry into the year, and the day of the
    month is an offset from the first of the month, so that day 0 is the
    last day of the month before. *)
Definition MakeDay (year month date : Z) : Z :=
  let ym := year + month / 12 in
  let mn := month mod 12 in
  DayFromYear ym + DaysBeforeMonth (DaysInYear ym) mn + date - 1.

Definition MakeDate (day time : Z) : Z := day * msPerDay + time.

Definition maxTime : Z := 8640000000000000.

Definition TimeClip (t : Z) : number :=
  if Z.abs t <=? maxTime then Num t else NaN.

(** [new Date(year, month, date, hours, minutes, seconds)]; a call with
    fewer arguments passes [date = 1] and zeros.  A year from 0 to 99 stands
    for 1900 + year. *)
Definition fullYear (y : Z) : Z :=
  if (0 <=? y) && (y <=? 99) then 1900 + y else y.

Definition make (year month date hours minutes seconds : number) : number :=
  match year, month, date, hours, minutes, seconds with
  | Num y, Num m, Num dt, Num h, Num mi, Num s =>
      TimeClip (MakeDate (MakeDay (fullYear y) m dt) (MakeTime h mi s 0))
  | _, _, _, _, _, _ => NaN
  end.

(** [new Date(year, month, date)] *)
Definition make3 (year month date : number) : number :=
  make year month date (Num 0) (Num 0) (Num 0).

Definition getFullYear (d : number) : number :=
  match d with Num t => Num (YearFromTime t) | NaN => NaN end.

Definition getMonth (d : number) : number :=
  match d with Num t => Num (MonthFromTime t) | NaN => NaN end.

(** [d.toISOString().split("T")[0]]: the calendar date of a valid date, as
    (year, month 1..12, day); [toISOString] throws on the Invalid Date. *)
Definition toISODate (d : number) : option (Z * Z * Z) :=
  match d with
  | Num t => Some (YearFromTime t, MonthFromTime t + 1, DateFromTime t)
  | NaN => None
  end.

(** Days in month [mn] (0-based) of year [y]. *)
Definition DaysInMonth (y mn : Z) : Z :=
  let l := if DaysInYear y =? 366 then 1 else 0 in
  match mn with
  | 1 => 28 + l
  | 3 | 5 | 8 | 10 => 30
  | _ => 31
  end.

(** The time value of a calendar instant, month 1-based and all fields in
    their calendar ranges: "hh:mm:ss.ms of day d of month m of year y". *)
Definition civil (y m d hh mm ss ms : Z) : Z :=
  (DayFromYear y + DaysBeforeMonth (DaysInYear y) (m - 1) + (d - 1)) * msPerDay
  + hh * msPerHour + mm * msPerMinute + ss * msPerSecond + ms.

End Date.

(** ** Strings: [parseInt] and [String] on integers *)

Module JsString.

(** The UTF-8 encoding of a code point below 65536. *)
Definition utf8 (cp : N) : string :=
  (if cp <? 128 then String (ascii_of_N cp) ""
   else if cp <? 2048 then
     String (ascii_of_N (192 + cp / 64))
       (String (ascii_of_N (128 + cp mod 64)) "")
   else
     String (ascii_of_N (224 + cp / 4096))
       (String (ascii_of_N (128 + (cp / 64) mod 64))
          (String (ascii_of_N (128 + cp mod 64)) "")))%N.

(** The code points of StrWhiteSpaceChar, which [parseInt] and [trim] skip:
    WhiteSpace (TAB, VT, FF, SP, NBSP U+00A0, U+1680, U+2000 to U+200A,
    U+202F, U+205F, U+3000 and ZWNBSP U+FEFF) and LineTerminator (LF, CR,
    U+2028, U+2029). *)
Definition whiteSpace : list N :=
  [9; 10; 11; 12; 13; 32; 160; 5760;
   8192; 8193; 8194; 8195; 8196; 8197; 8198; 8199; 8200; 8201; 8202;
   8232; 8233; 8239; 8287; 12288; 65279]%N.

(** The number of bytes of the white space character at the head of [s],
    0 when [s] begins with none. *)
Definition whiteSpaceLength (s : string) : nat :=
  match find (fun cp => String.prefix (utf8 cp) s) whiteSpace with
  | Some cp => String.length (utf8 cp)
  | None => 0
  end.

(** [s.trimStart()], the first step of [parseInt]. *)
Fixpoint trimStart (s : string) : string :=
  match whiteSpaceLength s, s with
  | 1%nat, String _ r => trimStart r
  | 2%nat, String _ (String _ r) => trimStart r
  | 3%nat, String _ (String _ (String _ r)) => trimStart r
  | _, _ => s
  end.

(** The value of a digit in radixes up to 36. *)
Definition digitValue (c : ascii) : option Z :=
  let n := Z.of_N (N_of_ascii c) in
  if (48 <=? n) && (n <=? 57) then Some (n - 48)
  else if (97 <=? n) && (n <=? 122) then Some (n - 87)
  else if (65 <=? n) && (n <=? 90) then Some (n - 55)
  else None.

Definition isDigit (R : Z) (c : ascii) : bool :=
  match digitValue c with
  | Some d => d <? R
  | None => false
  end.

(** The value of the longest prefix of radix-[R] digits, continuing [acc]. *)
Fixpoint digits (R : Z) (s : string) (acc : Z) : Z :=
  match s with
  | String c r =>
      match digitValue c with
      | Some d => if d <? R then digits R r (acc * R + d) else acc
      | None => acc
      end
  | EmptyString => acc
  end.

(** The unsigned part of [parseInt] with no radix argument: an optional
    [0x] prefix selects radix 16, then comes the longest run of digits;
    [None] when there is no digit. *)
Definition magnitude (s : string) : option Z :=
  let '(R, s3) :=
    match s with
    | String "0" (String "x" r) => (16, r)
    | String "0" (String "X" r) => (16, r)
    | _ => (10, s)
    end in
  match s3 with
  | String c _ => if isDigit R c then Some (digits R s3 0) else None
  | EmptyString => None
  end.

(** [parseInt(s)]: leading white space, a sign, the magnitude; NaN when
    there is no digit. *)
Definition parseInt (s : string) : number :=
  let s1 := trimStart s in
  let '(sign, s2) :=
    match s1 with
    | String "-" r => (-1, r)
    | String "+" r => (1, r)
    | _ => (1, s1)
    end in
  match magnitude s2 with
  | Some v => Num (sign * v)
  | None => NaN
  end.

(** [String(n)] for an integer [n]: its decimal numeral. *)
Definition ofInt (n : Z) : string :=
  DecimalString.NilZero.string_of_int (Z.to_int n).

(** [s.slice(n)], used behind an ASCII prefix of [n] characters. *)
Fixpoint slice (n : nat) (s : string) : string :=
  match n, s with
  | O, _ => s
  | S n', String _ r => slice n' r
  | S _, EmptyString => EmptyString
  end.

Definition startsWith (s p : string) : bool := String.prefix p s.

End JsString.

(** ** The record store *)

(** Modelled from the spec: the schema of [studyCards] ([~/server/db/schema])
    is not among the sources.  A row, with the columns the two routes read:
    an optional category, an optional cost, the completion flag and the
    creation time. *)
Record StudyCard : Type := {
  id : Z;
  category : option string;
  estimatedCost : option Z;
  isCompleted : bool;
  createdAt : Z                      (* time value, milliseconds *)
}.

(** The database: its rows, or [None] when it cannot be reached and every
    query throws.  One snapshot of the table serves all the queries of a
    request. *)
Definition Database : Type := option (list StudyCard).

Module Db.

(** [db.select().from(studyCards).where(and(gte(createdAt, periodStart),
    lte(createdAt, periodEnd)))].  An Invalid Date cannot be sent as a
    parameter: the driver serialises dates with [toISOString], which
    throws. *)
Definition selectBetween (db : Database) (periodStart periodEnd : number)
  : option (list StudyCard) :=
  match db, periodStart, periodEnd with
  | Some rows, Num s, Num e =>
      Some (filter (fun c => (s <=? createdAt c) && (createdAt c <=? e)) rows)
  | _, _, _ => None
  end.

(** [select count( * ) from studyCards] *)
Definition countAll (db : Database) : option Z :=
  match db with
  | Some rows => Some (Z.of_nat (List.length rows))
  | None => None
  end.

(** [select count( * ) from studyCards where isCompleted = true] *)
Definition countCompleted (db : Database) : option Z :=
  match db with
  | Some rows => Some (Z.of_nat (List.length (filter isCompleted rows)))
  | None => None
  end.

End Db.

(** ** Requests, environment and responses *)

Record Request : Type := {
  authorization : option string;          (* the Authorization header *)
  searchParams : list (string * string)   (* the query string, in order *)
}.

(** Modelled from the spec: the environment ([~/env]) is not among the
    sources; the routes read one optional secret from it. *)
Record Env : Type := {
  PRESIDENT_API_KEY : option string
}.

(** The same request under another Authorization header. *)
Definition withAuthorization (h : option string) (request : Request) : Request :=
  {| authorization := h; searchParams := searchParams request |}.

(** [url.searchParams.get(name)]: the first value of that name. *)
Fixpoint searchParams_get (params : list (string * string)) (name : string)
  : option string :=
  match params with
  | (k, v) :: rest => if (k =? name)%string then Some v else searchParams_get rest name
  | [] => None
  end.

(** [a ?? b] *)
Definition orElse {A} (a : option A) (b : A) : A :=
  match a with
  | Some x => x
  | None => b
  end.
Infix "??" := orElse (at level 45, left associativity).

Record CategoryEntry : Type := {
  name : string;
  amount : Z;
  count : Z
}.

Record Metadata : Type := {
  totalItems : Z;
  totalCompleted : Z;
  periodItemCount : Z;
  periodCompletedCount : Z;
  completionRate : number
}.

(** The report's JSON body ([generatedAt], a later clock reading, is left
    out). Dates are (year, month, day). *)
Record FinanceSummary : Type := {
  projectCode : string;
  projectName : string;
  periodType : string;
  periodStart : Z * Z * Z;
  periodEnd : Z * Z * Z;
  currency : string;
  totalRevenue : Z;
  totalExpenses : Z;
  netProfit : Z;
  cashInflow : Z;
  cashOutflow : Z;
  netCashFlow : Z;
  revenueCategories : list CategoryEntry;
  expenseCategories : list CategoryEntry;
  metadata : Metadata
}.

(** One entry of the history's [summaries]. *)
Record MonthSummary : Type := {
  m_periodType : string;
  m_periodStart : Z * Z * Z;
  m_periodEnd : Z * Z * Z;
  m_totalRevenue : Z;
  m_totalExpenses : Z;
  m_netProfit : Z;
  m_cashInflow : Z;
  m_cashOutflow : Z;
  m_netCashFlow : Z;
  m_itemCount : Z;
  m_completedCount : Z;
  m_expenseCategories : list CategoryEntry
}.

Record FinanceHistory : Type := {
  h_projectCode : string;
  h_projectName : string;
  h_currency : string;
  summaries : list MonthSummary
}.

Inductive Body : Type :=
| ErrorBody (error : string)
| SummaryBody (s : FinanceSummary)
| HistoryBody (h : FinanceHistory).

Record Response : Type := {
  status : Z;
  body : Body
}.

Definition json {A} (mk : A -> Body) (a : A) (st : Z) : Response :=
  {| status := st; body := mk a |}.

(** ** What the two routes share *)

(** The bearer-token check at the head of both handlers: [true] when the
    request is turned away.  An empty key is falsy and counts as no key. *)
Definition providedKey (authHeader : option string) : option string :=
  match authHeader with
  | Some h => if JsString.startsWith h "Bearer " then Some (JsString.slice 7 h) else None
  | None => None
  end.

Definition rejected (env : Env) (request : Request) : bool :=
  match PRESIDENT_API_KEY env with
  | Some apiKey =>
      if (apiKey =? "")%string then false
      else match providedKey (authorization request) with
           | Some k => negb (k =? apiKey)%string
           | None => true
           end
  | None => false
  end.

Definition unauthorized : Response :=
  json ErrorBody "Unauthorized. Invalid or missing API key." 401.

Definition serverError : Response :=
  json ErrorBody "Internal server error" 500.

(** [card.estimatedCost ?? 0] *)
Definition cost (card : StudyCard) : Z := estimatedCost card ?? 0.

(** [cards.reduce((sum, card) => sum + (card.estimatedCost ?? 0), 0)] *)
Definition sumCost (cards : list StudyCard) : Z :=
  fold_left (fun sum card => sum + cost card) cards 0.

(** A [Map<string, {amount, count}>]: keys in insertion order. *)
Record Totals : Type := {
  t_amount : Z;
  t_count : Z
}.

Definition CategoryMap : Type := list (string * Totals).

Fixpoint Map_get (m : CategoryMap) (k : string) : option Totals :=
  match m with
  | (k', v) :: rest => if (k' =? k)%string then Some v else Map_get rest k
  | [] => None
  end.

(** [m.set(k, v)]: a present key keeps its place, a new one goes last. *)
Fixpoint Map_set (m : CategoryMap) (k : string) (v : Totals) : CategoryMap :=
  match m with
  | (k', v') :: rest =>
      if (k' =? k)%string then (k', v) :: rest else (k', v') :: Map_set rest k v
  | [] => [(k, v)]
  end.

(** The body of the grouping loop, for one card. *)
Definition addCard (categoryMap : CategoryMap) (card : StudyCard) : CategoryMap :=
  let cat := category card ?? "Uncategorized" in
  let existing := Map_get categoryMap cat ?? {| t_amount := 0; t_count := 0 |} in
  Map_set categoryMap cat
    {| t_amount := t_amount existing + cost card;
       t_count := t_count existing + 1 |}.

(** The loop over the cards, then [Array.from(map.entries()).map(...)]. *)
Definition categoryBreakdown (cards : list StudyCard) : list CategoryEntry :=
  map (fun '(name, data) =>
         {| name := name; amount := t_amount data; count := t_count data |})
      (fold_left addCard cards []).

(** The option monad stands for the [try] block: [None] is a throw. *)
Notation "x <- a ;; b" :=
  (match a with Some x => b | None => None end)
  (at level 61, a at next level, right associativity).

(** ** [Math.round] on binary64 *)

Module JsMath.

Definition ofZ (z : Z) : float := PrimFloat.of_uint63 (Uint63.of_Z z).

(** [Math.round(x)]: the integer nearest to [x], the larger one on a tie;
    computed exactly from the mantissa and exponent of [x]. *)
Definition round (x : float) : number :=
  match Prim2SF x with
  | SpecFloat.S754_zero _ => Num 0
  | SpecFloat.S754_finite s m e =>
      let n := if s then Z.neg m else Z.pos m in
      Num (if 0 <=? e then n * 2 ^ e
           else (2 * n + 2 ^ (- e)) / 2 ^ (1 - e))
  | _ => NaN
  end.

(** [Math.round((totalCompleted / totalItems) * 100)] *)
Definition percent (totalCompleted totalItems : Z) : number :=
  round (PrimFloat.mul (PrimFloat.div (ofZ totalCompleted) (ofZ totalItems))
                       (ofZ 100)).

End JsMath.

(** ** The report route: the Finance Summary API *)

Module Summary.

(** The period boundaries (the three branches on [periodType]). *)
Definition periodBounds (periodType : string) (year month : number)
  : number * number :=
  if (periodType =? "yearly")%string then
    (Date.make3 year (Num 0) (Num 1),
     Date.make year (Num 11) (Num 31) (Num 23) (Num 59) (Num 59))
  else if (periodType =? "quarterly")%string then
    let quarter := Js.ceil_div month 3 in
    (Date.make3 year (Js.mul (Js.sub quarter (Num 1)) (Num 3)) (Num 1),
     Date.make year (Js.mul quarter (Num 3)) (Num 0) (Num 23) (Num 59) (Num 59))
  else
    (Date.make3 year (Js.sub month (Num 1)) (Num 1),
     Date.make year month (Num 0) (Num 23) (Num 59) (Num 59)).

(** [totalItems > 0 ? Math.round((totalCompleted / totalItems) * 100) : 0] *)
Definition rate (totalItems totalCompleted : Z) : number :=
  if 0 <? totalItems then JsMath.percent totalCompleted totalItems else Num 0.

(** The [try] block: the queries, the aggregation and the JSON body. *)
Definition report (db : Database) (periodType : string)
           (periodStart periodEnd : number) : option FinanceSummary :=
  periodCards <- Db.selectBetween db periodStart periodEnd ;;
  let totalExpenses := sumCost periodCards in
  let completedCards := filter isCompleted periodCards in
  let completedValue := sumCost completedCards in
  let totalRevenue := completedValue in
  let netProfit := totalRevenue - totalExpenses in
  let cashInflow := completedValue in
  let cashOutflow := totalExpenses in
  let netCashFlow := cashInflow - cashOutflow in
  let expenseCategories := categoryBreakdown periodCards in
  let revenueCategories := categoryBreakdown completedCards in
  totalItems <- Db.countAll db ;;
  totalCompleted <- Db.countCompleted db ;;
  periodStart <- Date.toISODate periodStart ;;
  periodEnd <- Date.toISODate periodEnd ;;
  Some {| projectCode := "VLHOLDINGS";
          projectName := "VL Holdings";
          periodType := periodType;
          periodStart := periodStart;
          periodEnd := periodEnd;
          currency := "THB";
          totalRevenue := totalRevenue;
          totalExpenses := totalExpenses;
          netProfit := netProfit;
          cashInflow := cashInflow;
          cashOutflow := cashOutflow;
          netCashFlow := netCashFlow;
          revenueCategories := revenueCategories;
          expenseCategories := expenseCategories;
          metadata :=
            {| totalItems := totalItems;
               totalCompleted := totalCompleted;
               periodItemCount := Z.of_nat (List.length periodCards);
               periodCompletedCount := Z.of_nat (List.length completedCards);
               completionRate := rate totalItems totalCompleted |} |}.

(** The query parameters, with their defaults for an absent parameter;
    [now] is the clock's reading when the handler runs. *)
Definition periodTypeOf (request : Request) : string :=
  searchParams_get (searchParams request) "periodType" ?? "monthly".

Definition yearOf (now : Z) (request : Request) : number :=
  JsString.parseInt
    (searchParams_get (searchParams request) "year"
     ?? JsString.ofInt (Date.YearFromTime now)).

Definition monthOf (now : Z) (request : Request) : number :=
  JsString.parseInt
    (searchParams_get (searchParams request) "month"
     ?? JsString.ofInt (Date.MonthFromTime now + 1)).

(** The handler after the key check: query parameters, boundaries, [try]. *)
Definition handle (db : Database) (now : Z) (request : Request) : Response :=
  let periodType := periodTypeOf request in
  let year := yearOf now request in
  let month := monthOf now request in
  let '(periodStart, periodEnd) := periodBounds periodType year month in
  match report db periodType periodStart periodEnd with
  | Some summary => json SummaryBody summary 200
  | None => serverError
  end.

Definition GET (env : Env) (db : Database) (now : Z) (request : Request)
  : Response :=
  if rejected env request then unauthorized else handle db now request.

End Summary.

(** ** The history route: the Monthly Finance History API *)

Module Monthly.

(** What a run of the [for] loop comes to. *)
Inductive outcome : Type :=
| Done (summaries : list MonthSummary)
| Threw
| OutOfFuel.

(** The loop body for index [i]. *)
Definition monthSummary (db : Database) (now : Z) (i : Z) : option MonthSummary :=
  let now := Num now in
  let targetDate :=
    Date.make3 (Date.getFullYear now) (Js.sub (Date.getMonth now) (Num i)) (Num 1) in
  let periodStart :=
    Date.make3 (Date.getFullYear targetDate) (Date.getMonth targetDate) (Num 1) in
  let periodEnd :=
    Date.make (Date.getFullYear targetDate)
              (Js.add (Date.getMonth targetDate) (Num 1))
              (Num 0) (Num 23) (Num 59) (Num 59) in
  periodCards <- Db.selectBetween db periodStart periodEnd ;;
  let totalExpenses := sumCost periodCards in
  let completedCards := filter isCompleted periodCards in
  let completedValue := sumCost completedCards in
  let totalRevenue := completedValue in
  let categories := categoryBreakdown periodCards in
  periodStart <- Date.toISODate periodStart ;;
  periodEnd <- Date.toISODate periodEnd ;;
  Some {| m_periodType := "monthly";
          m_periodStart := periodStart;
          m_periodEnd := periodEnd;
          m_totalRevenue := totalRevenue;
          m_totalExpenses := totalExpenses;
          m_netProfit := totalRevenue - totalExpenses;
          m_cashInflow := completedValue;
          m_cashOutflow := totalExpenses;
          m_netCashFlow := completedValue - totalExpenses;
          m_itemCount := Z.of_nat (List.length periodCards);
          m_completedCount := Z.of_nat (List.length completedCards);
          m_expenseCategories := categories |}.

(** [for (let i = 0; i < monthsCount; i++) { ...; summaries.push(...) }],
    entered at index [i] with the summaries pushed so far. *)
Fixpoint loop (fuel : nat) (db : Database) (now : Z) (monthsCount : number)
         (i : Z) (summaries : list MonthSummary) : outcome :=
  if Js.ltb (Num i) monthsCount then
    match fuel with
    | O => OutOfFuel
    | S fuel' =>
        match monthSummary db now i with
        | Some s => loop fuel' db now monthsCount (i + 1) (summaries ++ [s])
        | None => Threw
        end
    end
  else Done summaries.

Definition monthsCountOf (request : Request) : number :=
  Js.min (JsString.parseInt
            (searchParams_get (searchParams request) "months" ?? "12"))
         (Num 24).

(** The handler after the key check.  [monthsCount] is at most 24, so 24
    runs of the loop are all it can make. *)
Definition handle (db : Database) (now : Z) (request : Request) : Response :=
  let monthsCount := monthsCountOf request in
  match loop 24 db now monthsCount 0 [] with
  | Done summaries =>
      json HistoryBody
           {| h_projectCode := "VLHOLDINGS";
              h_projectName := "VL Holdings";
              h_currency := "THB";
              summaries := summaries |} 200
  | Threw => serverError
  | OutOfFuel => serverError
  end.

Definition GET (env : Env) (db : Database) (now : Z) (request : Request)
  : Response :=
  if rejected env request then unauthorized else handle db now request.

End Monthly.

(** ** The specification's vocabulary

    Definitions that follow the words of the specification; the theorems
    below compare the routes with them. *)

Module Spec.

(** The sum of a list of amounts. *)
Definition total (amounts : list Z) : Z := fold_right Z.add 0 amounts.

(** "sum of estimatedCost (0 if absent)" over a set of rows. *)
Definition sumOfCosts (rows : list StudyCard) : Z := total (map cost rows).

(** The rows whose [createdAt] lies in the inclusive interval. *)
Definition inPeriod (s e : Z) (rows : list StudyCard) : list StudyCard :=
  filter (fun c => (s <=? createdAt c) && (createdAt c <=? e)) rows.

(** The group a row belongs to: its category, "Uncategorized" when the
    category is null. *)
Definition groupName (row : StudyCard) : string :=
  match category row with
  | Some c => c
  | None => "Uncategorized"
  end.

(** The distinct names of a list, in the order of their first occurrence. *)
Fixpoint firsts (names : list string) : list string :=
  match names with
  | [] => []
  | k :: rest => k :: filter (fun x => negb (x =? k)%string) (firsts rest)
  end.

(** The same with "Uncategorized when null or empty", as the specification
    words it. *)
Definition groupNameOrEmpty (row : StudyCard) : string :=
  match category row with
  | Some "" => "Uncategorized"
  | Some c => c
  | None => "Uncategorized"
  end.

Definition group (k : string) (rows : list StudyCard) : list StudyCard :=
  filter (fun c => (groupName c =? k)%string) rows.

(** "{name, amount: sum(estimatedCost), count}" for the group named [k]. *)
Definition entry (rows : list StudyCard) (k : string) : CategoryEntry :=
  {| name := k;
     amount := sumOfCosts (group k rows);
     count := Z.of_nat (List.length (group k rows)) |}.

(** "group ALL rows by category; order: insertion order of first
    occurrence". *)
Definition breakdown (rows : list StudyCard) : list CategoryEntry :=
  map (entry rows) (firsts (map groupName rows)).

(** Round to the nearest integer, halves upwards, of [100 * a / b]. *)
Definition roundedPercent (a b : Z) : Z := (200 * a + b) / (2 * b).

(** The month [i] months before the month of year [y] and 0-based month
    [mn], as (year, month 1..12). *)
Definition monthsBefore (y mn i : Z) : Z * Z :=
  let idx := y * 12 + mn - i in
  (idx / 12, idx mod 12 + 1).

(** First and last instant (at the resolution of one second) of month [m]
    (1..12) of year [y]. *)
Definition monthStart (y m : Z) : Z := Date.civil y m 1 0 0 0 0.
Definition monthEnd (y m : Z) : Z :=
  Date.civil y m (Date.DaysInMonth y (m - 1)) 23 59 59 0.

(** What the history says of month [m] of year [y]: the totals and the
    expense breakdown of the rows created in that month. *)
Definition monthEntry (table : list StudyCard) (y m : Z) : MonthSummary :=
  let rows := inPeriod (monthStart y m) (monthEnd y m) table in
  let completed := filter isCompleted rows in
  {| m_periodType := "monthly";
     m_periodStart := (y, m, 1);
     m_periodEnd := (y, m, Date.DaysInMonth y (m - 1));
     m_totalRevenue := sumOfCosts completed;
     m_totalExpenses := sumOfCosts rows;
     m_netProfit := sumOfCosts completed - sumOfCosts rows;
     m_cashInflow := sumOfCosts completed;
     m_cashOutflow := sumOfCosts rows;
     m_netCashFlow := sumOfCosts completed - sumOfCosts rows;
     m_itemCount := Z.of_nat (List.length rows);
     m_completedCount := Z.of_nat (List.length completed);
     m_expenseCategories := breakdown rows |}.

(** The years whose every instant a [Date] can hold. *)
Definition representable (y : Z) : Prop := -271820 <= y <= 275759.

End Spec.

(** ** Sample data

    The concrete tables, requests and clock readings of the examples. *)

Module Sample.

(** 2024-04-10, noon. *)
Definition now : Z := Date.civil 2024 4 10 12 0 0 0.

Definition card (i : Z) (cat : option string) (c : option Z) (completed : bool)
           (created : Z) : StudyCard :=
  {| id := i; category := cat; estimatedCost := c; isCompleted := completed;
     createdAt := created |}.

Definition query (params : list (string * string)) : Request :=
  {| authorization := None; searchParams := params |}.

Definition no_key : Env := {| PRESIDENT_API_KEY := None |}.
Definition with_key : Env := {| PRESIDENT_API_KEY := Some "secret" |}.

(** The two rows of the specification's example. *)
Definition march : list StudyCard :=
  [ card 1 None (Some 100) false (Date.civil 2024 3 15 0 0 0 0);
    card 2 None (Some 50) true (Date.civil 2024 3 20 0 0 0 0) ].

Definition march_request : Request :=
  query [("periodType", "monthly"); ("year", "2024"); ("month", "3")].

(** Three rows, one without a cost, two of one category. *)
Definition mixed : list StudyCard :=
  [ card 1 (Some "Land") (Some 100) false 5;
    card 2 None None true 6;
    card 3 (Some "Land") (Some 50) true 7 ].

(** A row whose category is the empty string. *)
Definition unnamed : StudyCard := card 1 (Some "") (Some 7) false 5.

(** A row created half a second before April 2024 begins. *)
Definition late : StudyCard :=
  card 1 None (Some 7) false (Date.civil 2024 3 31 23 59 59 500).

(** Forty rows, twenty-three of them completed. *)
Definition forty : list StudyCard :=
  repeat (card 1 None None true 0) 23 ++ repeat (card 2 None None false 0) 17.

End Sample.

(** ** Months on one line

    The month of year [y] and month [m] (1..12) has the index
    [12 * y + (m - 1)]; consecutive months have consecutive indices. *)

Module Timeline.

Definition startOf (idx : Z) : Z := Spec.monthStart (idx / 12) (idx mod 12 + 1).
Definition endOf (idx : Z) : Z := Spec.monthEnd (idx / 12) (idx mod 12 + 1).

(** The rows of a table created in the month of index [idx]. *)
Definition rowsOf (table : list StudyCard) (idx : Z) : list StudyCard :=
  Spec.inPeriod (startOf idx) (endOf idx) table.

End Timeline.

(** The report of a table for given parameters: the boundaries, then the
    [try] block, as [Summary.handle] chains them. *)
Definition reportOf (db : Database) (periodType : string) (year month : number)
  : option FinanceSummary :=
  let '(periodStart, periodEnd) := Summary.periodBounds periodType year month in
  Summary.report db periodType periodStart periodEnd.

(** The sum of the item counts of a list of monthly summaries. *)
Definition itemsCounted (l : list MonthSummary) : Z :=
  Spec.total (map m_itemCount l).

(** ** Text and parsed JSON

    The pages and the scripts work on text and on the values [JSON.parse]
    returns. *)

Module JsText.

(** [s.split(sep)] for a separator of one character. *)
Fixpoint split (sep : ascii) (s : string) : list string :=
  match s with
  | EmptyString => [""]
  | String c r =>
      if Ascii.eqb c sep then "" :: split sep r
      else match split sep r with
           | piece :: rest => String c piece :: rest
           | [] => [String c ""]
           end
  end.



(** [Boolean(s)] for a string: false on the empty string only. *)
Definition truthy (s : string) : bool := negb (s =? "")%string.

End JsText.

(** A value returned by [JSON.parse].  The members of an object are its own
    properties, each name once; the numbers met here are integers. *)
#[local] Unset Elimination Schemes.
Inductive Json : Type :=
| JNull
| JBool (b : bool)
| JNumber (n : Z)
| JString (s : string)
| JArray (items : list Json)
| JObject (members : list (string * Json)).
#[local] Set Elimination Schemes.

Module JsValue.

Fixpoint member (k : string) (members : list (string * Json)) : option Json :=
  match members with
  | (k', v) :: rest => if (k' =? k)%string then Some v else member k rest
  | [] => None
  end.

(** [item.k] for a value that is not null and a name [k] that no prototype
    defines: [None] is undefined.  Only an object has such a property. *)
Definition prop (item : Json) (k : string) : option Json :=
  match item with
  | JObject members => member k members
  | _ => None
  end.

(** [a === b] for a property [a] just read and a text column [b] of a row
    ([None] is null). *)
Definition strictEq (a : option Json) (b : option string) : bool :=
  match a, b with
  | Some (JString s), Some t => (s =? t)%string
  | Some JNull, None => true
  | _, _ => false
  end.

(** [typeof item === "object" && item !== null] *)
Definition isObject (item : Json) : bool :=
  match item with
  | JArray _ | JObject _ => true
  | _ => false
  end.

(** [items.filter(p)] with a callback that may throw. *)
Fixpoint filterM (p : Json -> option bool) (items : list Json)
  : option (list Json) :=
  match items with
  | [] => Some []
  | a :: rest =>
      b <- p a ;;
      kept <- filterM p rest ;;
      Some (if b then a :: kept else kept)
  end.

End JsValue.

(** ** The card pages *)

Module Page.

(** The parts of a parsed [URL] that the pages read. *)
Record URL : Type := {
  hostname : string;
  pathname : string;
  query : list (string * string)        (* searchParams *)
}.

(** [host.replace(/^www\./, "")] *)
Definition stripWww (host : string) : string :=
  if JsString.startsWith host "www." then JsString.slice 4 host else host.

(** [pathname.split("/").filter(Boolean)] *)
Definition segments (path : string) : list string :=
  filter JsText.truthy (JsText.split "/" path).

(** [id ? `https://www.youtube.com/embed/${id}` : null] *)
Definition embed (id : option string) : option string :=
  match id with
  | Some i =>
      if JsText.truthy i then Some ("https://www.youtube.com/embed/" ++ i)%string
      else None
  | None => None
  end.

(** [getYoutubeEmbedUrl], the same function on the list page and on the
    card page.  [newURL] is the constructor [new URL(url)], [None] when it
    throws; the result [None] is null. *)
Definition getYoutubeEmbedUrl (newURL : string -> option URL) (url : string)
  : option string :=
  match newURL url with
  | Some parsed =>
      let host := stripWww (hostname parsed) in
      if (host =? "youtu.be")%string then
        embed (nth_error (segments (pathname parsed)) 0)
      else if (host =? "youtube.com")%string || (host =? "m.youtube.com")%string then
        if (pathname parsed =? "/watch")%string then
          embed (searchParams_get (query parsed) "v")
        else if JsString.startsWith (pathname parsed) "/shorts/"
                || JsString.startsWith (pathname parsed) "/embed/" then
          embed (nth_error (segments (pathname parsed)) 1)
        else None
      else None
  | None => None
  end.

(** [x.toFixed(1)] for the number [x = num / den] ([0 < den]): the integer
    [n] with [n / 10] nearest to [x], the larger one at a tie, written with
    one decimal.  From 10^21 on [toFixed] writes the number as [String]
    does, with an exponent; that notation is not modelled, the result is
    then [None]. *)
Definition toFixed1 (num den : Z) : option string :=
  if 10 ^ 21 * den <=? Z.abs num then None
  else
    let n := (20 * Z.abs num + den) / (2 * den) in
    let sign : string := if num <? 0 then "-" else "" in
    Some (sign ++ JsString.ofInt (n / 10) ++ "." ++ JsString.ofInt (n mod 10))%string.

(** [formatFileSize] on a whole number of bytes below 2^53 in size, and
    [None] on the others, which are not modelled.  The quotients by 1024 and
    by 1024 * 1024 are then exact binary64 numbers, so [toFixed] rounds the
    exact quotient. *)
Definition formatFileSize (bytes : Z) : option string :=
  if 2 ^ 53 <=? Z.abs bytes then None
  else if bytes <? 1024 then Some (JsString.ofInt bytes ++ " B")%string
  else if bytes <? 1024 * 1024 then
    text <- toFixed1 bytes 1024 ;; Some (text ++ " KB")%string
  else
    text <- toFixed1 bytes (1024 * 1024) ;; Some (text ++ " MB")%string.

(** [card.attachments ? JSON.parse(card.attachments) : []]; [parse] is
    [JSON.parse], [None] when it throws. *)
Definition parsedAttachments (parse : string -> option Json)
           (attachments : option string) : option Json :=
  match attachments with
  | Some text => if JsText.truthy text then parse text else Some (JArray [])
  | None => Some (JArray [])
  end.

(** [a.kind === "card-image"]; reading a property of null throws. *)
Definition isCardImage (a : Json) : option bool :=
  match a with
  | JNull => None
  | _ => Some (JsValue.strictEq (JsValue.prop a "kind") (Some "card-image"))
  end.

(** The image of the card itself, as the page adds it to the gallery. *)
Definition cardImage (imageUrl : string) (imageS3Key : option string) : Json :=
  JObject [("s3Key", JString (imageS3Key ?? imageUrl));
           ("url", JString imageUrl);
           ("subfolder", JString "study-cards/images");
           ("originalName", JString "Card image");
           ("mimeType", JString "image/jpeg");
           ("fileSize", JNumber 0);
           ("kind", JString "card-image")].

(** Whether [img] is the image of the card: the callback of [some]. *)
Definition sameImage (imageUrl : string) (imageS3Key : option string)
           (img : Json) : bool :=
  JsValue.strictEq (JsValue.prop img "s3Key") imageS3Key
  || JsValue.strictEq (JsValue.prop img "url") (Some imageUrl).

(** [galleryImages] of the card page; a value that is no array has no
    [filter], so the call throws. *)
Definition galleryImages (imageUrl imageS3Key : option string) (parsed : Json)
  : option (list Json) :=
  match parsed with
  | JArray items =>
      gallery <- JsValue.filterM isCardImage items ;;
      match imageUrl with
      | Some u =>
          if JsText.truthy u && negb (existsb (sameImage u imageS3Key) gallery)
          then Some (cardImage u imageS3Key :: gallery)
          else Some gallery
      | None => Some gallery
      end
  | _ => None
  end.

(** [fileAttachments] of the card page. *)
Definition fileAttachments (parsed : Json) : option (list Json) :=
  match parsed with
  | JArray items =>
      JsValue.filterM (fun a => option_map negb (isCardImage a)) items
  | _ => None
  end.


End Page.

(** ** The maintenance scripts *)

Module Script.

(** [parsed] of [debug-attachments]: a text that does not parse counts as
    the empty list. *)
Definition parsed (parse : string -> option Json) (attachments : option string)
  : Json :=
  match attachments with
  | Some text =>
      if JsText.truthy text
      then match parse text with
           | Some v => v
           | None => JArray []
           end
      else JArray []
  | None => JArray []
  end.

(** The callback of the count. *)
Definition counted (item : Json) : bool :=
  JsValue.isObject item
  && negb (JsValue.strictEq (JsValue.prop item "kind") (Some "card-image")).

(** [attachmentCount]; [None] when [parsed] is no array and the script
    stops on the call of [filter]. *)
Definition attachmentCount (parsed : Json) : option Z :=
  match parsed with
  | JArray items => Some (Z.of_nat (List.length (filter counted items)))
  | _ => None
  end.

(** [totalItemsInJson]: [parsed.length]. *)
Definition totalItemsInJson (parsed : Json) : option Z :=
  match parsed with
  | JArray items => Some (Z.of_nat (List.length items))
  | _ => None
  end.

(** The label [test-db-connection] prints for the database:
    [DATABASE_URL.split('@')[1]?.split('?')[0]], [None] when undefined. *)
Definition databaseLabel (DATABASE_URL : string) : option string :=
  match nth_error (JsText.split "@" DATABASE_URL) 1 with
  | Some rest => nth_error (JsText.split "?" rest) 0
  | None => None
  end.

End Script.

(** Sample inputs of the pages and scripts. *)

Module PageSample.

Definition watch : Page.URL :=
  {| Page.hostname := "www.youtube.com"; Page.pathname := "/watch";
     Page.query := [("v", "abc123")] |}.

Definition short : Page.URL :=
  {| Page.hostname := "m.youtube.com"; Page.pathname := "/shorts/abc123";
     Page.query := [] |}.

Definition embedded : Page.URL :=
  {| Page.hostname := "www.youtube.com"; Page.pathname := "/embed/abc123";
     Page.query := [] |}.

Definition photo : Json :=
  JObject [("s3Key", JString "k1"); ("url", JString "u1");
           ("kind", JString "card-image")].

Definition document : Json :=
  JObject [("s3Key", JString "k2"); ("url", JString "u2");
           ("originalName", JString "plan.pdf")].

Definition stored : list Json := [photo; document; JString "note"].

End PageSample.

(** Whether the character [c] occurs in [s]. *)
Fixpoint hasChar (c : ascii) (s : string) : bool :=
  match s with
  | String c' r => Ascii.eqb c' c || hasChar c r
  | EmptyString => false
  end.



(** The list [m] holds the items of [l] and of [r], each list in its order. *)
Inductive interleaved {A : Type} : list A -> list A -> list A -> Prop :=
| interleaved_nil : interleaved [] [] []
| interleaved_left a l r m : interleaved l r m -> interleaved (a :: l) r (a :: m)
| interleaved_right a l r m : interleaved l r m -> interleaved l (a :: r) (a :: m).

(** The host names from which the pages embed a video. *)
Definition videoHosts : list string :=
  ["youtube.com"; "www.youtube.com"; "m.youtube.com"; "www.m.youtube.com"].

Definition shortHosts : list string := ["youtu.be"; "www.youtu.be"].

(** What may follow a path segment: nothing, or a slash and more. *)
Definition segmentEnd (rest : string) : Prop :=
  rest = "" \/ exists r, rest = String "/" r.

(** The item is marked as an image of the card. *)
Definition markedImage (a : Json) : bool :=
  JsValue.strictEq (JsValue.prop a "kind") (Some "card-image").

(** ** Auxiliary definitions of the proofs *)

(** A map given by its keys and a function for the values. *)
Definition tabulate (g : string -> Totals) (ks : list string) : CategoryMap :=
  map (fun k => (k, g k)) ks.

(** The amount and count of the group named [k]. *)
Definition totalsOf (rows : list StudyCard) (k : string) : Totals :=
  {| t_amount := Spec.sumOfCosts (Spec.group k rows);
     t_count := Z.of_nat (List.length (Spec.group k rows)) |}.

(** The indices [i, i + 1, ..., n - 1]. *)
Definition indices (i n : Z) : list Z :=
  map (fun k => i + Z.of_nat k) (seq 0 (Z.to_nat (n - i))).

(** Reduce the month tables on concrete months. *)
Ltac table := cbv [Date.DaysInMonth Date.DaysBeforeMonth Z.eqb Pos.eqb].

(** Split a month index known to lie in 0..11 into its twelve values. *)
Ltac each_month H :=
  match type of H with
  | 0 <= ?mn <= 11 =>
      let C := fresh "C" in
      assert (C : mn = 0 \/ mn = 1 \/ mn = 2 \/ mn = 3 \/ mn = 4 \/ mn = 5 \/
                  mn = 6 \/ mn = 7 \/ mn = 8 \/ mn = 9 \/ mn = 10 \/ mn = 11)
        by lia;
      clear H;
      repeat (destruct C as [C|C]; [subst|]); [..|subst]
  end.


(** One decimal digit of a numeral read by [JsString.digits]. *)
Ltac digit_step :=
  cbn [JsString.digits];
  match goal with
  | |- context [JsString.digitValue ?c] =>
      let v := eval vm_compute in (JsString.digitValue c) in
      change (JsString.digitValue c) with v
  end;
  cbv iota beta;
  match goal with
  | |- context [?a <? 10] => change (a <? 10) with true
  end;
  cbv iota.

(** ** Calendar facts *)

Section Calendar.
Import Date.

Lemma DaysInYear_cases y : DaysInYear y = 365 \/ DaysInYear y = 366.
Proof.
  unfold DaysInYear.
  destruct (y mod 4 =? 0), (y mod 100 =? 0), (y mod 400 =? 0); simpl; auto.
Qed.

Lemma DayFromYear_succ y : DayFromYear (y + 1) = DayFromYear y + DaysInYear y.
Proof.
  unfold DayFromYear, DaysInYear.
  destruct (Z.eqb_spec (y mod 4) 0) as [H4|H4]; cbn [negb].
  2: { Z.div_mod_to_equations; lia. }
  destruct (Z.eqb_spec (y mod 100) 0) as [H100|H100]; cbn [negb].
  2: { Z.div_mod_to_equations; lia. }
  clear H4.
  destruct (Z.eqb_spec (y mod 400) 0) as [H400|H400]; cbn [negb].
  - clear H100. Z.div_mod_to_equations; lia.
  - Z.div_mod_to_equations; lia.
Qed.

Lemma DayFromYear_mono a b : a <= b -> DayFromYear a <= DayFromYear b.
Proof.
  unfold DayFromYear. intros H. Z.div_mod_to_equations. lia.
Qed.

Lemma DayFromYear_lt a b : a < b -> DayFromYear a < DayFromYear b.
Proof.
  intros H.
  assert (DayFromYear (a + 1) <= DayFromYear b) by (apply DayFromYear_mono; lia).
  rewrite DayFromYear_succ in H0.
  destruct (DaysInYear_cases a); lia.
Qed.

Lemma YearFromDay_spec d :
  DayFromYear (YearFromDay d) <= d < DayFromYear (YearFromDay d + 1).
Proof.
  unfold YearFromDay.
  set (y0 := 1970 + 400 * d / 146097).
  assert (Hlo : DayFromYear (y0 - 1) <= d).
  { subst y0. unfold DayFromYear. Z.div_mod_to_equations. lia. }
  assert (Hhi : d < DayFromYear (y0 + 2)).
  { subst y0. unfold DayFromYear. Z.div_mod_to_equations. lia. }
  destruct (Z.leb_spec (DayFromYear (y0 + 1)) d).
  - replace (y0 + 1 + 1) with (y0 + 2) by lia. lia.
  - destruct (Z.leb_spec (DayFromYear y0) d).
    + lia.
    + replace (y0 - 1 + 1) with y0 by lia. lia.
Qed.

Lemma YearFromTime_spec t :
  DayFromYear (YearFromTime t) <= Day t < DayFromYear (YearFromTime t + 1).
Proof. exact (YearFromDay_spec (Day t)). Qed.

Lemma YearFromDay_unique y d :
  DayFromYear y <= d < DayFromYear (y + 1) -> YearFromDay d = y.
Proof.
  intros H. pose proof (YearFromDay_spec d) as S.
  destruct (Z.lt_trichotomy (YearFromDay d) y) as [L|[E|G]]; [|exact E|].
  - assert (DayFromYear (YearFromDay d + 1) <= DayFromYear y)
      by (apply DayFromYear_mono; lia). lia.
  - assert (DayFromYear (y + 1) <= DayFromYear (YearFromDay d))
      by (apply DayFromYear_mono; lia). lia.
Qed.

Lemma DaysInMonth_pos y mn : 28 <= DaysInMonth y mn <= 31.
Proof.
  unfold DaysInMonth. destruct (DaysInYear y =? 366);
    (destruct mn as [|p|p]; [lia| |lia]);
    do 4 (try destruct p as [p|p|]); lia.
Qed.

Lemma DaysBeforeMonth_succ y mn :
  0 <= mn <= 10 ->
  DaysBeforeMonth (DaysInYear y) (mn + 1)
  = DaysBeforeMonth (DaysInYear y) mn + DaysInMonth y mn.
Proof.
  intros H. assert (H' : 0 <= mn <= 11) by lia.
  unfold DaysInMonth, DaysBeforeMonth.
  unfold DaysInMonth.
  destruct (DaysInYear_cases y) as [E|E]; rewrite E;
    each_month H'; try reflexivity; lia.
Qed.

Lemma DaysBeforeMonth_last y :
  DaysBeforeMonth (DaysInYear y) 11 + DaysInMonth y 11 = DaysInYear y.
Proof.
  unfold DaysInMonth.
  destruct (DaysInYear_cases y) as [E|E]; rewrite E; table; lia.
Qed.

Lemma Day_of_parts d r : 0 <= r < msPerDay -> Day (d * msPerDay + r) = d.
Proof.
  intros H. unfold Day. symmetry. apply (Z.div_unique_pos _ _ d r); lia.
Qed.

(** The calendar fields of any instant of day [k + 1] of month [mn] of
    year [y]. *)
Lemma fields_of_day t y mn k :
  0 <= mn <= 11 -> 0 <= k < DaysInMonth y mn ->
  Day t = DayFromYear y + DaysBeforeMonth (DaysInYear y) mn + k ->
  YearFromTime t = y /\ MonthFromTime t = mn /\ DateFromTime t = k + 1.
Proof.
  intros Hm Hk Hd.
  assert (Hy : YearFromTime t = y).
  { unfold YearFromTime. rewrite Hd. apply YearFromDay_unique.
    rewrite DayFromYear_succ. revert Hk. clear Hd.
    destruct (DaysInYear_cases y) as [E|E]; unfold DaysInMonth; rewrite E;
      each_month Hm; table; lia. }
  assert (Hw : DayWithinYear t = DaysBeforeMonth (DaysInYear y) mn + k).
  { unfold DayWithinYear. rewrite Hy, Hd. lia. }
  clear Hd. split; [exact Hy|].
  assert (Hmo : MonthFromTime t = mn).
  { unfold MonthFromTime, InLeapYear. rewrite Hw, Hy. revert Hk. clear Hw Hy.
    destruct (DaysInYear_cases y) as [E|E]; unfold DaysInMonth; rewrite E;
      each_month Hm; table; intros Hk;
      repeat match goal with
             | |- context [?a <? ?b] => destruct (Z.ltb_spec a b); try lia
             end; reflexivity. }
  split; [exact Hmo|].
  unfold DateFromTime, InLeapYear. rewrite Hmo, Hw, Hy. clear Hmo Hw Hy Hk.
  destruct (DaysInYear_cases y) as [E|E]; rewrite E;
    each_month Hm; table; lia.
Qed.

Lemma civil_Day y m d hh mm ss ms :
  0 <= hh < 24 -> 0 <= mm < 60 -> 0 <= ss < 60 -> 0 <= ms < 1000 ->
  Day (civil y m d hh mm ss ms)
  = DayFromYear y + DaysBeforeMonth (DaysInYear y) (m - 1) + (d - 1).
Proof.
  intros. unfold civil.
  repeat rewrite <- Z.add_assoc. apply Day_of_parts.
  unfold msPerDay, msPerHour, msPerMinute, msPerSecond. lia.
Qed.

(** [civil] is read back by the getters. *)
Lemma civil_fields y m d hh mm ss ms :
  1 <= m <= 12 -> 1 <= d <= DaysInMonth y (m - 1) ->
  0 <= hh < 24 -> 0 <= mm < 60 -> 0 <= ss < 60 -> 0 <= ms < 1000 ->
  let t := civil y m d hh mm ss ms in
  YearFromTime t = y /\ MonthFromTime t = m - 1 /\ DateFromTime t = d.
Proof.
  intros Hm Hd Hh Hmi Hs Hms t.
  destruct (fields_of_day t y (m - 1) (d - 1)) as (A & B & C);
    [lia | lia | apply civil_Day; assumption |].
  repeat split; [exact A | exact B | lia].
Qed.

Lemma civil_last_ms y m d :
  civil y m d 23 59 59 999 + 1 = civil y m d 23 59 59 0 + 1000.
Proof. unfold civil, msPerSecond. lia. Qed.

Lemma monthStart_eq y m : Spec.monthStart y m = civil y m 1 0 0 0 0.
Proof. reflexivity. Qed.

Lemma monthEnd_eq y m :
  Spec.monthEnd y m = civil y m (DaysInMonth y (m - 1)) 23 59 59 0.
Proof. reflexivity. Qed.

(** Any instant lies in the month its getters name. *)
Lemma time_in_its_month t :
  let y := YearFromTime t in
  let mn := MonthFromTime t in
  0 <= mn <= 11 /\
  civil y (mn + 1) 1 0 0 0 0 <= t
  < civil y (mn + 1) (DaysInMonth y mn) 23 59 59 999 + 1.
Proof.
  intros y mn.
  pose proof (YearFromTime_spec t) as S.
  fold y in S. rewrite DayFromYear_succ in S.
  assert (Hw : 0 <= DayWithinYear t < DaysInYear y)
    by (unfold DayWithinYear; fold y; lia).
  assert (Ht : Day t * msPerDay <= t < Day t * msPerDay + msPerDay).
  { unfold Day, msPerDay. Z.div_mod_to_equations. lia. }
  assert (Hd : Day t = DayFromYear y + DayWithinYear t)
    by (unfold DayWithinYear; fold y; lia).
  rewrite Hd in Ht. clear S Hd.
  subst mn. unfold civil.
  replace (MonthFromTime t + 1 - 1) with (MonthFromTime t) by lia.
  unfold MonthFromTime, InLeapYear. fold y.
  revert Ht Hw. generalize (DayWithinYear t) (DayFromYear y). intros w b Ht Hw.
  unfold msPerDay, msPerHour, msPerMinute, msPerSecond in *.
  unfold DaysInMonth.
  destruct (DaysInYear_cases y) as [E|E]; rewrite E in *;
    cbv [Z.eqb Pos.eqb];
    repeat match goal with
           | |- context [?a <? ?b] => destruct (Z.ltb_spec a b)
           end; table; lia.
Qed.

End Calendar.

(** ** Aggregation facts *)

Section Aggregation.

Lemma fold_sum (cards : list StudyCard) (a : Z) :
  fold_left (fun sum card => sum + cost card) cards a
  = a + Spec.sumOfCosts cards.
Proof.
  revert a. induction cards as [|c cards IH]; intros a; simpl.
  - unfold Spec.sumOfCosts. simpl. lia.
  - rewrite IH. unfold Spec.sumOfCosts. simpl. lia.
Qed.

Lemma sumCost_total cards : sumCost cards = Spec.sumOfCosts cards.
Proof. unfold sumCost. rewrite fold_sum. lia. Qed.

Lemma sumOfCosts_app a b :
  Spec.sumOfCosts (a ++ b) = Spec.sumOfCosts a + Spec.sumOfCosts b.
Proof.
  unfold Spec.sumOfCosts. induction a as [|x a IH]; simpl; [reflexivity|].
  rewrite IH. lia.
Qed.

Lemma groupName_orElse c : category c ?? "Uncategorized" = Spec.groupName c.
Proof. unfold Spec.groupName, orElse. destruct (category c); reflexivity. Qed.

(** *** First occurrences *)

Lemma In_firsts k l : In k (Spec.firsts l) <-> In k l.
Proof.
  induction l as [|a l IH]; simpl; [tauto|].
  rewrite filter_In, IH, negb_true_iff, String.eqb_neq.
  destruct (String.eqb_spec k a); intuition congruence.
Qed.

Lemma NoDup_filter {A} (f : A -> bool) l : NoDup l -> NoDup (filter f l).
Proof.
  induction 1 as [|x l Hx Hl IH]; simpl; [constructor|].
  destruct (f x); [constructor|]; auto.
  rewrite filter_In. tauto.
Qed.

Lemma NoDup_firsts l : NoDup (Spec.firsts l).
Proof.
  induction l as [|a l IH]; simpl; constructor.
  - rewrite filter_In, String.eqb_refl. simpl. intros [_ H]. discriminate.
  - apply NoDup_filter, IH.
Qed.

Lemma firsts_snoc l k :
  Spec.firsts (l ++ [k])
  = if in_dec string_dec k l then Spec.firsts l else Spec.firsts l ++ [k].
Proof.
  induction l as [|a l IH]; simpl; [reflexivity|].
  rewrite IH.
  destruct (string_dec a k) as [->|Hak].
  - destruct (in_dec string_dec k l); [reflexivity|].
    rewrite filter_app. simpl. rewrite String.eqb_refl. simpl.
    now rewrite app_nil_r.
  - destruct (in_dec string_dec k l); [reflexivity|].
    rewrite filter_app. simpl.
    destruct (String.eqb_spec k a); [congruence|reflexivity].
Qed.

(** *** The map of the grouping loop *)

Lemma Map_get_in g ks k : In k ks -> Map_get (tabulate g ks) k = Some (g k).
Proof.
  induction ks as [|a ks IH]; simpl; [tauto|].
  destruct (String.eqb_spec a k) as [->|Hak]; [reflexivity|].
  intros [H|H]; [congruence|auto].
Qed.

Lemma Map_get_notin g ks k : ~ In k ks -> Map_get (tabulate g ks) k = None.
Proof.
  induction ks as [|a ks IH]; simpl; [reflexivity|].
  destruct (String.eqb_spec a k) as [->|Hak]; tauto.
Qed.

Lemma Map_set_in g ks k v :
  NoDup ks -> In k ks ->
  Map_set (tabulate g ks) k v
  = tabulate (fun x => if (x =? k)%string then v else g x) ks.
Proof.
  induction 1 as [|a ks Ha Hks IH]; simpl; [tauto|].
  destruct (String.eqb_spec a k) as [->|Hak].
  - intros _. f_equal. apply map_ext_in. intros x Hx.
    destruct (String.eqb_spec x k); [congruence|reflexivity].
  - intros [H|H]; [congruence|]. f_equal. now apply IH.
Qed.

Lemma Map_set_notin g ks k v :
  ~ In k ks -> Map_set (tabulate g ks) k v = tabulate g ks ++ [(k, v)].
Proof.
  induction ks as [|a ks IH]; simpl; [reflexivity|].
  destruct (String.eqb_spec a k) as [->|Hak]; [tauto|].
  intros H. f_equal. apply IH. tauto.
Qed.

Lemma group_snoc k rows c :
  Spec.group k (rows ++ [c])
  = if (Spec.groupName c =? k)%string then Spec.group k rows ++ [c]
    else Spec.group k rows.
Proof.
  unfold Spec.group. rewrite filter_app. simpl.
  destruct (Spec.groupName c =? k)%string; [reflexivity|apply app_nil_r].
Qed.

Lemma totalsOf_snoc_same rows c :
  totalsOf (rows ++ [c]) (Spec.groupName c)
  = {| t_amount := t_amount (totalsOf rows (Spec.groupName c)) + cost c;
       t_count := t_count (totalsOf rows (Spec.groupName c)) + 1 |}.
Proof.
  unfold totalsOf. rewrite group_snoc, String.eqb_refl. simpl.
  rewrite sumOfCosts_app, length_app. simpl.
  f_equal; [unfold Spec.sumOfCosts; simpl; lia | lia].
Qed.

Lemma totalsOf_snoc_other rows c k :
  k <> Spec.groupName c -> totalsOf (rows ++ [c]) k = totalsOf rows k.
Proof.
  intros H. unfold totalsOf. rewrite group_snoc.
  destruct (String.eqb_spec (Spec.groupName c) k); [congruence|reflexivity].
Qed.

Lemma totalsOf_absent rows k :
  ~ In k (map Spec.groupName rows) ->
  totalsOf rows k = {| t_amount := 0; t_count := 0 |}.
Proof.
  intros H. unfold totalsOf.
  assert (E : Spec.group k rows = []).
  { unfold Spec.group. induction rows as [|c rows IH]; simpl in *; [reflexivity|].
    destruct (String.eqb_spec (Spec.groupName c) k); [tauto|]. apply IH. tauto. }
  rewrite E. reflexivity.
Qed.

(** The loop builds the table of the groups, in first-occurrence order. *)
Lemma fold_addCard rows :
  fold_left addCard rows []
  = tabulate (totalsOf rows) (Spec.firsts (map Spec.groupName rows)).
Proof.
  induction rows as [|c rows IH] using rev_ind; [reflexivity|].
  rewrite fold_left_app, IH. simpl. unfold addCard.
  rewrite groupName_orElse, map_app.
  change (map Spec.groupName [c]) with [Spec.groupName c].
  rewrite firsts_snoc.
  set (k := Spec.groupName c). set (ks := Spec.firsts (map Spec.groupName rows)).
  destruct (in_dec string_dec k (map Spec.groupName rows)) as [Hin|Hout].
  - assert (Hk : In k ks) by (apply In_firsts, Hin).
    rewrite (Map_get_in _ _ _ Hk). simpl.
    rewrite (Map_set_in _ _ _ _ (NoDup_firsts _) Hk).
    apply map_ext_in. intros x Hx. f_equal.
    destruct (String.eqb_spec x k) as [->|Hxk].
    + symmetry. apply totalsOf_snoc_same.
    + symmetry. now apply totalsOf_snoc_other.
  - assert (Hk : ~ In k ks) by (subst ks; rewrite In_firsts; exact Hout).
    rewrite (Map_get_notin _ _ _ Hk). simpl.
    rewrite Map_set_notin by exact Hk.
    unfold tabulate. rewrite map_app. simpl. f_equal.
    + apply map_ext_in. intros x Hx. f_equal. symmetry.
      apply totalsOf_snoc_other. intros ->. contradiction.
    + f_equal. f_equal. subst k. rewrite totalsOf_snoc_same.
      rewrite totalsOf_absent by exact Hout. reflexivity.
Qed.

(** The breakdown the routes compute is the specification's. *)
Lemma categoryBreakdown_spec rows : categoryBreakdown rows = Spec.breakdown rows.
Proof.
  unfold categoryBreakdown, Spec.breakdown. rewrite fold_addCard.
  unfold tabulate. rewrite map_map. reflexivity.
Qed.

(** *** Sums over the breakdown *)

Lemma length_group_firsts rows :
  forall ks, NoDup ks -> (forall c, In c rows -> In (Spec.groupName c) ks) ->
  Spec.total (map (fun k => Spec.sumOfCosts (Spec.group k rows)) ks)
  = Spec.sumOfCosts rows
  /\ Spec.total (map (fun k => Z.of_nat (List.length (Spec.group k rows))) ks)
     = Z.of_nat (List.length rows).
Proof.
  induction rows as [|c rows IH] using rev_ind; intros ks Hnd Hall.
  - simpl. split; induction ks; simpl; auto.
    + inversion Hnd; subst. rewrite IHks; auto. intros ? [].
    + inversion Hnd; subst. rewrite IHks; auto. intros ? [].
  - assert (Hc : In (Spec.groupName c) ks) by (apply Hall, in_or_app; simpl; auto).
    destruct (IH ks Hnd) as [IHa IHc].
    { intros x Hx. apply Hall, in_or_app. auto. }
    rewrite sumOfCosts_app, length_app, <- IHa. simpl List.length.
    replace (Z.of_nat (List.length rows + 1)) with (Z.of_nat (List.length rows) + 1) by lia.
    rewrite <- IHc. clear IH IHa IHc Hall.
    induction Hnd as [|a ks Ha Hks IHks]; [destruct Hc|].
    simpl. rewrite !group_snoc.
    destruct (String.eqb_spec (Spec.groupName c) a) as [E|E].
    + assert (Hrest : ~ In (Spec.groupName c) ks) by (rewrite E; exact Ha).
      assert (Same : forall f g : string -> Z,
                 (forall k, k <> Spec.groupName c -> f k = g k) ->
                 Spec.total (map f ks) = Spec.total (map g ks)).
      { intros f g Hfg. f_equal. apply map_ext_in. intros k Hk. apply Hfg.
        intros ->. contradiction. }
      rewrite sumOfCosts_app, length_app. simpl List.length.
      rewrite (Same (fun k => Spec.sumOfCosts (Spec.group k (rows ++ [c])))
                    (fun k => Spec.sumOfCosts (Spec.group k rows))).
      2: { intros k Hk. rewrite group_snoc.
           destruct (String.eqb_spec (Spec.groupName c) k); [congruence|reflexivity]. }
      rewrite (Same (fun k => Z.of_nat (List.length (Spec.group k (rows ++ [c]))))
                    (fun k => Z.of_nat (List.length (Spec.group k rows)))).
      2: { intros k Hk. rewrite group_snoc.
           destruct (String.eqb_spec (Spec.groupName c) k); [congruence|reflexivity]. }
      split; lia.
    + destruct Hc as [Hc|Hc]; [congruence|].
      destruct (IHks Hc) as [A B]. rewrite A, B. split; lia.
Qed.

Lemma breakdown_sums rows :
  Spec.total (map amount (Spec.breakdown rows)) = Spec.sumOfCosts rows
  /\ Spec.total (map count (Spec.breakdown rows)) = Z.of_nat (List.length rows).
Proof.
  unfold Spec.breakdown. rewrite !map_map. simpl.
  apply length_group_firsts; [apply NoDup_firsts|].
  intros c Hc. apply In_firsts, in_map, Hc.
Qed.

Lemma breakdown_names rows :
  map name (Spec.breakdown rows) = Spec.firsts (map Spec.groupName rows).
Proof.
  unfold Spec.breakdown. rewrite map_map. simpl. apply map_id.
Qed.

End Aggregation.

(** ** The report's aggregates *)

Section Report.

(** With the database reachable and both boundaries valid dates, the [try]
    block returns, and this is its body. *)
Lemma report_returns table pt s e :
  let rows := Spec.inPeriod s e table in
  let done := filter isCompleted rows in
  Summary.report (Some table) pt (Num s) (Num e)
  = Some {| projectCode := "VLHOLDINGS";
            projectName := "VL Holdings";
            periodType := pt;
            periodStart := (Date.YearFromTime s, Date.MonthFromTime s + 1,
                            Date.DateFromTime s);
            periodEnd := (Date.YearFromTime e, Date.MonthFromTime e + 1,
                          Date.DateFromTime e);
            currency := "THB";
            totalRevenue := sumCost done;
            totalExpenses := sumCost rows;
            netProfit := sumCost done - sumCost rows;
            cashInflow := sumCost done;
            cashOutflow := sumCost rows;
            netCashFlow := sumCost done - sumCost rows;
            revenueCategories := categoryBreakdown done;
            expenseCategories := categoryBreakdown rows;
            metadata :=
              {| totalItems := Z.of_nat (List.length table);
                 totalCompleted := Z.of_nat (List.length (filter isCompleted table));
                 periodItemCount := Z.of_nat (List.length rows);
                 periodCompletedCount := Z.of_nat (List.length done);
                 completionRate :=
                   Summary.rate (Z.of_nat (List.length table))
                     (Z.of_nat (List.length (filter isCompleted table))) |} |}.
Proof. reflexivity. Qed.

Lemma sumOfCosts_filter_le (f : StudyCard -> bool) rows :
  (forall c v, In c rows -> estimatedCost c = Some v -> 0 <= v) ->
  Spec.sumOfCosts (filter f rows) <= Spec.sumOfCosts rows.
Proof.
  unfold Spec.sumOfCosts.
  induction rows as [|c rows IH]; intros H; simpl; [lia|].
  assert (0 <= cost c).
  { unfold cost, orElse. destruct (estimatedCost c) eqn:E; [|lia].
    apply (H c z); simpl; auto. }
  assert (Spec.total (map cost (filter f rows)) <= Spec.total (map cost rows))
    by (apply IH; intros c' v Hc; apply H; simpl; auto).
  destruct (f c); simpl; lia.
Qed.

End Report.

(** C1: for every set of period rows the report's totalExpenses is the sum
    of estimatedCost (0 when absent) over all of them, completedValue is that
    sum over the completed ones, totalRevenue and cashInflow are
    completedValue, cashOutflow is totalExpenses, and netProfit and
    netCashFlow are the two differences.  For the rows of cost 100 (open,
    created 2024-03-15) and cost 50 (completed, created 2024-03-20) and the
    request for the month 2024-03, totalExpenses = 150, totalRevenue = 50 and
    netProfit = -100. *)
Theorem aggregator_totals :
  (forall (table : list StudyCard) (pt : string) (s e : Z),
      exists r,
        Summary.report (Some table) pt (Num s) (Num e) = Some r /\
        let rows := Spec.inPeriod s e table in
        let completedValue := Spec.sumOfCosts (filter isCompleted rows) in
        totalExpenses r = Spec.sumOfCosts rows /\
        totalRevenue r = completedValue /\
        netProfit r = totalRevenue r - totalExpenses r /\
        cashInflow r = completedValue /\
        cashOutflow r = totalExpenses r /\
        netCashFlow r = cashInflow r - cashOutflow r)
  /\ (forall now : Z,
         exists r,
           Summary.GET Sample.no_key (Some Sample.march) now Sample.march_request
           = json SummaryBody r 200 /\
           totalExpenses r = 150 /\ totalRevenue r = 50 /\ netProfit r = -100).
Proof.
  split.
  - intros table pt s e. eexists. split; [apply report_returns|].
    cbn [totalExpenses totalRevenue netProfit cashInflow cashOutflow netCashFlow].
    rewrite !sumCost_total. repeat split.
  - intros now. eexists. split.
    + unfold Summary.GET, Summary.handle. lazy. reflexivity.
    + lazy. repeat split.
Qed.

(** C9: when no estimatedCost of the period is negative, completedValue is at
    most totalExpenses, so the report's netProfit and netCashFlow are never
    positive. *)
Theorem never_a_profit (table : list StudyCard) (pt : string) (s e : Z)
        (r : FinanceSummary) :
  (forall c v, In c (Spec.inPeriod s e table) -> estimatedCost c = Some v -> 0 <= v) ->
  Summary.report (Some table) pt (Num s) (Num e) = Some r ->
  totalRevenue r <= totalExpenses r /\
  cashInflow r <= cashOutflow r /\
  netProfit r <= 0 /\
  netCashFlow r <= 0.
Proof.
  intros Hpos Hr. rewrite report_returns in Hr. injection Hr as <-.
  cbn [totalExpenses totalRevenue netProfit cashInflow cashOutflow netCashFlow].
  rewrite !sumCost_total.
  pose proof (sumOfCosts_filter_le isCompleted _ Hpos). lia.
Qed.

Lemma never_a_profit_witness :
  exists r,
    Summary.report (Some Sample.mixed) "monthly" (Num 0) (Num 10) = Some r /\
    totalRevenue r <= totalExpenses r /\
    cashInflow r <= cashOutflow r /\
    netProfit r <= 0 /\
    netCashFlow r <= 0.
Proof.
  eexists. split; [apply report_returns|].
  apply (never_a_profit Sample.mixed "monthly" 0 10); [|apply report_returns].
  intros c v Hc Hv. simpl in Hc.
  destruct Hc as [<-|[<-|[<-|[]]]]; simpl in Hv; inversion Hv; lia.
Defined.

(** C10: for every table and period, revenueCategories is the grouping of
    the completed rows of the period; its amounts add up to totalRevenue,
    the sum of the costs of those rows, and its counts to
    periodCompletedCount, the number of those rows; no category name occurs
    twice in revenueCategories or in expenseCategories, whose names are the
    categories of the completed rows and of all rows of the period in the
    order of first occurrence. *)
Theorem category_sums_and_names (table : list StudyCard) (pt : string) (s e : Z) :
  exists r,
    Summary.report (Some table) pt (Num s) (Num e) = Some r /\
    let rows := Spec.inPeriod s e table in
    let completed := filter isCompleted rows in
    revenueCategories r = Spec.breakdown completed /\
    totalRevenue r = Spec.sumOfCosts completed /\
    periodCompletedCount (metadata r) = Z.of_nat (List.length completed) /\
    Spec.total (map amount (revenueCategories r)) = totalRevenue r /\
    Spec.total (map count (revenueCategories r))
    = periodCompletedCount (metadata r) /\
    map name (revenueCategories r) = Spec.firsts (map Spec.groupName completed) /\
    map name (expenseCategories r) = Spec.firsts (map Spec.groupName rows) /\
    NoDup (map name (revenueCategories r)) /\
    NoDup (map name (expenseCategories r)).
Proof.
  eexists. split; [apply report_returns|].
  cbn [revenueCategories expenseCategories totalRevenue metadata periodCompletedCount].
  rewrite !categoryBreakdown_spec, !breakdown_names, sumCost_total.
  destruct (breakdown_sums (filter isCompleted (Spec.inPeriod s e table))) as [A B].
  repeat split; auto using NoDup_firsts.
Qed.

(** C2, as the code has it: expenseCategories groups all rows of the period
    by category, with "Uncategorized" for a null category (an empty string is
    a category of its own), one entry {name, amount = sum of estimatedCost,
    count} per group in the order of first occurrence; the amounts add up to
    totalExpenses and the counts to the number of period rows. *)
Theorem expense_categories_grouping (table : list StudyCard) (pt : string) (s e : Z) :
  exists r,
    Summary.report (Some table) pt (Num s) (Num e) = Some r /\
    let rows := Spec.inPeriod s e table in
    expenseCategories r = Spec.breakdown rows /\
    map name (expenseCategories r) = Spec.firsts (map Spec.groupName rows) /\
    Spec.total (map amount (expenseCategories r)) = totalExpenses r /\
    Spec.total (map count (expenseCategories r)) = Z.of_nat (List.length rows) /\
    periodItemCount (metadata r) = Z.of_nat (List.length rows).
Proof.
  eexists. split; [apply report_returns|].
  cbn [expenseCategories totalExpenses metadata periodItemCount].
  rewrite categoryBreakdown_spec, breakdown_names, sumCost_total.
  destruct (breakdown_sums (Spec.inPeriod s e table)) as [A B].
  repeat split; assumption.
Qed.

(** C2 as stated fails on an empty category: the row is grouped under the
    empty name, not under "Uncategorized". *)
Lemma empty_category_is_kept :
  exists r,
    Summary.report (Some [Sample.unnamed]) "monthly" (Num 0) (Num 10) = Some r /\
    expenseCategories r = [ {| name := ""; amount := 7; count := 1 |} ] /\
    map Spec.groupNameOrEmpty [Sample.unnamed] = ["Uncategorized"] /\
    map name (expenseCategories r)
    <> Spec.firsts (map Spec.groupNameOrEmpty (Spec.inPeriod 0 10 [Sample.unnamed])).
Proof.
  eexists. split; [apply report_returns|].
  repeat split. discriminate.
Qed.

(** ** The period boundaries *)

Section Periods.
Import Date.

Lemma fullYear_cases y :
  (0 <= y <= 99 /\ fullYear y = 1900 + y) \/ (~ 0 <= y <= 99 /\ fullYear y = y).
Proof.
  unfold fullYear.
  destruct (Z.leb_spec 0 y), (Z.leb_spec y 99); simpl; lia.
Qed.

(** Every instant of a representable year is a time value a Date holds. *)
Lemma civil_clips y m d hh mm ss ms :
  Spec.representable y ->
  1 <= m <= 12 -> 1 <= d <= DaysInMonth y (m - 1) ->
  0 <= hh < 24 -> 0 <= mm < 60 -> 0 <= ss < 60 -> 0 <= ms < 1000 ->
  TimeClip (civil y m d hh mm ss ms) = Num (civil y m d hh mm ss ms).
Proof.
  intros [Hlo Hhi] Hm Hd Hh Hmi Hs Hms.
  pose proof (civil_Day y m d hh mm ss ms Hh Hmi Hs Hms) as HD.
  destruct (fields_of_day (civil y m d hh mm ss ms) y (m - 1) (d - 1))
    as (Hy & _ & _); [lia | lia | exact HD |].
  pose proof (YearFromTime_spec (civil y m d hh mm ss ms)) as S.
  rewrite Hy in S.
  assert (L : DayFromYear (-271820) <= DayFromYear y)
    by (apply DayFromYear_mono; lia).
  assert (U : DayFromYear (y + 1) <= DayFromYear 275760)
    by (apply DayFromYear_mono; lia).
  change (DayFromYear (-271820)) with (-99999744) in L.
  change (DayFromYear 275760) with 99999744 in U.
  unfold TimeClip. generalize dependent (civil y m d hh mm ss ms). intros t HD _ S.
  assert (B : -99999744 * msPerDay <= t < 99999744 * msPerDay).
  { clear HD. unfold Day, msPerDay in *. Z.div_mod_to_equations. lia. }
  unfold maxTime, msPerDay in *.
  destruct (Z.leb_spec (Z.abs t) 8640000000000000); [reflexivity|lia].
Qed.

(** [new Date(y, m - 1, d, hh, mm, ss)] with every field in its calendar
    range. *)
Lemma make_civil y m d hh mm ss :
  Spec.representable (fullYear y) ->
  1 <= m <= 12 -> 1 <= d <= DaysInMonth (fullYear y) (m - 1) ->
  0 <= hh < 24 -> 0 <= mm < 60 -> 0 <= ss < 60 ->
  make (Num y) (Num (m - 1)) (Num d) (Num hh) (Num mm) (Num ss)
  = Num (civil (fullYear y) m d hh mm ss 0).
Proof.
  intros Hy Hm Hd Hh Hmi Hs. unfold make.
  rewrite <- civil_clips by (assumption || lia). f_equal.
  unfold MakeDate, MakeDay, MakeTime, civil.
  rewrite (Z.div_small (m - 1) 12), (Z.mod_small (m - 1) 12) by lia.
  rewrite Z.add_0_r. lia.
Qed.

(** [new Date(y, m, 0, 23, 59, 59)]: day 0 of the month after month [m]
    is the last day of month [m]. *)
Lemma make_day0 y m :
  Spec.representable (fullYear y) -> 1 <= m <= 12 ->
  make (Num y) (Num m) (Num 0) (Num 23) (Num 59) (Num 59)
  = Num (Spec.monthEnd (fullYear y) m).
Proof.
  intros Hy Hm. unfold Spec.monthEnd.
  pose proof (DaysInMonth_pos (fullYear y) (m - 1)) as Hp.
  rewrite <- (make_civil y m) by (assumption || lia).
  unfold make. f_equal. f_equal. unfold MakeDay.
  rewrite (Z.div_small (m - 1) 12), (Z.mod_small (m - 1) 12) by lia.
  destruct (Z.eq_dec m 12) as [->|Hne].
  - change (12 / 12) with 1. change (12 mod 12) with 0. change (12 - 1) with 11.
    change (DaysBeforeMonth (DaysInYear (fullYear y + 1)) 0) with 0.
    pose proof (DaysBeforeMonth_last (fullYear y)).
    rewrite DayFromYear_succ, !Z.add_0_r. lia.
  - rewrite (Z.div_small m 12), (Z.mod_small m 12) by lia.
    rewrite !Z.add_0_r.
    replace (DaysBeforeMonth (DaysInYear (fullYear y)) m)
      with (DaysBeforeMonth (DaysInYear (fullYear y)) (m - 1 + 1))
      by (f_equal; lia).
    rewrite DaysBeforeMonth_succ by lia. lia.
Qed.

Lemma make3_first y m :
  Spec.representable (fullYear y) -> 1 <= m <= 12 ->
  make3 (Num y) (Num (m - 1)) (Num 1) = Num (Spec.monthStart (fullYear y) m).
Proof.
  intros Hy Hm. unfold make3, Spec.monthStart.
  pose proof (DaysInMonth_pos (fullYear y) (m - 1)).
  apply make_civil; (assumption || lia).
Qed.

Lemma bounds_yearly year month :
  Spec.representable (fullYear year) ->
  Summary.periodBounds "yearly" (Num year) month
  = (Num (Spec.monthStart (fullYear year) 1),
     Num (Spec.monthEnd (fullYear year) 12)).
Proof.
  intros Hy. unfold Summary.periodBounds. cbn [String.eqb Ascii.eqb Bool.eqb].
  f_equal.
  - apply (make3_first year 1); [assumption|lia].
  - unfold Spec.monthEnd. change (DaysInMonth (fullYear year) (12 - 1)) with 31.
    apply (make_civil year 12 31); (assumption || lia || idtac).
    change (DaysInMonth (fullYear year) (12 - 1)) with 31. lia.
Qed.

(** The quarter of a month: [Math.ceil(month / 3)]. *)
Lemma ceil_div_3 month :
  1 <= month <= 12 ->
  let q := - (- month / 3) in 1 <= q <= 4 /\ 3 * (q - 1) < month <= 3 * q.
Proof. intros H q. subst q. Z.div_mod_to_equations. lia. Qed.

Lemma bounds_quarterly year month :
  Spec.representable (fullYear year) -> 1 <= month <= 12 ->
  let q := - (- month / 3) in
  Summary.periodBounds "quarterly" (Num year) (Num month)
  = (Num (Spec.monthStart (fullYear year) ((q - 1) * 3 + 1)),
     Num (Spec.monthEnd (fullYear year) (q * 3))).
Proof.
  intros Hy Hm q. destruct (ceil_div_3 month Hm) as [Hq _]. fold q in Hq.
  unfold Summary.periodBounds. cbn [String.eqb Ascii.eqb Bool.eqb].
  cbn [Js.ceil_div Js.sub Js.mul Js.lift2]. fold q. f_equal.
  - replace ((q - 1) * 3) with ((q - 1) * 3 + 1 - 1) at 1 by lia.
    apply make3_first; [assumption|lia].
  - apply make_day0; [assumption|lia].
Qed.

Lemma bounds_monthly pt year month :
  pt <> "yearly" -> pt <> "quarterly" ->
  Spec.representable (fullYear year) -> 1 <= month <= 12 ->
  Summary.periodBounds pt (Num year) (Num month)
  = (Num (Spec.monthStart (fullYear year) month),
     Num (Spec.monthEnd (fullYear year) month)).
Proof.
  intros Hny Hnq Hy Hm. unfold Summary.periodBounds.
  destruct (String.eqb_spec pt "yearly"); [contradiction|].
  destruct (String.eqb_spec pt "quarterly"); [contradiction|].
  cbn [Js.sub Js.lift2]. f_equal.
  - apply make3_first; assumption.
  - apply make_day0; assumption.
Qed.

(** What the getters read at the two ends of a run of months. *)
Lemma monthStart_fields y m :
  1 <= m <= 12 ->
  toISODate (Num (Spec.monthStart y m)) = Some (y, m, 1)
  /\ TimeWithinDay (Spec.monthStart y m) = 0.
Proof.
  intros Hm. unfold Spec.monthStart, toISODate.
  pose proof (DaysInMonth_pos y (m - 1)).
  destruct (civil_fields y m 1 0 0 0 0) as (A & B & C); try lia.
  rewrite A, B, C. split; [do 3 f_equal; lia|].
  unfold TimeWithinDay, civil.
  rewrite !Z.mul_0_l, !Z.add_0_r. apply Z.mod_mul. discriminate.
Qed.

Lemma monthEnd_fields y m :
  1 <= m <= 12 ->
  toISODate (Num (Spec.monthEnd y m)) = Some (y, m, DaysInMonth y (m - 1))
  /\ TimeWithinDay (Spec.monthEnd y m) = MakeTime 23 59 59 0.
Proof.
  intros Hm. unfold Spec.monthEnd, toISODate.
  pose proof (DaysInMonth_pos y (m - 1)).
  destruct (civil_fields y m (DaysInMonth y (m - 1)) 23 59 59 0)
    as (A & B & C); try lia.
  rewrite A, B, C. split; [do 3 f_equal; lia|].
  unfold TimeWithinDay, civil, MakeTime.
  generalize (DayFromYear y + DaysBeforeMonth (DaysInYear y) (m - 1)
              + (DaysInMonth y (m - 1) - 1)). intros D.
  unfold msPerDay, msPerHour, msPerMinute, msPerSecond.
  Z.div_mod_to_equations. lia.
Qed.

(** Months of one year come in order. *)
Lemma monthStart_le_monthEnd y m1 m2 :
  1 <= m1 <= m2 -> m2 <= 12 -> Spec.monthStart y m1 <= Spec.monthEnd y m2.
Proof.
  intros H1 H2. unfold Spec.monthStart, Spec.monthEnd, civil.
  pose proof (DaysInMonth_pos y (m2 - 1)).
  assert (Mono : DaysBeforeMonth (DaysInYear y) (m1 - 1)
                 <= DaysBeforeMonth (DaysInYear y) (m2 - 1)).
  { assert (K : exists k, m2 = m1 + Z.of_nat k) by (exists (Z.to_nat (m2 - m1)); lia).
    destruct K as [k ->]. clear H.
    induction k as [|k IH]; [replace (m1 + Z.of_nat 0 - 1) with (m1 - 1) by lia; lia|].
    assert (Hk : m1 + Z.of_nat k <= 12) by lia.
    specialize (IH Hk ltac:(lia)).
    replace (m1 + Z.of_nat (S k) - 1) with (m1 + Z.of_nat k - 1 + 1) by lia.
    rewrite DaysBeforeMonth_succ by lia.
    pose proof (DaysInMonth_pos y (m1 + Z.of_nat k - 1)). lia. }
  unfold msPerDay, msPerHour, msPerMinute, msPerSecond. lia.
Qed.

End Periods.

(** C4, for the years a Date holds: for every month 1..12 and every year
    whose dates a Date can represent (a year from 0 to 99 is read as 1900 +
    year), the quarterly branch computes quarter = ceil(month / 3),
    periodStart = 00:00:00 of the first day of month (quarter - 1) * 3 + 1 and
    periodEnd = 23:59:59 of the last day of month quarter * 3, so the interval
    spans exactly the three calendar months of the quarter whatever their
    lengths; month = 2 gives quarter 1, January 1 to March 31. *)
Theorem quarterly_bounds (year month : Z) :
  1 <= month <= 12 ->
  Spec.representable (Date.fullYear year) ->
  let Y := Date.fullYear year in
  let quarter := - (- month / 3) in
  exists s e,
    Summary.periodBounds "quarterly" (Num year) (Num month) = (Num s, Num e) /\
    (1 <= quarter <= 4 /\ 3 * (quarter - 1) < month <= 3 * quarter) /\
    s = Date.civil Y ((quarter - 1) * 3 + 1) 1 0 0 0 0 /\
    e = Date.civil Y (quarter * 3) (Date.DaysInMonth Y (quarter * 3 - 1)) 23 59 59 0 /\
    Date.toISODate (Num s) = Some (Y, (quarter - 1) * 3 + 1, 1) /\
    Date.toISODate (Num e)
    = Some (Y, quarter * 3, Date.DaysInMonth Y (quarter * 3 - 1)) /\
    (Date.YearFromTime e = Date.YearFromTime s /\
     Date.MonthFromTime e - Date.MonthFromTime s + 1 = 3) /\
    s <= e /\
    (month = 2 ->
     Date.toISODate (Num s) = Some (Y, 1, 1) /\
     Date.toISODate (Num e) = Some (Y, 3, 31)).
Proof.
  intros Hm Hy Y quarter.
  destruct (ceil_div_3 month Hm) as [Hq Hc]. fold quarter in Hq, Hc.
  pose proof (bounds_quarterly year month Hy Hm) as HB.
  cbv zeta in HB. fold quarter in HB. fold Y in HB. clearbody quarter.
  destruct (monthStart_fields Y ((quarter - 1) * 3 + 1)) as [Hs _]; [lia|].
  destruct (monthEnd_fields Y (quarter * 3)) as [He _]; [lia|].
  exists (Spec.monthStart Y ((quarter - 1) * 3 + 1)), (Spec.monthEnd Y (quarter * 3)).
  split; [exact HB|]. split; [split; assumption|].
  split; [reflexivity|]. split; [reflexivity|].
  split; [exact Hs|]. split; [exact He|].
  split.
  - unfold Date.toISODate in Hs, He.
    injection Hs as Hs1 Hs2 Hs3. injection He as He1 He2 He3.
    split; [congruence|lia].
  - split; [apply monthStart_le_monthEnd; lia|].
    intros ->. assert (quarter = 1) as -> by lia.
    split; [exact Hs|exact He].
Qed.

Lemma quarterly_bounds_witness :
  exists s e,
    Summary.periodBounds "quarterly" (Num 2024) (Num 2) = (Num s, Num e) /\
    Date.toISODate (Num s) = Some (2024, 1, 1) /\
    Date.toISODate (Num e) = Some (2024, 3, 31).
Proof.
  destruct (quarterly_bounds 2024 2) as (s & e & HB & _ & _ & _ & _ & _ & _ & _ & H2).
  - lia.
  - unfold Spec.representable. change (Date.fullYear 2024) with 2024. lia.
  - exists s, e. destruct (H2 eq_refl) as [A B].
    split; [exact HB|]. split; [exact A|exact B].
Defined.

(** C4 as stated fails for a year beyond the range of Date: both boundaries
    are the Invalid Date and the request ends in the server error. *)
Lemma quarterly_bounds_out_of_range :
  Summary.periodBounds "quarterly" (Num 300000) (Num 2) = (NaN, NaN)
  /\ Summary.handle (Some []) Sample.now
       (Sample.query [("periodType", "quarterly"); ("year", "300000"); ("month", "2")])
     = serverError.
Proof. split; vm_compute; reflexivity.
Qed.

(** C5, by design of the code: for periodType among yearly, quarterly and
    monthly, month 1..12 and a year whose dates a Date can represent (a year
    from 0 to 99 is read as 1900 + year), periodStart is 00:00:00.000 of the
    first day of the period and periodEnd is 23:59:59.000 of its last day
    (yearly: January 1 to December 31; monthly: first to last day of the
    month), and periodStart <= periodEnd. *)
Theorem period_bounds (pt : string) (year month : Z) :
  pt = "yearly" \/ pt = "quarterly" \/ pt = "monthly" ->
  1 <= month <= 12 ->
  Spec.representable (Date.fullYear year) ->
  let Y := Date.fullYear year in
  exists first last s e,
    Summary.periodBounds pt (Num year) (Num month) = (Num s, Num e) /\
    (1 <= first <= last /\ last <= 12) /\
    (pt = "yearly" -> first = 1 /\ last = 12 /\ Date.DaysInMonth Y (last - 1) = 31) /\
    (pt = "quarterly" -> first <= month <= last /\ last = first + 2) /\
    (pt = "monthly" -> first = month /\ last = month) /\
    Date.toISODate (Num s) = Some (Y, first, 1) /\
    Date.TimeWithinDay s = 0 /\
    Date.toISODate (Num e) = Some (Y, last, Date.DaysInMonth Y (last - 1)) /\
    Date.TimeWithinDay e = Date.MakeTime 23 59 59 0 /\
    s <= e /\
    (~ 0 <= year <= 99 -> Y = year).
Proof.
  intros Hpt Hm Hy Y.
  assert (Hfull : ~ 0 <= year <= 99 -> Y = year).
  { intros H. subst Y. destruct (fullYear_cases year) as [[? _]|[_ E]]; tauto. }
  assert (Ends : forall first last,
             1 <= first <= last -> last <= 12 ->
             Date.toISODate (Num (Spec.monthStart Y first)) = Some (Y, first, 1) /\
             Date.TimeWithinDay (Spec.monthStart Y first) = 0 /\
             Date.toISODate (Num (Spec.monthEnd Y last))
             = Some (Y, last, Date.DaysInMonth Y (last - 1)) /\
             Date.TimeWithinDay (Spec.monthEnd Y last) = Date.MakeTime 23 59 59 0 /\
             Spec.monthStart Y first <= Spec.monthEnd Y last /\
             (~ 0 <= year <= 99 -> Y = year)).
  { intros first last H1 H2.
    destruct (monthStart_fields Y first) as [A B]; [lia|].
    destruct (monthEnd_fields Y last) as [C D]; [lia|].
    repeat split; try assumption; try lia.
    apply monthStart_le_monthEnd; lia. }
  destruct Hpt as [ -> | [ -> | -> ] ].
  - exists 1, 12, (Spec.monthStart Y 1), (Spec.monthEnd Y 12).
    split; [apply bounds_yearly; exact Hy|].
    split; [lia|]. split; [intros _; repeat split|].
    split; [discriminate|]. split; [discriminate|].
    apply Ends; lia.
  - destruct (ceil_div_3 month Hm) as [Hq Hc].
    set (q := - (- month / 3)) in *.
    exists ((q - 1) * 3 + 1), (q * 3),
      (Spec.monthStart Y ((q - 1) * 3 + 1)), (Spec.monthEnd Y (q * 3)).
    split; [apply (bounds_quarterly year month Hy Hm)|].
    split; [lia|]. split; [discriminate|].
    split; [intros _; lia|]. split; [discriminate|].
    apply Ends; lia.
  - exists month, month, (Spec.monthStart Y month), (Spec.monthEnd Y month).
    split; [apply bounds_monthly; (discriminate || assumption)|].
    split; [lia|]. split; [discriminate|]. split; [discriminate|].
    split; [intros _; split; reflexivity|].
    apply Ends; lia.
Qed.

Lemma period_bounds_witness :
  exists s e,
    Summary.periodBounds "yearly" (Num 2024) (Num 7) = (Num s, Num e) /\
    Date.toISODate (Num s) = Some (2024, 1, 1) /\
    Date.toISODate (Num e) = Some (2024, 12, 31) /\
    s <= e.
Proof.
  destruct (period_bounds "yearly" 2024 7)
    as (first & last & s & e & HB & _ & Hy & _ & _ & A & _ & B & _ & C & _).
  - left. reflexivity.
  - lia.
  - unfold Spec.representable. change (Date.fullYear 2024) with 2024. lia.
  - exists s, e. destruct (Hy eq_refl) as (-> & -> & E).
    rewrite E in B. repeat split; assumption.
Defined.

(** C5 as stated fails twice: an instant of the last second of March 2024
    lies after periodEnd, so a row created then is in no month's report; and
    the yearly period of year 50 is the year 1950. *)
Lemma period_end_before_last_instant :
  (exists s e,
      Summary.periodBounds "monthly" (Num 2024) (Num 3) = (Num s, Num e) /\
      Date.toISODate (Num e) = Some (2024, 3, 31) /\
      Date.toISODate (Num (createdAt Sample.late)) = Some (2024, 3, 31) /\
      e < createdAt Sample.late /\
      Db.selectBetween (Some [Sample.late]) (Num s) (Num e) = Some [])
  /\ (exists s e,
         Summary.periodBounds "monthly" (Num 2024) (Num 4) = (Num s, Num e) /\
         createdAt Sample.late < s /\
         Db.selectBetween (Some [Sample.late]) (Num s) (Num e) = Some [])
  /\ Summary.periodBounds "yearly" (Num 50) (Num 1)
     = (Num (Date.civil 1950 1 1 0 0 0 0), Num (Date.civil 1950 12 31 23 59 59 0)).
Proof.
  split; [|split].
  - eexists _, _. split; [vm_compute; reflexivity|].
    repeat split; vm_compute; reflexivity.
  - eexists _, _. split; [vm_compute; reflexivity|].
    repeat split; vm_compute; reflexivity.
  - vm_compute. reflexivity.
Qed.

(** ** The history *)

Section History.
Import Date.

Lemma YearFromTime_bounds t :
  0 <= t < TimeFromYear 275760 -> 1970 <= YearFromTime t <= 275759.
Proof.
  intros [Hlo Hhi]. pose proof (YearFromTime_spec t) as S.
  assert (D : 0 <= Day t < DayFromYear 275760).
  { unfold TimeFromYear in Hhi. revert Hhi. generalize (DayFromYear 275760).
    intros b Hhi. unfold Day, msPerDay in *. Z.div_mod_to_equations. lia. }
  split.
  - destruct (Z.le_gt_cases 1970 (YearFromTime t)) as [|G]; [assumption|].
    assert (DayFromYear (YearFromTime t + 1) <= DayFromYear 1970)
      by (apply DayFromYear_mono; lia).
    change (DayFromYear 1970) with 0 in *. lia.
  - destruct (Z.le_gt_cases (YearFromTime t) 275759) as [|G]; [assumption|].
    assert (DayFromYear 275760 <= DayFromYear (YearFromTime t))
      by (apply DayFromYear_mono; lia).
    lia.
Qed.

Lemma monthsBefore_range ny nm i :
  0 <= nm <= 11 -> 0 <= i < 24 ->
  let '(y, m) := Spec.monthsBefore ny nm i in
  ny - 2 <= y <= ny /\ 1 <= m <= 12 /\
  y = ny + (nm - i) / 12 /\ m - 1 = (nm - i) mod 12 /\
  y * 12 + (m - 1) = ny * 12 + nm - i.
Proof.
  intros Hm Hi. unfold Spec.monthsBefore. Z.div_mod_to_equations. lia.
Qed.

(** One run of the loop body: the entry of the month [i] months back. *)
Lemma monthSummary_entry table now i :
  0 <= now < TimeFromYear 275760 -> 0 <= i < 24 ->
  Monthly.monthSummary (Some table) now i
  = Some (let '(y, m) := Spec.monthsBefore (YearFromTime now) (MonthFromTime now) i in
          Spec.monthEntry table y m).
Proof.
  intros Hnow Hi.
  pose proof (YearFromTime_bounds now Hnow) as Hny.
  destruct (time_in_its_month now) as [Hnm _].
  pose proof (monthsBefore_range (YearFromTime now) (MonthFromTime now) i Hnm Hi) as R.
  destruct (Spec.monthsBefore (YearFromTime now) (MonthFromTime now) i) as [y m].
  destruct R as (Hy & Hm & Ey & Em & _).
  assert (Rep : Spec.representable y) by (unfold Spec.representable; lia).
  assert (Fy : fullYear y = y).
  { destruct (fullYear_cases y) as [[? _]|[_ E]]; [lia|exact E]. }
  assert (Fn : fullYear (YearFromTime now) = YearFromTime now).
  { destruct (fullYear_cases (YearFromTime now)) as [[? _]|[_ E]]; [lia|exact E]. }
  pose proof (DaysInMonth_pos y (m - 1)) as Hd.
  assert (Ht : make3 (Num (YearFromTime now)) (Num (MonthFromTime now - i)) (Num 1)
               = Num (Spec.monthStart y m)).
  { unfold make3, make, Spec.monthStart.
    rewrite <- (civil_clips y m 1 0 0 0 0) by (assumption || lia).
    f_equal. unfold MakeDate, MakeDay, MakeTime, civil.
    rewrite Fn, <- Ey, <- Em. lia. }
  destruct (civil_fields y m 1 0 0 0 0) as (A & B & _); try lia.
  fold (Spec.monthStart y m) in A, B.
  unfold Monthly.monthSummary. cbv zeta.
  cbn [getFullYear getMonth Js.sub Js.add Js.lift2]. rewrite Ht.
  cbn [getFullYear getMonth Js.sub Js.add Js.lift2]. rewrite A, B.
  replace (m - 1 + 1) with m by lia.
  pose proof (make3_first y m) as Ps. rewrite Fy in Ps. rewrite Ps by assumption.
  pose proof (make_day0 y m) as Pe. rewrite Fy in Pe. rewrite Pe by assumption.
  destruct (monthStart_fields y m Hm) as [Is _].
  destruct (monthEnd_fields y m Hm) as [Ie _].
  unfold Db.selectBetween. rewrite Is, Ie.
  unfold Spec.monthEntry.
  fold (Spec.inPeriod (Spec.monthStart y m) (Spec.monthEnd y m) table).
  rewrite !sumCost_total, categoryBreakdown_spec. reflexivity.
Qed.

Lemma indices_done i n : n <= i -> indices i n = [].
Proof. intros H. unfold indices. now replace (Z.to_nat (n - i)) with O by lia. Qed.

Lemma indices_step i n : i < n -> indices i n = i :: indices (i + 1) n.
Proof.
  intros H. unfold indices.
  replace (Z.to_nat (n - i)) with (S (Z.to_nat (n - (i + 1)))) by lia.
  cbn [seq map]. f_equal; [lia|].
  rewrite <- seq_shift, map_map. apply map_ext. intros k. lia.
Qed.

(** The loop ends by its test, never by its fuel, and pushes one entry per
    index below [monthsCount]. *)
Lemma loop_runs table now n fuel :
  0 <= now < TimeFromYear 275760 -> n <= 24 ->
  forall i summaries,
    0 <= i -> (Z.to_nat (n - i) <= fuel)%nat ->
    Monthly.loop fuel (Some table) now (Num n) i summaries
    = Monthly.Done
        (summaries
         ++ map (fun j =>
                   let '(y, m) :=
                     Spec.monthsBefore (YearFromTime now) (MonthFromTime now) j in
                   Spec.monthEntry table y m)
                (indices i n)).
Proof.
  intros Hnow Hn. induction fuel as [|fuel IH]; intros i acc Hi Hf.
  - assert (n <= i) by lia. cbn [Monthly.loop Js.ltb].
    destruct (Z.ltb_spec i n); [lia|].
    rewrite indices_done by assumption. cbn [map]. now rewrite app_nil_r.
  - cbn [Monthly.loop Js.ltb]. destruct (Z.ltb_spec i n) as [Lt|Ge].
    + rewrite monthSummary_entry by (assumption || lia).
      rewrite IH by lia. rewrite (indices_step i n Lt). cbn [map].
      now rewrite <- app_assoc.
    + rewrite indices_done by assumption. cbn [map]. now rewrite app_nil_r.
Qed.

Lemma loop_NaN fuel db now i summaries :
  Monthly.loop fuel db now NaN i summaries = Monthly.Done summaries.
Proof. destruct fuel; reflexivity. Qed.

(** The fuel of the handler is enough, whatever the database and the clock. *)
Lemma loop_fuel db now n fuel :
  forall i summaries,
    (Z.to_nat (n - i) <= fuel)%nat ->
    Monthly.loop fuel db now (Num n) i summaries <> Monthly.OutOfFuel.
Proof.
  induction fuel as [|fuel IH]; intros i acc Hf; cbn [Monthly.loop Js.ltb];
    destruct (Z.ltb_spec i n) as [Lt|Ge]; try discriminate; [lia|].
  destruct (Monthly.monthSummary db now i); [|discriminate].
  apply IH. lia.
Qed.

Lemma handle_fuel db now request :
  Monthly.loop 24 db now (Monthly.monthsCountOf request) 0 [] <> Monthly.OutOfFuel.
Proof.
  unfold Monthly.monthsCountOf.
  destruct (JsString.parseInt _) as [|n]; cbn [Js.min Js.lift2].
  - rewrite loop_NaN. discriminate.
  - apply loop_fuel. lia.
Qed.

Lemma nth_indices n i :
  0 <= i < n -> nth_error (indices 0 n) (Z.to_nat i) = Some i.
Proof.
  intros H. unfold indices.
  rewrite nth_error_map, nth_error_seq.
  destruct (Nat.ltb_spec (Z.to_nat i) (Z.to_nat (n - 0))); [|lia].
  simpl. f_equal. lia.
Qed.

End History.

(** C3: with the database reachable and the clock in the range of Date from
    1970 on, the history for monthsCount N (12 when the parameter is absent,
    at most 24) is a sequence of exactly min(N, 24) summaries; entry 0 is the
    current calendar month and entry i is the calendar month i whole months
    before it, years rolling, each with the boundaries the monthly branch of
    the period resolver gives for that month. *)
Theorem history_months (table : list StudyCard) (now : Z) (request : Request) (N : Z) :
  0 <= now < Date.TimeFromYear 275760 ->
  JsString.parseInt (searchParams_get (searchParams request) "months" ?? "12")
  = Num N ->
  0 <= N ->
  exists l,
    Monthly.handle (Some table) now request
    = json HistoryBody
           {| h_projectCode := "VLHOLDINGS"; h_projectName := "VL Holdings";
              h_currency := "THB"; summaries := l |} 200 /\
    Z.of_nat (List.length l) = Z.min N 24 /\
    (searchParams_get (searchParams request) "months" = None -> N = 12) /\
    (forall i, 0 <= i < Z.min N 24 ->
       exists y m,
         Spec.monthsBefore (Date.YearFromTime now) (Date.MonthFromTime now) i = (y, m) /\
         1 <= m <= 12 /\
         y * 12 + (m - 1)
         = Date.YearFromTime now * 12 + Date.MonthFromTime now - i /\
         nth_error l (Z.to_nat i) = Some (Spec.monthEntry table y m) /\
         m_periodStart (Spec.monthEntry table y m) = (y, m, 1) /\
         m_periodEnd (Spec.monthEntry table y m)
         = (y, m, Date.DaysInMonth y (m - 1)) /\
         Summary.periodBounds "monthly" (Num y) (Num m)
         = (Num (Spec.monthStart y m), Num (Spec.monthEnd y m))) /\
    (Spec.monthsBefore (Date.YearFromTime now) (Date.MonthFromTime now) 0
     = (Date.YearFromTime now, Date.MonthFromTime now + 1) /\
     Spec.monthStart (Date.YearFromTime now) (Date.MonthFromTime now + 1) <= now
     < Spec.monthEnd (Date.YearFromTime now) (Date.MonthFromTime now + 1) + 1000).
Proof.
  intros Hnow HN Hpos.
  pose proof (YearFromTime_bounds now Hnow) as Hny.
  destruct (time_in_its_month now) as [Hnm Hin].
  eexists. split.
  - unfold Monthly.handle, Monthly.monthsCountOf. rewrite HN.
    cbn [Js.min Js.lift2].
    rewrite (loop_runs table now (Z.min N 24) 24 Hnow) by lia.
    reflexivity.
  - cbn [app]. split; [|split; [|split]].
    + rewrite length_map. unfold indices. rewrite length_map, length_seq. lia.
    + intros E. rewrite E in HN. vm_compute in HN. congruence.
    + intros i Hi.
      pose proof (monthsBefore_range (Date.YearFromTime now) (Date.MonthFromTime now) i
                    Hnm ltac:(lia)) as R.
      destruct (Spec.monthsBefore (Date.YearFromTime now) (Date.MonthFromTime now) i)
        as [y m] eqn:E.
      destruct R as (Hy & Hm & _ & _ & Hidx).
      exists y, m. split; [reflexivity|]. split; [exact Hm|]. split; [exact Hidx|].
      split.
      * rewrite nth_error_map, (nth_indices (Z.min N 24) i Hi). cbn [option_map].
        rewrite E. reflexivity.
      * split; [reflexivity|]. split; [reflexivity|].
        assert (Fy : Date.fullYear y = y).
        { destruct (fullYear_cases y) as [[? _]|[_ F]]; [lia|exact F]. }
        rewrite <- Fy at 2 3.
        apply bounds_monthly; try discriminate; [|exact Hm].
        rewrite Fy. unfold Spec.representable. lia.
    + split.
      * unfold Spec.monthsBefore. rewrite Z.sub_0_r.
        f_equal; Z.div_mod_to_equations; lia.
      * rewrite civil_last_ms in Hin. rewrite monthStart_eq, monthEnd_eq.
        replace (Date.MonthFromTime now + 1 - 1) with (Date.MonthFromTime now) by lia.
        exact Hin.
Qed.

Lemma history_months_witness :
  exists l,
    Monthly.handle (Some []) Sample.now (Sample.query [("months", "3")])
    = json HistoryBody
           {| h_projectCode := "VLHOLDINGS"; h_projectName := "VL Holdings";
              h_currency := "THB"; summaries := l |} 200 /\
    Z.of_nat (List.length l) = 3.
Proof.
  destruct (history_months [] Sample.now (Sample.query [("months", "3")]) 3)
    as (l & H & L & _).
  - vm_compute. split; [discriminate|reflexivity].
  - reflexivity.
  - lia.
  - exists l. split; [exact H|exact L].
Defined.

(** ** Numerals: [parseInt] reads back what [String] prints *)

Section Numerals.
Import JsString.
Import Decimal DecimalString.

Lemma digits_acc d acc :
  digits 10 (NilEmpty.string_of_uint d) (Z.pos acc)
  = Z.pos (Pos.of_uint_acc d acc).
Proof.
  revert acc.
  induction d; intros acc; cbn [NilEmpty.string_of_uint Pos.of_uint_acc];
    [reflexivity|..]; digit_step; rewrite <- IHd; f_equal; lia.
Qed.

Lemma digits_zero d :
  digits 10 (NilEmpty.string_of_uint d) 0 = Z.of_N (Pos.of_uint d).
Proof.
  induction d; cbn [NilEmpty.string_of_uint Pos.of_uint];
    [reflexivity|..]; digit_step; [exact IHd|..];
    cbn [Z.of_N]; rewrite <- digits_acc; reflexivity.
Qed.

Lemma magnitude_digits d :
  d <> Nil ->
  magnitude (NilEmpty.string_of_uint d)
  = Some (digits 10 (NilEmpty.string_of_uint d) 0).
Proof.
  intros H. destruct d as [|d|d|d|d|d|d|d|d|d|d];
    [congruence|destruct d; reflexivity|..]; reflexivity.
Qed.

Lemma parseInt_unsigned d :
  d <> Nil ->
  parseInt (NilEmpty.string_of_uint d)
  = match magnitude (NilEmpty.string_of_uint d) with
    | Some v => Num (1 * v)
    | None => NaN
    end.
Proof. intros H. destruct d; [congruence|..]; reflexivity. Qed.

Lemma parseInt_negative s :
  parseInt (String "-" s)
  = match magnitude s with
    | Some v => Num (-1 * v)
    | None => NaN
    end.
Proof. reflexivity. Qed.

Lemma NilZero_nonnil d :
  d <> Nil -> NilZero.string_of_uint d = NilEmpty.string_of_uint d.
Proof. intros H. destruct d; [congruence|..]; reflexivity. Qed.

(** [parseInt(String(n)) = n] for every integer [n]. *)
Lemma parseInt_ofInt n : parseInt (ofInt n) = Num n.
Proof.
  destruct n as [|p|p]; [reflexivity|..]; unfold ofInt;
    cbn [Z.to_int NilZero.string_of_int];
    pose proof (DecimalPos.Unsigned.to_uint_nonnil p) as Hp;
    rewrite NilZero_nonnil by exact Hp.
  - rewrite parseInt_unsigned, magnitude_digits, digits_zero by exact Hp.
    rewrite DecimalPos.Unsigned.of_to. reflexivity.
  - rewrite parseInt_negative, magnitude_digits, digits_zero by exact Hp.
    rewrite DecimalPos.Unsigned.of_to. reflexivity.
Qed.

End Numerals.

(** ** The key check and the status of a response *)

Section Requests.

Lemma prefix_slice p s :
  String.prefix p s = true -> s = (p ++ JsString.slice (String.length p) s)%string.
Proof.
  revert s. induction p as [|a p IH]; intros s H; [reflexivity|].
  destruct s as [|b s]; simpl in H; [discriminate|].
  destruct (Ascii.ascii_dec a b) as [->|]; [|discriminate].
  simpl. f_equal. now apply IH.
Qed.

Lemma prefix_app p k : String.prefix p (p ++ k)%string = true.
Proof.
  induction p as [|a p IH]; simpl; [now destruct k|].
  destruct (Ascii.ascii_dec a a); [exact IH|congruence].
Qed.

Lemma slice_app p k : JsString.slice (String.length p) (p ++ k)%string = k.
Proof. induction p as [|a p IH]; simpl; [now destruct k|exact IH]. Qed.

(** The check lets a request through exactly when no key is configured (or
    the key is empty) or the header is "Bearer " followed by the key. *)
Lemma rejected_iff env request :
  rejected env request = true <->
  exists key, PRESIDENT_API_KEY env = Some key /\ key <> ""
              /\ authorization request <> Some ("Bearer " ++ key)%string.
Proof.
  unfold rejected, providedKey, JsString.startsWith.
  destruct (PRESIDENT_API_KEY env) as [key|].
  2: { split; [discriminate|]. intros (k & H & _). discriminate. }
  destruct (String.eqb_spec key "") as [->|Hne].
  { split; [discriminate|]. intros (k & [= <-] & H & _). congruence. }
  destruct (authorization request) as [h|].
  2: { split; [|reflexivity]. intros _. exists key. repeat split; congruence. }
  destruct (String.prefix "Bearer " h) eqn:Hp.
  - apply prefix_slice in Hp. change (String.length "Bearer ") with 7%nat in Hp.
    destruct (String.eqb_spec (JsString.slice 7 h) key) as [E|E]; cbn [negb].
    + split; [discriminate|]. intros (k & [= <-] & _ & H). rewrite E in Hp.
      congruence.
    + split; [|reflexivity]. intros _. exists key. repeat split; try congruence.
      intros E'. assert (Hh : h = ("Bearer " ++ key)%string) by congruence.
      apply E. rewrite Hh. exact (slice_app "Bearer " key).
  - split; [|reflexivity]. intros _. exists key. repeat split; try congruence.
    intros E. assert (Hh : h = ("Bearer " ++ key)%string) by congruence.
    rewrite Hh, prefix_app in Hp. discriminate.
Qed.

Lemma Summary_handle_status db now request :
  status (Summary.handle db now request) = 200
  \/ Summary.handle db now request = serverError.
Proof.
  unfold Summary.handle.
  destruct (Summary.periodBounds _ _ _) as [s e].
  destruct (Summary.report _ _ _ _); [left|right]; reflexivity.
Qed.

Lemma Monthly_handle_status db now request :
  status (Monthly.handle db now request) = 200
  \/ Monthly.handle db now request = serverError.
Proof.
  unfold Monthly.handle.
  destruct (Monthly.loop _ _ _ _ _ _); [left|right|right]; reflexivity.
Qed.

(** An absent parameter takes its default. *)
Lemma yearOf_default now request :
  searchParams_get (searchParams request) "year" = None ->
  Summary.yearOf now request = Num (Date.YearFromTime now).
Proof. unfold Summary.yearOf. intros ->. apply parseInt_ofInt. Qed.

Lemma monthOf_default now request :
  searchParams_get (searchParams request) "month" = None ->
  Summary.monthOf now request = Num (Date.MonthFromTime now + 1).
Proof. unfold Summary.monthOf. intros ->. apply parseInt_ofInt. Qed.

Lemma monthsCountOf_default request :
  searchParams_get (searchParams request) "months" = None ->
  Monthly.monthsCountOf request = Num 12.
Proof. unfold Monthly.monthsCountOf. intros ->. reflexivity. Qed.

(** The report for the current month: parameters absent, database
    reachable, clock in range. *)
Lemma Summary_default_ok table now request :
  searchParams request = [] -> 0 <= now < Date.TimeFromYear 275760 ->
  status (Summary.handle (Some table) now request) = 200.
Proof.
  intros Hq Hnow. unfold Summary.handle.
  rewrite yearOf_default, monthOf_default by (rewrite Hq; reflexivity).
  unfold Summary.periodTypeOf. rewrite Hq. cbn [searchParams_get orElse].
  pose proof (YearFromTime_bounds now Hnow) as Hy.
  destruct (time_in_its_month now) as [Hm _].
  assert (Fy : Date.fullYear (Date.YearFromTime now) = Date.YearFromTime now).
  { destruct (fullYear_cases (Date.YearFromTime now)) as [[? _]|[_ F]]; [lia|exact F]. }
  rewrite bounds_monthly; try discriminate; try lia.
  - rewrite report_returns. reflexivity.
  - rewrite Fy. unfold Spec.representable. lia.
Qed.

Lemma Monthly_default_ok table now request :
  searchParams request = [] -> 0 <= now < Date.TimeFromYear 275760 ->
  status (Monthly.handle (Some table) now request) = 200.
Proof.
  intros Hq Hnow. unfold Monthly.handle.
  rewrite monthsCountOf_default by (rewrite Hq; reflexivity).
  rewrite (loop_runs table now 12 24 Hnow) by lia. reflexivity.
Qed.

End Requests.

(** ** White space *)

Section WhiteSpace.
Import JsString.

Lemma append_assoc (a b c : string) : ((a ++ b) ++ c = a ++ b ++ c)%string.
Proof. induction a as [|x a IH]; simpl; [reflexivity|]. now rewrite IH. Qed.

Lemma append_empty (a : string) : (a ++ "")%string = a.
Proof. induction a as [|x a IH]; simpl; [reflexivity|]. now rewrite IH. Qed.


(** A white space character at the head of a text is measured and
    skipped. *)
Lemma whiteSpace_head cp t :
  In cp whiteSpace ->
  whiteSpaceLength (utf8 cp ++ t) = String.length (utf8 cp)
  /\ trimStart (utf8 cp ++ t) = trimStart t.
Proof.
  intros H. unfold whiteSpace in H. cbn [In] in H.
  repeat (destruct H as [<-|H]; [destruct t; split; reflexivity|]).
  contradiction.
Qed.








(** [parseInt] skips every white space character before the number. *)
Lemma parseInt_skips cp v :
  In cp whiteSpace -> parseInt (utf8 cp ++ v) = parseInt v.
Proof.
  intros H. unfold parseInt. now rewrite (proj2 (whiteSpace_head cp v H)).
Qed.

End WhiteSpace.

Section QueryParameters.

Lemma handle_withAuthorization h db now request :
  Summary.handle db now (withAuthorization h request) = Summary.handle db now request
  /\ Monthly.handle db now (withAuthorization h request) = Monthly.handle db now request.
Proof. split; reflexivity. Qed.

Lemma report_invalid_start db pt e : Summary.report db pt NaN e = None.
Proof. destruct db; reflexivity. Qed.

Lemma make3_NaN_month year d : Date.make3 year NaN d = NaN.
Proof. destruct year; reflexivity. Qed.

(** An unparsable year makes every period start at the Invalid Date. *)
Lemma bounds_NaN_year pt month : fst (Summary.periodBounds pt NaN month) = NaN.
Proof.
  unfold Summary.periodBounds.
  destruct (pt =? "yearly")%string; [reflexivity|].
  destruct (pt =? "quarterly")%string; reflexivity.
Qed.

(** So does an unparsable month, unless the period is a year. *)
Lemma bounds_NaN_month pt year :
  pt <> "yearly" -> fst (Summary.periodBounds pt year NaN) = NaN.
Proof.
  intros H. unfold Summary.periodBounds.
  destruct (String.eqb_spec pt "yearly"); [contradiction|].
  destruct (pt =? "quarterly")%string; cbn [fst]; apply make3_NaN_month.
Qed.

Lemma handle_invalid_start db now request :
  fst (Summary.periodBounds (Summary.periodTypeOf request)
         (Summary.yearOf now request) (Summary.monthOf now request)) = NaN ->
  Summary.handle db now request = serverError.
Proof.
  unfold Summary.handle.
  destruct (Summary.periodBounds _ _ _) as [s e]. cbn [fst]. intros ->.
  now rewrite report_invalid_start.
Qed.

End QueryParameters.

(** C7: with a key configured, a request whose Authorization header is not
    exactly "Bearer <key>" (missing, malformed or with a wrong key alike) is
    answered by both routes with the one 401 response and its fixed message;
    with no key configured the check is skipped: the handler runs as for an
    accepted request, never answers 401, and answers 200 to the request
    without parameters when the database is reachable. *)
Theorem bearer_check (env : Env) (db : Database) (now : Z) (request : Request) :
  (forall key,
      PRESIDENT_API_KEY env = Some key -> key <> "" ->
      authorization request <> Some ("Bearer " ++ key)%string ->
      Summary.GET env db now request = unauthorized /\
      Monthly.GET env db now request = unauthorized) /\
  unauthorized
  = {| status := 401;
       body := ErrorBody "Unauthorized. Invalid or missing API key." |} /\
  (PRESIDENT_API_KEY env = None ->
   (Summary.GET env db now request = Summary.handle db now request /\
    Monthly.GET env db now request = Monthly.handle db now request) /\
   (status (Summary.GET env db now request) <> 401 /\
    status (Monthly.GET env db now request) <> 401) /\
   (forall key,
       key <> "" ->
       let accepted := withAuthorization (Some ("Bearer " ++ key)%string) request in
       Summary.GET env db now request
       = Summary.GET {| PRESIDENT_API_KEY := Some key |} db now accepted /\
       Monthly.GET env db now request
       = Monthly.GET {| PRESIDENT_API_KEY := Some key |} db now accepted) /\
   (forall table,
       db = Some table -> searchParams request = [] ->
       0 <= now < Date.TimeFromYear 275760 ->
       status (Summary.GET env db now request) = 200 /\
       status (Monthly.GET env db now request) = 200)).
Proof.
  split; [|split; [reflexivity|]].
  - intros key Hk Hne Hh.
    assert (R : rejected env request = true)
      by (apply rejected_iff; exists key; auto).
    unfold Summary.GET, Monthly.GET. rewrite R. split; reflexivity.
  - intros Hnone.
    assert (R : rejected env request = false).
    { destruct (rejected env request) eqn:E; [|reflexivity].
      apply rejected_iff in E. destruct E as (k & Hk & _). congruence. }
    unfold Summary.GET, Monthly.GET. rewrite R.
    split; [split; reflexivity|]. split; [|split].
    + destruct (Summary_handle_status db now request) as [E|E],
               (Monthly_handle_status db now request) as [F|F];
        rewrite ?E, ?F; split; discriminate.
    + intros key Hne.
      set (accepted := withAuthorization (Some ("Bearer " ++ key)%string) request).
      assert (A : rejected {| PRESIDENT_API_KEY := Some key |} accepted = false).
      { destruct (rejected _ accepted) eqn:E; [|reflexivity].
        apply rejected_iff in E. destruct E as (k & Hk & _ & Hh).
        cbn in Hk. injection Hk as <-. now elim Hh. }
      rewrite A. subst accepted.
      destruct (handle_withAuthorization (Some ("Bearer " ++ key)%string) db now request)
        as [E F].
      rewrite E, F. split; reflexivity.
    + intros table -> Hq Hnow. split.
      * now apply Summary_default_ok.
      * now apply Monthly_default_ok.
Qed.

Lemma bearer_check_witness :
  Summary.GET Sample.with_key (Some []) Sample.now
    (withAuthorization (Some "Basic abc") (Sample.query []))
  = unauthorized /\
  status (Summary.GET Sample.no_key (Some []) Sample.now (Sample.query [])) = 200 /\
  status (Monthly.GET Sample.no_key (Some []) Sample.now (Sample.query [])) = 200.
Proof.
  destruct (bearer_check Sample.with_key (Some []) Sample.now
              (withAuthorization (Some "Basic abc") (Sample.query [])))
    as (A & _ & _).
  destruct (bearer_check Sample.no_key (Some []) Sample.now (Sample.query []))
    as (_ & _ & B).
  split.
  - apply (A "secret"); [reflexivity|discriminate|discriminate].
  - destruct (B eq_refl) as (_ & _ & _ & C).
    apply (C []); [reflexivity|reflexivity|].
    vm_compute. split; [discriminate|reflexivity].
Defined.

(** C8, as the code has it: no request is answered with a 400.  An absent
    year, month or months takes its default (current year, current month,
    12).  A present value that parseInt cannot read is not replaced by the
    default but becomes NaN: the history then has no entries (status 200),
    and the report ends in the server error for an unparsable year, and for
    an unparsable month unless the period is yearly.  White space before a
    number, any character of StrWhiteSpaceChar, does not make it
    unparsable. *)
Theorem query_parameters (env : Env) (db : Database) (now : Z) (request : Request) :
  let get := searchParams_get (searchParams request) in
  (status (Summary.GET env db now request) <> 400 /\
   status (Monthly.GET env db now request) <> 400) /\
  (get "year" = None -> Summary.yearOf now request = Num (Date.YearFromTime now)) /\
  (get "month" = None ->
   Summary.monthOf now request = Num (Date.MonthFromTime now + 1)) /\
  (get "months" = None -> Monthly.monthsCountOf request = Num 12) /\
  (forall v, get "year" = Some v -> JsString.parseInt v = NaN ->
             Summary.yearOf now request = NaN /\
             Summary.handle db now request = serverError) /\
  (forall v, get "month" = Some v -> JsString.parseInt v = NaN ->
             Summary.monthOf now request = NaN /\
             (Summary.periodTypeOf request <> "yearly" ->
              Summary.handle db now request = serverError)) /\
  (forall v, get "months" = Some v -> JsString.parseInt v = NaN ->
             Monthly.monthsCountOf request = NaN /\
             Monthly.handle db now request
             = json HistoryBody
                    {| h_projectCode := "VLHOLDINGS"; h_projectName := "VL Holdings";
                       h_currency := "THB"; summaries := [] |} 200) /\
  (forall cp v, In cp JsString.whiteSpace ->
                JsString.parseInt (JsString.utf8 cp ++ v) = JsString.parseInt v).
Proof.
  intros get. subst get.
  split; [|split; [|split; [|split; [|split; [|split; [|split; [|exact parseInt_skips]]]]]]].
  - unfold Summary.GET, Monthly.GET.
    destruct (rejected env request); [split; discriminate|].
    destruct (Summary_handle_status db now request) as [E|E],
             (Monthly_handle_status db now request) as [F|F];
      rewrite ?E, ?F; split; discriminate.
  - apply yearOf_default.
  - apply monthOf_default.
  - apply monthsCountOf_default.
  - intros v Hv Hp.
    assert (Y : Summary.yearOf now request = NaN)
      by (unfold Summary.yearOf; rewrite Hv; exact Hp).
    split; [exact Y|]. apply handle_invalid_start. rewrite Y. apply bounds_NaN_year.
  - intros v Hv Hp.
    assert (M : Summary.monthOf now request = NaN)
      by (unfold Summary.monthOf; rewrite Hv; exact Hp).
    split; [exact M|]. intros Hpt. apply handle_invalid_start. rewrite M.
    now apply bounds_NaN_month.
  - intros v Hv Hp.
    assert (C : Monthly.monthsCountOf request = NaN)
      by (unfold Monthly.monthsCountOf; rewrite Hv; cbn [orElse]; rewrite Hp; reflexivity).
    split; [exact C|]. unfold Monthly.handle. rewrite C, loop_NaN. reflexivity.
Qed.

Lemma query_parameters_witness :
  Summary.handle (Some []) Sample.now (Sample.query [("year", "abc"); ("months", "x")])
  = serverError /\
  Summary.monthOf Sample.now (Sample.query [("year", "abc"); ("months", "x")]) = Num 4 /\
  Monthly.handle (Some []) Sample.now (Sample.query [("year", "abc"); ("months", "x")])
  = json HistoryBody
         {| h_projectCode := "VLHOLDINGS"; h_projectName := "VL Holdings";
            h_currency := "THB"; summaries := [] |} 200 /\
  JsString.parseInt (JsString.utf8 160 ++ "2024") = Num 2024 /\
  JsString.parseInt (JsString.utf8 65279 ++ "2024") = Num 2024.
Proof.
  destruct (query_parameters Sample.no_key (Some []) Sample.now
              (Sample.query [("year", "abc"); ("months", "x")]))
    as (_ & _ & M & _ & Y & _ & C & W).
  split; [|split; [|split; [|split]]].
  - apply (Y "abc"); reflexivity.
  - rewrite (M eq_refl). reflexivity.
  - apply (C "x"); reflexivity.
  - rewrite (W 160%N "2024"); [reflexivity|]. vm_compute. tauto.
  - rewrite (W 65279%N "2024"); [reflexivity|]. vm_compute. tauto.
Defined.

(** C8 as stated fails: an unparsable months gives an empty history, not the
    twelve months of the default, and an unparsable year gives the server
    error, not the report of the current year. *)
Lemma unparsable_is_not_default :
  (exists l,
      body (Monthly.handle (Some []) Sample.now (Sample.query []))
      = HistoryBody {| h_projectCode := "VLHOLDINGS"; h_projectName := "VL Holdings";
                       h_currency := "THB"; summaries := l |}
      /\ List.length l = 12%nat) /\
  body (Monthly.handle (Some []) Sample.now (Sample.query [("months", "abc")]))
  = HistoryBody {| h_projectCode := "VLHOLDINGS"; h_projectName := "VL Holdings";
                   h_currency := "THB"; summaries := [] |} /\
  status (Summary.handle (Some []) Sample.now (Sample.query [])) = 200 /\
  status (Summary.handle (Some []) Sample.now (Sample.query [("year", "abc")])) = 500.
Proof.
  split; [|split; [|split]].
  - eexists. split; vm_compute; reflexivity.
  - vm_compute. reflexivity.
  - vm_compute. reflexivity.
  - vm_compute. reflexivity.
Qed.

(** ** The completion rate *)

Section CompletionRate.

(** The rate is computed from the whole table, whatever the period. *)
Lemma completion_rate_global table pt s e r :
  Summary.report (Some table) pt (Num s) (Num e) = Some r ->
  completionRate (metadata r)
  = Summary.rate (Z.of_nat (List.length table))
                 (Z.of_nat (List.length (filter isCompleted table)))
  /\ totalItems (metadata r) = Z.of_nat (List.length table)
  /\ totalCompleted (metadata r) = Z.of_nat (List.length (filter isCompleted table)).
Proof. rewrite report_returns. intros [= <-]. repeat split. Qed.

(** It is 0 on an empty table. *)
Lemma completion_rate_empty totalCompleted : Summary.rate 0 totalCompleted = Num 0.
Proof. reflexivity. Qed.

(** Up to 64 rows the rate is an integer from 0 to 100, equal to the rounded
    percentage or one below it. *)
Lemma completion_rate_small :
  forallb (fun ti =>
             forallb (fun tc =>
                        match Summary.rate (Z.of_nat ti) (Z.of_nat tc) with
                        | Num p =>
                            (0 <=? p) && (p <=? 100)
                            && ((p =? Spec.roundedPercent (Z.of_nat tc) (Z.of_nat ti))
                                || (p =? Spec.roundedPercent (Z.of_nat tc) (Z.of_nat ti) - 1))
                        | NaN => false
                        end)
                     (seq 0 (S ti)))
          (seq 1 64)
  = true.
Proof. vm_compute. reflexivity. Qed.

End CompletionRate.

(** C6, at the table where the code misses it: of 40 rows 23 are completed,
    the percentage is exactly 57.5, which rounds to 58; the report's
    completionRate is 57, because the quotient 23/40 is rounded to binary64
    before it is multiplied by 100. *)
Theorem completion_rate_at_a_tie :
  exists r,
    Summary.report (Some Sample.forty) "monthly" (Num 0) (Num 0) = Some r /\
    totalItems (metadata r) = 40 /\
    totalCompleted (metadata r) = 23 /\
    completionRate (metadata r) = Num 57 /\
    Spec.roundedPercent 23 40 = 58 /\
    200 * 23 + 40 = 58 * (2 * 40).
Proof.
  eexists. split; [apply report_returns|].
  repeat split; vm_compute; reflexivity.
Qed.

(** ** Further properties of the two routes *)

Section Routes.

(** What one run of the history's loop body returns. *)
Lemma monthSummary_shape db now i s :
  Monthly.monthSummary db now i = Some s ->
  exists rows,
    s = {| m_periodType := "monthly";
           m_periodStart := m_periodStart s;
           m_periodEnd := m_periodEnd s;
           m_totalRevenue := sumCost (filter isCompleted rows);
           m_totalExpenses := sumCost rows;
           m_netProfit := sumCost (filter isCompleted rows) - sumCost rows;
           m_cashInflow := sumCost (filter isCompleted rows);
           m_cashOutflow := sumCost rows;
           m_netCashFlow := sumCost (filter isCompleted rows) - sumCost rows;
           m_itemCount := Z.of_nat (List.length rows);
           m_completedCount := Z.of_nat (List.length (filter isCompleted rows));
           m_expenseCategories := categoryBreakdown rows |}.
Proof.
  unfold Monthly.monthSummary. cbv zeta.
  generalize (Date.make3
                (Date.getFullYear
                   (Date.make3 (Date.getFullYear (Num now))
                      (Js.sub (Date.getMonth (Num now)) (Num i)) (Num 1)))
                (Date.getMonth
                   (Date.make3 (Date.getFullYear (Num now))
                      (Js.sub (Date.getMonth (Num now)) (Num i)) (Num 1)))
                (Num 1)).
  generalize (Date.make
                (Date.getFullYear
                   (Date.make3 (Date.getFullYear (Num now))
                      (Js.sub (Date.getMonth (Num now)) (Num i)) (Num 1)))
                (Js.add
                   (Date.getMonth
                      (Date.make3 (Date.getFullYear (Num now))
                         (Js.sub (Date.getMonth (Num now)) (Num i)) (Num 1)))
                   (Num 1)) (Num 0) (Num 23) (Num 59) (Num 59)).
  intros pe ps.
  destruct (Db.selectBetween db ps pe) as [rows|]; [|discriminate].
  destruct (Date.toISODate ps) as [a|]; [|discriminate].
  destruct (Date.toISODate pe) as [b|]; [|discriminate].
  intros [= <-]. exists rows. reflexivity.
Qed.

(** Every summary the loop returns was pushed by a run of its body. *)
Lemma loop_entries fuel db now monthsCount :
  forall i acc l,
    Monthly.loop fuel db now monthsCount i acc = Monthly.Done l ->
    forall s, In s l -> In s acc \/ exists j, Monthly.monthSummary db now j = Some s.
Proof.
  induction fuel as [|fuel IH]; intros i acc l; cbn [Monthly.loop];
    destruct (Js.ltb (Num i) monthsCount); try discriminate;
    try (intros [= <-] s Hs; now left).
  destruct (Monthly.monthSummary db now i) as [e|] eqn:E; [|discriminate].
  intros H s Hs. destruct (IH _ _ _ H s Hs) as [Hin|Hex]; [|now right].
  apply in_app_or in Hin. destruct Hin as [Hin|[<-|[]]]; [now left|].
  right. now exists i.
Qed.

Lemma length_filter_le {A} (f : A -> bool) (l : list A) :
  (List.length (filter f l) <= List.length l)%nat.
Proof. induction l as [|a l IH]; simpl; [lia|]. destruct (f a); simpl; lia. Qed.

End Routes.

(** X1: every entry of a history satisfies the identities of the report:
    netProfit = totalRevenue - totalExpenses, the cash figures repeat them,
    the category amounts add up to totalExpenses and the category counts to
    itemCount, no category occurs twice, and completedCount is between 0 and
    itemCount. *)
Theorem history_entry_identities (db : Database) (now : Z) (request : Request)
        (h : FinanceHistory) (s : MonthSummary) :
  Monthly.handle db now request = json HistoryBody h 200 ->
  In s (summaries h) ->
  m_periodType s = "monthly" /\
  m_netProfit s = m_totalRevenue s - m_totalExpenses s /\
  m_cashInflow s = m_totalRevenue s /\
  m_cashOutflow s = m_totalExpenses s /\
  m_netCashFlow s = m_netProfit s /\
  Spec.total (map amount (m_expenseCategories s)) = m_totalExpenses s /\
  Spec.total (map count (m_expenseCategories s)) = m_itemCount s /\
  NoDup (map name (m_expenseCategories s)) /\
  0 <= m_completedCount s <= m_itemCount s.
Proof.
  unfold Monthly.handle.
  destruct (Monthly.loop 24 db now (Monthly.monthsCountOf request) 0 []) as [l| |] eqn:L;
    try discriminate.
  intros [= <-] Hs. cbn [summaries] in Hs.
  destruct (loop_entries _ _ _ _ _ _ _ L s Hs) as [[]|[j Hj]].
  destruct (monthSummary_shape _ _ _ _ Hj) as [rows ->].
  cbn [m_periodType m_netProfit m_totalRevenue m_totalExpenses m_cashInflow
       m_cashOutflow m_netCashFlow m_expenseCategories m_itemCount m_completedCount].
  rewrite categoryBreakdown_spec, breakdown_names, !sumCost_total.
  destruct (breakdown_sums rows) as [A B].
  pose proof (length_filter_le isCompleted rows).
  repeat split; auto using NoDup_firsts; lia.
Qed.

Lemma history_entry_identities_witness :
  m_netProfit (Spec.monthEntry Sample.march 2024 3) = -100 /\
  Spec.total (map count (m_expenseCategories (Spec.monthEntry Sample.march 2024 3))) = 2.
Proof.
  destruct (history_entry_identities (Some Sample.march) Sample.now
              (Sample.query [("months", "2")])
              {| h_projectCode := "VLHOLDINGS"; h_projectName := "VL Holdings";
                 h_currency := "THB";
                 summaries := [Spec.monthEntry Sample.march 2024 4;
                               Spec.monthEntry Sample.march 2024 3] |}
              (Spec.monthEntry Sample.march 2024 3))
    as (_ & A & _ & _ & _ & _ & B & _).
  - vm_compute. reflexivity.
  - right. left. reflexivity.
  - split; [rewrite A|rewrite B]; vm_compute; reflexivity.
Defined.

Section Outcomes.

Lemma report_unreachable pt ps pe : Summary.report None pt ps pe = None.
Proof. reflexivity. Qed.

Lemma monthSummary_unreachable now i : Monthly.monthSummary None now i = None.
Proof. reflexivity. Qed.

(** A report that is returned comes from a reachable database and two valid
    boundaries. *)
Lemma report_inv db pt ps pe r :
  Summary.report db pt ps pe = Some r ->
  exists table s e, db = Some table /\ ps = Num s /\ pe = Num e.
Proof.
  destruct db as [table|]; [|discriminate].
  destruct ps as [|s]; [discriminate|].
  destruct pe as [|e]; [discriminate|].
  intros _. now exists table, s, e.
Qed.

Lemma handle_reportOf db now request :
  Summary.handle db now request
  = match reportOf db (Summary.periodTypeOf request)
            (Summary.yearOf now request) (Summary.monthOf now request) with
    | Some summary => json SummaryBody summary 200
    | None => serverError
    end.
Proof.
  unfold Summary.handle, reportOf.
  destruct (Summary.periodBounds _ _ _); reflexivity.
Qed.

Lemma handle_200_inv db now request r :
  Summary.handle db now request = json SummaryBody r 200 ->
  exists table s e,
    db = Some table /\
    Summary.report (Some table) (Summary.periodTypeOf request) (Num s) (Num e) = Some r.
Proof.
  unfold Summary.handle.
  destruct (Summary.periodBounds _ _ _) as [ps pe].
  destruct (Summary.report db _ ps pe) as [r'|] eqn:R; [|discriminate].
  intros [= <-].
  destruct (report_inv _ _ _ _ _ R) as (table & s & e & -> & -> & ->).
  now exists table, s, e.
Qed.

Lemma GET_200_inv env db now request r :
  Summary.GET env db now request = json SummaryBody r 200 ->
  Summary.handle db now request = json SummaryBody r 200.
Proof.
  unfold Summary.GET. destruct (rejected env request); [discriminate|auto].
Qed.

Lemma filter_filter_le {A} (f g : A -> bool) (l : list A) :
  (List.length (filter f (filter g l)) <= List.length (filter f l))%nat.
Proof.
  induction l as [|a l IH]; simpl; [lia|].
  destruct (g a); simpl; destruct (f a); simpl; lia.
Qed.

End Outcomes.

(** X2: in every report that is returned the four counts of the metadata
    agree with each other: periodCompletedCount <= periodItemCount <=
    totalItems and periodCompletedCount <= totalCompleted <= totalItems. *)
Theorem metadata_counts (env : Env) (db : Database) (now : Z) (request : Request)
        (r : FinanceSummary) :
  Summary.GET env db now request = json SummaryBody r 200 ->
  0 <= periodCompletedCount (metadata r) <= periodItemCount (metadata r) /\
  periodItemCount (metadata r) <= totalItems (metadata r) /\
  periodCompletedCount (metadata r) <= totalCompleted (metadata r) /\
  totalCompleted (metadata r) <= totalItems (metadata r).
Proof.
  intros H. apply GET_200_inv in H.
  destruct (handle_200_inv _ _ _ _ H) as (table & s & e & -> & R).
  rewrite report_returns in R. injection R as <-.
  cbn [metadata periodCompletedCount periodItemCount totalItems totalCompleted].
  pose proof (length_filter_le isCompleted (Spec.inPeriod s e table)).
  pose proof (length_filter_le isCompleted table).
  pose proof (filter_filter_le isCompleted
                (fun c => (s <=? createdAt c) && (createdAt c <=? e)) table).
  assert ((List.length (Spec.inPeriod s e table) <= List.length table)%nat)
    by apply length_filter_le.
  unfold Spec.inPeriod in *. lia.
Qed.

Lemma metadata_counts_witness :
  exists r,
    Summary.GET Sample.no_key (Some Sample.march) Sample.now Sample.march_request
    = json SummaryBody r 200 /\
    periodItemCount (metadata r) <= totalItems (metadata r).
Proof.
  eexists. split; [vm_compute; reflexivity|].
  eapply (metadata_counts Sample.no_key (Some Sample.march) Sample.now
            Sample.march_request).
  vm_compute. reflexivity.
Defined.

(** X3: a response of either route is the fixed 401, the fixed 500 or a 200
    with the route's body.  With the database unreachable the report is the
    500, and so is the history whenever it asks for at least one month; a
    history of no month (months unparsable, zero or negative) is a 200 with
    no entries even then. *)
Theorem opaque_errors (env : Env) (db : Database) (now : Z) (request : Request) :
  (Summary.GET env db now request = unauthorized \/
   Summary.GET env db now request = serverError \/
   exists r, Summary.GET env db now request = json SummaryBody r 200) /\
  (Monthly.GET env db now request = unauthorized \/
   Monthly.GET env db now request = serverError \/
   exists h, Monthly.GET env db now request = json HistoryBody h 200) /\
  Summary.handle None now request = serverError /\
  (forall n, Monthly.monthsCountOf request = Num n -> 1 <= n ->
             Monthly.handle None now request = serverError) /\
  (Monthly.monthsCountOf request = NaN \/
   (exists n, Monthly.monthsCountOf request = Num n /\ n <= 0) ->
   Monthly.handle db now request
   = json HistoryBody
          {| h_projectCode := "VLHOLDINGS"; h_projectName := "VL Holdings";
             h_currency := "THB"; summaries := [] |} 200).
Proof.
  split; [|split; [|split; [|split]]].
  - unfold Summary.GET. destruct (rejected env request); [now left|].
    right. rewrite handle_reportOf.
    destruct (reportOf _ _ _ _) as [r|]; [right; now exists r|now left].
  - unfold Monthly.GET. destruct (rejected env request); [now left|].
    right. unfold Monthly.handle.
    destruct (Monthly.loop _ _ _ _ _ _) as [l| |]; [right|left|left];
      try reflexivity.
    eexists. reflexivity.
  - rewrite handle_reportOf. unfold reportOf.
    destruct (Summary.periodBounds _ _ _). reflexivity.
  - intros n Hn H1. unfold Monthly.handle. rewrite Hn.
    cbn [Monthly.loop Js.ltb]. destruct (Z.ltb_spec 0 n); [|lia].
    rewrite monthSummary_unreachable. reflexivity.
  - intros [Hn|(n & Hn & H0)]; unfold Monthly.handle; rewrite Hn.
    + rewrite loop_NaN. reflexivity.
    + cbn [Monthly.loop Js.ltb]. destruct (Z.ltb_spec 0 n); [lia|reflexivity].
Qed.

Lemma opaque_errors_witness :
  Monthly.handle None Sample.now (Sample.query [("months", "3")]) = serverError /\
  Monthly.handle None Sample.now (Sample.query [("months", "-3")])
  = json HistoryBody
         {| h_projectCode := "VLHOLDINGS"; h_projectName := "VL Holdings";
            h_currency := "THB"; summaries := [] |} 200 /\
  Monthly.handle None Sample.now
    (Sample.query [("months", (JsString.utf8 160 ++ "5")%string)]) = serverError.
Proof.
  split; [|split].
  - destruct (opaque_errors Sample.no_key None Sample.now
                (Sample.query [("months", "3")])) as (_ & _ & _ & A & _).
    apply (A 3); [reflexivity|lia].
  - destruct (opaque_errors Sample.no_key None Sample.now
                (Sample.query [("months", "-3")])) as (_ & _ & _ & _ & B).
    apply B. right. exists (-3). split; [reflexivity|lia].
  - destruct (opaque_errors Sample.no_key None Sample.now
                (Sample.query [("months", (JsString.utf8 160 ++ "5")%string)]))
      as (_ & _ & _ & A & _).
    apply (A 5); [reflexivity|lia].
Defined.

(** X4: either route answers 401 exactly when a non-empty key is configured
    and the Authorization header is not "Bearer " followed by that key; in
    particular an empty configured key switches the check off like no key. *)
Theorem unauthorized_exactly (env : Env) (db : Database) (now : Z) (request : Request) :
  (status (Summary.GET env db now request) = 401 <->
   exists key, PRESIDENT_API_KEY env = Some key /\ key <> ""
               /\ authorization request <> Some ("Bearer " ++ key)%string) /\
  (status (Monthly.GET env db now request) = 401 <->
   exists key, PRESIDENT_API_KEY env = Some key /\ key <> ""
               /\ authorization request <> Some ("Bearer " ++ key)%string) /\
  (PRESIDENT_API_KEY env = Some "" ->
   Summary.GET env db now request = Summary.handle db now request /\
   Monthly.GET env db now request = Monthly.handle db now request).
Proof.
  assert (S : status (Summary.handle db now request) <> 401).
  { destruct (Summary_handle_status db now request) as [E|E]; rewrite E; discriminate. }
  assert (M : status (Monthly.handle db now request) <> 401).
  { destruct (Monthly_handle_status db now request) as [E|E]; rewrite E; discriminate. }
  pose proof (rejected_iff env request) as R.
  unfold Summary.GET, Monthly.GET.
  destruct (rejected env request).
  - split; [|split].
    + split; [intros _; now apply R|reflexivity].
    + split; [intros _; now apply R|reflexivity].
    + intros E. destruct R as [R _]. destruct (R eq_refl) as (k & Hk & Hne & _).
      congruence.
  - split; [|split].
    + split; [contradiction|]. intros H. apply R in H. discriminate.
    + split; [contradiction|]. intros H. apply R in H. discriminate.
    + intros _. split; reflexivity.
Qed.

Lemma unauthorized_exactly_witness :
  Summary.GET {| PRESIDENT_API_KEY := Some "" |} None Sample.now
    (withAuthorization (Some "whatever") (Sample.query []))
  = serverError.
Proof.
  destruct (unauthorized_exactly {| PRESIDENT_API_KEY := Some "" |} None Sample.now
              (withAuthorization (Some "whatever") (Sample.query [])))
    as (_ & _ & A).
  destruct (A eq_refl) as [-> _]. reflexivity.
Defined.

(** ** Months in a row *)

Section TimelineFacts.
Import Date.

Lemma index_parts idx :
  1 <= idx mod 12 + 1 <= 12 /\ idx = 12 * (idx / 12) + (idx mod 12 + 1 - 1).
Proof. Z.div_mod_to_equations. lia. Qed.

Lemma index_of y m :
  1 <= m <= 12 -> (12 * y + (m - 1)) / 12 = y /\ (12 * y + (m - 1)) mod 12 + 1 = m.
Proof. intros H. Z.div_mod_to_equations. lia. Qed.

Lemma startOf_month y m :
  1 <= m <= 12 -> Timeline.startOf (12 * y + (m - 1)) = Spec.monthStart y m.
Proof.
  intros H. unfold Timeline.startOf. destruct (index_of y m H) as [-> ->].
  reflexivity.
Qed.

Lemma endOf_month y m :
  1 <= m <= 12 -> Timeline.endOf (12 * y + (m - 1)) = Spec.monthEnd y m.
Proof.
  intros H. unfold Timeline.endOf. destruct (index_of y m H) as [-> ->].
  reflexivity.
Qed.

(** One second after the end of a month the next month starts. *)
Lemma monthEnd_next y m :
  1 <= m <= 11 -> Spec.monthEnd y m + 1000 = Spec.monthStart y (m + 1).
Proof.
  intros H. rewrite monthStart_eq, monthEnd_eq. unfold civil.
  replace (m + 1 - 1) with (m - 1 + 1) by lia.
  rewrite DaysBeforeMonth_succ by lia.
  unfold msPerDay, msPerHour, msPerMinute, msPerSecond. lia.
Qed.

Lemma monthEnd_december y :
  Spec.monthEnd y 12 + 1000 = Spec.monthStart (y + 1) 1.
Proof.
  rewrite monthStart_eq, monthEnd_eq. unfold civil.
  pose proof (DaysBeforeMonth_last y) as L. rewrite DayFromYear_succ.
  change (12 - 1) with 11. change (1 - 1) with 0.
  change (DaysBeforeMonth (DaysInYear (y + 1)) 0) with 0.
  unfold msPerDay, msPerHour, msPerMinute, msPerSecond. lia.
Qed.

Lemma end_to_next idx : Timeline.endOf idx + 1000 = Timeline.startOf (idx + 1).
Proof.
  destruct (index_parts idx) as [Hm Hi].
  set (y := idx / 12) in *. set (m := idx mod 12 + 1) in *.
  unfold Timeline.endOf. fold y m.
  destruct (Z.eq_dec m 12) as [E|E].
  - replace (idx + 1) with (12 * (y + 1) + (1 - 1)) by lia.
    rewrite startOf_month by lia. rewrite E. apply monthEnd_december.
  - replace (idx + 1) with (12 * y + (m + 1 - 1)) by lia.
    rewrite startOf_month by lia. apply monthEnd_next. lia.
Qed.

Lemma start_le_end idx : Timeline.startOf idx <= Timeline.endOf idx.
Proof.
  destruct (index_parts idx) as [Hm _].
  unfold Timeline.startOf, Timeline.endOf. apply monthStart_le_monthEnd; lia.
Qed.

Lemma start_mono_nat idx k :
  Timeline.startOf idx <= Timeline.startOf (idx + Z.of_nat k).
Proof.
  induction k as [|k IH]; [rewrite Z.add_0_r; lia|].
  replace (idx + Z.of_nat (S k)) with (idx + Z.of_nat k + 1) by lia.
  pose proof (end_to_next (idx + Z.of_nat k)).
  pose proof (start_le_end (idx + Z.of_nat k)). lia.
Qed.

(** A later month starts after an earlier one has ended. *)
Lemma end_lt_start i j : i < j -> Timeline.endOf i < Timeline.startOf j.
Proof.
  intros H. pose proof (end_to_next i).
  pose proof (start_mono_nat (i + 1) (Z.to_nat (j - (i + 1)))) as M.
  replace (i + 1 + Z.of_nat (Z.to_nat (j - (i + 1)))) with j in M by lia. lia.
Qed.

Lemma start_mono i j : i <= j -> Timeline.startOf i <= Timeline.startOf j.
Proof.
  intros H. pose proof (start_mono_nat i (Z.to_nat (j - i))) as M.
  now replace (i + Z.of_nat (Z.to_nat (j - i))) with j in M by lia.
Qed.

Lemma end_mono i j : i <= j -> Timeline.endOf i <= Timeline.endOf j.
Proof.
  intros H. pose proof (end_to_next i). pose proof (end_to_next j).
  pose proof (start_mono (i + 1) (j + 1)). lia.
Qed.

(** *** The monthly branch for any month number *)









End TimelineFacts.



Section Nesting.

Lemma filter_comm {A} (f g : A -> bool) (l : list A) :
  filter f (filter g l) = filter g (filter f l).
Proof.
  induction l as [|a l IH]; simpl; [reflexivity|].
  destruct (f a) eqn:F, (g a) eqn:G; simpl; rewrite ?F, ?G, IH; reflexivity.
Qed.

(** The rows of a period that lies within another are rows of the other. *)
Lemma inPeriod_within s e s' e' table :
  s' <= s -> e <= e' ->
  Spec.inPeriod s e table = Spec.inPeriod s e (Spec.inPeriod s' e' table).
Proof.
  intros Hs He. unfold Spec.inPeriod.
  induction table as [|c table IH]; simpl; [reflexivity|].
  destruct (Z.leb_spec s (createdAt c)), (Z.leb_spec (createdAt c) e); simpl;
    destruct (Z.leb_spec s' (createdAt c)), (Z.leb_spec (createdAt c) e'); simpl;
    try lia; rewrite <- ?IH;
    repeat match goal with
           | |- context [?a <=? ?b] => destruct (Z.leb_spec a b); try lia
           end; simpl; reflexivity.
Qed.

Lemma monthStart_mono y m1 m2 :
  1 <= m1 <= m2 -> m2 <= 12 -> Spec.monthStart y m1 <= Spec.monthStart y m2.
Proof.
  intros H1 H2. rewrite <- !startOf_month by lia. apply start_mono. lia.
Qed.

Lemma monthEnd_mono y m1 m2 :
  1 <= m1 <= m2 -> m2 <= 12 -> Spec.monthEnd y m1 <= Spec.monthEnd y m2.
Proof.
  intros H1 H2. rewrite <- !endOf_month by lia. apply end_mono. lia.
Qed.

(** The report of a table over a valid interval. *)
Lemma reportOf_returns table pt year month s e :
  Summary.periodBounds pt year month = (Num s, Num e) ->
  exists r,
    reportOf (Some table) pt year month = Some r /\
    periodItemCount (metadata r) = Z.of_nat (List.length (Spec.inPeriod s e table)) /\
    periodCompletedCount (metadata r)
    = Z.of_nat (List.length (filter isCompleted (Spec.inPeriod s e table))) /\
    totalExpenses r = Spec.sumOfCosts (Spec.inPeriod s e table) /\
    totalRevenue r = Spec.sumOfCosts (filter isCompleted (Spec.inPeriod s e table)).
Proof.
  intros B. unfold reportOf. rewrite B. eexists. split; [apply report_returns|].
  cbn [metadata periodItemCount periodCompletedCount totalExpenses totalRevenue].
  rewrite !sumCost_total. repeat split.
Qed.

(** What a narrower period counts, a wider one counts too. *)
Lemma narrower_counts_less table s e s' e' :
  s' <= s -> e <= e' ->
  (List.length (Spec.inPeriod s e table)
   <= List.length (Spec.inPeriod s' e' table))%nat /\
  (List.length (filter isCompleted (Spec.inPeriod s e table))
   <= List.length (filter isCompleted (Spec.inPeriod s' e' table)))%nat /\
  ((forall c v, In c table -> estimatedCost c = Some v -> 0 <= v) ->
   Spec.sumOfCosts (Spec.inPeriod s e table)
   <= Spec.sumOfCosts (Spec.inPeriod s' e' table) /\
   Spec.sumOfCosts (filter isCompleted (Spec.inPeriod s e table))
   <= Spec.sumOfCosts (filter isCompleted (Spec.inPeriod s' e' table))).
Proof.
  intros Hs He. rewrite (inPeriod_within s e s' e' table Hs He).
  set (wide := Spec.inPeriod s' e' table).
  assert (W : forall c, In c wide -> In c table).
  { intros c Hc. unfold wide, Spec.inPeriod in Hc. now apply filter_In in Hc. }
  split; [apply length_filter_le|]. split.
  - unfold Spec.inPeriod at 1. rewrite filter_comm. apply length_filter_le.
  - intros Hpos. split.
    + apply sumOfCosts_filter_le. intros c v Hc. apply Hpos. auto.
    + unfold Spec.inPeriod at 1. rewrite filter_comm.
      apply sumOfCosts_filter_le. intros c v Hc. apply Hpos.
      apply W. now apply filter_In in Hc.
Qed.

End Nesting.

(** X6: for one year and month the monthly period lies within the
    quarterly one and the quarterly within the yearly one, so the monthly
    report never counts more rows or completed rows than the quarterly, nor
    the quarterly more than the yearly; with costs that are not negative the
    same holds of totalExpenses and totalRevenue. *)
Theorem periods_nest (table : list StudyCard) (year month : Z) :
  1 <= month <= 12 ->
  Spec.representable (Date.fullYear year) ->
  exists rm rq ry,
    reportOf (Some table) "monthly" (Num year) (Num month) = Some rm /\
    reportOf (Some table) "quarterly" (Num year) (Num month) = Some rq /\
    reportOf (Some table) "yearly" (Num year) (Num month) = Some ry /\
    periodItemCount (metadata rm) <= periodItemCount (metadata rq)
    <= periodItemCount (metadata ry) /\
    periodCompletedCount (metadata rm) <= periodCompletedCount (metadata rq)
    <= periodCompletedCount (metadata ry) /\
    ((forall c v, In c table -> estimatedCost c = Some v -> 0 <= v) ->
     totalExpenses rm <= totalExpenses rq <= totalExpenses ry /\
     totalRevenue rm <= totalRevenue rq <= totalRevenue ry).
Proof.
  intros Hm Hy. set (Y := Date.fullYear year).
  destruct (ceil_div_3 month Hm) as [Hq Hc]. set (q := - (- month / 3)) in *.
  destruct (reportOf_returns table "monthly" (Num year) (Num month) _ _
              (bounds_monthly "monthly" year month ltac:(discriminate)
                 ltac:(discriminate) Hy Hm))
    as (rm & Rm & Im & Cm & Em & Vm).
  destruct (reportOf_returns table "quarterly" (Num year) (Num month) _ _
              (bounds_quarterly year month Hy Hm))
    as (rq & Rq & Iq & Cq & Eq & Vq).
  destruct (reportOf_returns table "yearly" (Num year) (Num month) _ _
              (bounds_yearly year (Num month) Hy))
    as (ry & Ry & Iy & Cy & Ey & Vy).
  fold Y q in Im, Cm, Em, Vm, Iq, Cq, Eq, Vq, Iy, Cy, Ey, Vy.
  exists rm, rq, ry. split; [exact Rm|]. split; [exact Rq|]. split; [exact Ry|].
  destruct (narrower_counts_less table
              (Spec.monthStart Y month) (Spec.monthEnd Y month)
              (Spec.monthStart Y ((q - 1) * 3 + 1)) (Spec.monthEnd Y (q * 3)))
    as (A1 & A2 & A3);
    [apply monthStart_mono; lia | apply monthEnd_mono; lia |].
  destruct (narrower_counts_less table
              (Spec.monthStart Y ((q - 1) * 3 + 1)) (Spec.monthEnd Y (q * 3))
              (Spec.monthStart Y 1) (Spec.monthEnd Y 12))
    as (B1 & B2 & B3);
    [apply monthStart_mono; lia | apply monthEnd_mono; lia |].
  rewrite Im, Iq, Iy, Cm, Cq, Cy, Em, Eq, Ey, Vm, Vq, Vy.
  split; [lia|]. split; [lia|].
  intros Hpos. destruct (A3 Hpos), (B3 Hpos). lia.
Qed.

Lemma periods_nest_witness :
  exists rm ry,
    reportOf (Some Sample.march) "monthly" (Num 2024) (Num 2) = Some rm /\
    reportOf (Some Sample.march) "yearly" (Num 2024) (Num 2) = Some ry /\
    periodItemCount (metadata rm) <= periodItemCount (metadata ry).
Proof.
  destruct (periods_nest Sample.march 2024 2)
    as (rm & rq & ry & Rm & _ & Ry & I & _).
  - lia.
  - unfold Spec.representable. change (Date.fullYear 2024) with 2024. lia.
  - exists rm, ry. split; [exact Rm|]. split; [exact Ry|]. lia.
Defined.



Section CountedOnce.

Lemma total_app l1 l2 : Spec.total (l1 ++ l2) = Spec.total l1 + Spec.total l2.
Proof. unfold Spec.total. induction l1 as [|a l1 IH]; simpl; lia. Qed.

Lemma length_total {A} (l : list A) :
  Z.of_nat (List.length l) = Spec.total (map (fun _ => 1) l).
Proof.
  unfold Spec.total. induction l as [|a l IH]; [reflexivity|].
  cbn [List.length map fold_right]. rewrite Nat2Z.inj_succ. lia.
Qed.

(** A row lies in the month of at most one index. *)
Lemma one_month_per_row t i j :
  Timeline.startOf i <= t <= Timeline.endOf i ->
  Timeline.startOf j <= t <= Timeline.endOf j -> i = j.
Proof.
  intros Hi Hj. destruct (Z.lt_trichotomy i j) as [L|[E|L]]; [|exact E|].
  - pose proof (end_lt_start i j L). lia.
  - pose proof (end_lt_start j i L). lia.
Qed.

Lemma filter_at_most_one {A} (p : A -> bool) (l : list A) :
  NoDup l -> (forall a b, p a = true -> p b = true -> a = b) ->
  (List.length (filter p l) <= 1)%nat.
Proof.
  intros ND U. induction ND as [|a l Hn ND IH]; simpl; [lia|].
  destruct (p a) eqn:Pa; [|exact IH]. simpl.
  assert (E : filter p l = []).
  { destruct (filter p l) as [|b r] eqn:F; [reflexivity|].
    assert (Hb : In b (filter p l)) by (rewrite F; now left).
    apply filter_In in Hb. destruct Hb as [Hb Pb].
    rewrite (U a b Pa Pb) in Hn. contradiction. }
  rewrite E. simpl. lia.
Qed.

(** The weight of a row enters the months' totals once for each index whose
    month holds the row. *)
Lemma weights_cons (w : StudyCard -> Z) c table idxs :
  Spec.total (map (fun idx => Spec.total (map w (Timeline.rowsOf (c :: table) idx))) idxs)
  = w c * Z.of_nat (List.length
                      (filter (fun idx => (Timeline.startOf idx <=? createdAt c)
                                          && (createdAt c <=? Timeline.endOf idx))
                              idxs))
    + Spec.total (map (fun idx => Spec.total (map w (Timeline.rowsOf table idx))) idxs).
Proof.
  induction idxs as [|idx idxs IH]; [simpl; lia|].
  cbn [map filter]. change (Spec.total (?a :: ?l)) with (a + Spec.total l).
  rewrite IH. unfold Timeline.rowsOf, Spec.inPeriod. cbn [filter].
  destruct ((Timeline.startOf idx <=? createdAt c)
            && (createdAt c <=? Timeline.endOf idx)).
  - cbn [map List.length]. change (Spec.total (?a :: ?l)) with (a + Spec.total l). lia.
  - lia.
Qed.

Lemma weights_once (w : StudyCard -> Z) table idxs :
  NoDup idxs -> (forall c, In c table -> 0 <= w c) ->
  Spec.total (map (fun idx => Spec.total (map w (Timeline.rowsOf table idx))) idxs)
  <= Spec.total (map w table).
Proof.
  intros ND. induction table as [|c table IH]; intros Hw.
  - clear. induction idxs as [|idx idxs IH]; simpl; [lia|]. exact IH.
  - rewrite weights_cons. cbn [map].
    change (Spec.total (?a :: ?l)) with (a + Spec.total l).
    specialize (IH (fun c' H => Hw c' (or_intror H))).
    pose proof (Hw c (or_introl eq_refl)) as Hc.
    pose proof (filter_at_most_one
                  (fun idx => (Timeline.startOf idx <=? createdAt c)
                              && (createdAt c <=? Timeline.endOf idx)) idxs ND) as L.
    assert (L' : Z.of_nat
                   (List.length
                      (filter (fun idx => (Timeline.startOf idx <=? createdAt c)
                                          && (createdAt c <=? Timeline.endOf idx))
                              idxs)) <= 1).
    { apply (Nat2Z.inj_le _ 1). apply L. intros a b Ha Hb.
      apply andb_true_iff in Ha, Hb. destruct Ha as [A1 A2], Hb as [B1 B2].
      apply Z.leb_le in A1, A2, B1, B2.
      apply (one_month_per_row (createdAt c)); lia. }
    nia.
Qed.

End CountedOnce.

Section HistoryWindow.

Lemma NoDup_map_injective {A B} (f : A -> B) (l : list A) :
  (forall a b, f a = f b -> a = b) -> NoDup l -> NoDup (map f l).
Proof.
  intros I ND. induction ND as [|a l Hn ND IH]; simpl; constructor; [|exact IH].
  intros Hin. apply in_map_iff in Hin. destruct Hin as (b & E & Hb).
  apply I in E. now subst.
Qed.

Lemma NoDup_indices i n : NoDup (indices i n).
Proof.
  unfold indices. apply NoDup_map_injective; [|apply seq_NoDup].
  intros a b. lia.
Qed.

Lemma NoDup_months base i n : NoDup (map (fun j => base - j) (indices i n)).
Proof.
  apply NoDup_map_injective; [|apply NoDup_indices]. intros a b. lia.
Qed.

(** The entries of a successful history, by month index. *)
Lemma history_entries table now request h :
  0 <= now < Date.TimeFromYear 275760 ->
  Monthly.handle (Some table) now request = json HistoryBody h 200 ->
  exists n,
    n <= 24 /\
    summaries h
    = map (fun idx => Spec.monthEntry table (idx / 12) (idx mod 12 + 1))
          (map (fun j => Date.YearFromTime now * 12 + Date.MonthFromTime now - j)
               (indices 0 n)).
Proof.
  intros Hnow. unfold Monthly.handle, Monthly.monthsCountOf.
  destruct (JsString.parseInt _) as [|N]; cbn [Js.min Js.lift2].
  - rewrite loop_NaN. intros [= <-]. exists 0. split; [lia|reflexivity].
  - rewrite (loop_runs table now (Z.min N 24) 24 Hnow) by lia.
    intros [= <-]. exists (Z.min N 24). split; [lia|]. cbn [app summaries].
    rewrite map_map. reflexivity.
Qed.

Lemma In_indices i n j : In j (indices i n) -> i <= j < n.
Proof.
  unfold indices. intros H. apply in_map_iff in H.
  destruct H as (k & <- & Hk). apply in_seq in Hk. lia.
Qed.

Lemma rowsOf_eq table idx :
  Timeline.rowsOf table idx
  = Spec.inPeriod (Spec.monthStart (idx / 12) (idx mod 12 + 1))
                  (Spec.monthEnd (idx / 12) (idx mod 12 + 1)) table.
Proof. reflexivity. Qed.

Lemma entry_itemCount table y m :
  m_itemCount (Spec.monthEntry table y m)
  = Z.of_nat (List.length
                (Spec.inPeriod (Spec.monthStart y m) (Spec.monthEnd y m) table)).
Proof. reflexivity. Qed.

Lemma entry_completedCount table y m :
  m_completedCount (Spec.monthEntry table y m)
  = Z.of_nat (List.length
                (Spec.inPeriod (Spec.monthStart y m) (Spec.monthEnd y m)
                               (filter isCompleted table))).
Proof.
  unfold Spec.inPeriod. rewrite filter_comm. reflexivity.
Qed.

Lemma entry_totalExpenses table y m :
  m_totalExpenses (Spec.monthEntry table y m)
  = Spec.total (map cost (Spec.inPeriod (Spec.monthStart y m) (Spec.monthEnd y m)
                                        table)).
Proof. reflexivity. Qed.

End HistoryWindow.

(** X8: the months of a history are disjoint, so no row is counted twice:
    the itemCounts of all the entries together never exceed the number of
    rows of the table, the completedCounts never the number of completed
    rows, and with costs that are not negative the totalExpenses of all the
    entries together never exceed the sum of all the costs. *)
Theorem history_counts_rows_once (table : list StudyCard) (now : Z)
        (request : Request) (h : FinanceHistory) :
  0 <= now < Date.TimeFromYear 275760 ->
  Monthly.handle (Some table) now request = json HistoryBody h 200 ->
  itemsCounted (summaries h) <= Z.of_nat (List.length table) /\
  Spec.total (map m_completedCount (summaries h))
  <= Z.of_nat (List.length (filter isCompleted table)) /\
  ((forall c, In c table -> 0 <= cost c) ->
   Spec.total (map m_totalExpenses (summaries h)) <= Spec.sumOfCosts table).
Proof.
  intros Hnow H. destruct (history_entries table now request h Hnow H) as (n & _ & E).
  set (base := Date.YearFromTime now * 12 + Date.MonthFromTime now) in E.
  pose proof (NoDup_months base 0 n) as ND.
  set (idxs := map (fun j => base - j) (indices 0 n)) in *. clearbody idxs.
  unfold itemsCounted. rewrite E, !map_map.
  split; [|split].
  - rewrite length_total.
    etransitivity;
      [|apply (weights_once (fun _ => 1) table _ ND); intros; lia].
    apply Z.eq_le_incl. apply (f_equal Spec.total). apply map_ext. intros idx.
    rewrite entry_itemCount, rowsOf_eq. apply length_total.
  - rewrite length_total.
    etransitivity;
      [|apply (weights_once (fun _ => 1) (filter isCompleted table) _ ND);
        intros; lia].
    apply Z.eq_le_incl. apply (f_equal Spec.total). apply map_ext. intros idx.
    rewrite entry_completedCount, rowsOf_eq. apply length_total.
  - intros Hpos. unfold Spec.sumOfCosts.
    etransitivity; [|apply (weights_once cost table _ ND Hpos)].
    apply Z.eq_le_incl. apply (f_equal Spec.total). apply map_ext. intros idx.
    rewrite entry_totalExpenses, rowsOf_eq. reflexivity.
Qed.

Lemma history_counts_rows_once_witness :
  itemsCounted [Spec.monthEntry Sample.march 2024 4;
                Spec.monthEntry Sample.march 2024 3] <= 2.
Proof.
  destruct (history_counts_rows_once Sample.march Sample.now
              (Sample.query [("months", "2")])
              {| h_projectCode := "VLHOLDINGS"; h_projectName := "VL Holdings";
                 h_currency := "THB";
                 summaries := [Spec.monthEntry Sample.march 2024 4;
                               Spec.monthEntry Sample.march 2024 3] |})
    as (A & _).
  - vm_compute. split; [discriminate|reflexivity].
  - vm_compute. reflexivity.
  - exact A.
Defined.

Section Text.

Lemma split_not_nil sep s : JsText.split sep s <> [].
Proof.
  destruct s as [|c r]; simpl; [discriminate|].
  destruct (Ascii.eqb c sep); [discriminate|].
  destruct (JsText.split sep r); discriminate.
Qed.

(** No piece of a split holds the separator. *)
Lemma split_pieces sep s p : In p (JsText.split sep s) -> hasChar sep p = false.
Proof.
  revert p. induction s as [|c r IH]; intros p; simpl.
  - intros [<-|[]]. reflexivity.
  - destruct (Ascii.eqb c sep) eqn:E.
    + intros [<-|H]; [reflexivity|now apply IH].
    + destruct (JsText.split sep r) as [|piece rest].
      * intros [<-|[]]. simpl. now rewrite E.
      * intros [<-|H].
        -- simpl. rewrite E. apply IH. now left.
        -- apply IH. now right.
Qed.

Lemma split_single sep a : hasChar sep a = false -> JsText.split sep a = [a].
Proof.
  induction a as [|c r IH]; simpl; [reflexivity|].
  intros H. apply orb_false_iff in H. destruct H as [E H].
  rewrite E, (IH H). reflexivity.
Qed.

(** A text without the separator, then the separator: the text is the
    first piece. *)
Lemma split_app sep a b :
  hasChar sep a = false ->
  JsText.split sep (a ++ String sep b) = a :: JsText.split sep b.
Proof.
  induction a as [|c r IH]; simpl.
  - intros _. now rewrite Ascii.eqb_refl.
  - intros H. apply orb_false_iff in H. destruct H as [E H].
    rewrite E, (IH H). reflexivity.
Qed.










Lemma truthy_true s : JsText.truthy s = true <-> s <> "".
Proof.
  destruct s; unfold JsText.truthy; simpl; split; intros H;
    congruence || discriminate || (exfalso; now apply H).
Qed.


Lemma ofInt_digit d : 0 <= d <= 9 -> String.length (JsString.ofInt d) = 1%nat.
Proof.
  intros H.
  assert (C : d = 0 \/ d = 1 \/ d = 2 \/ d = 3 \/ d = 4 \/ d = 5 \/ d = 6
              \/ d = 7 \/ d = 8 \/ d = 9) by lia.
  repeat (destruct C as [->|C]; [reflexivity|]). now subst.
Qed.

End Text.

(** X9: a size of 1024 bytes or more (a whole number below 2^53) is shown
    in KB below 1024 * 1024 bytes and in MB from there on, as the number of
    tenths n nearest to the size (the larger at a tie) with one decimal
    digit; the shown value is never 0.0 and differs from the size by at most
    a twentieth of the unit.  The last 51 sizes below 1024 * 1024 bytes are
    shown as "1024.0 KB", not in MB. *)
Theorem file_size_rounding (bytes : Z) :
  1024 <= bytes < 2 ^ 53 ->
  exists n size unit,
    Page.formatFileSize bytes
    = Some (JsString.ofInt (n / 10) ++ "." ++ JsString.ofInt (n mod 10) ++ unit)%string /\
    (bytes < 1048576 /\ size = 1024 /\ unit = " KB"
     \/ 1048576 <= bytes /\ size = 1048576 /\ unit = " MB") /\
    10 <= n /\
    String.length (JsString.ofInt (n mod 10)) = 1%nat /\
    - size < 2 * (size * n - 10 * bytes) <= size /\
    (bytes < 1048576 -> n <= 10240) /\
    (1048525 <= bytes < 1048576 -> Page.formatFileSize bytes = Some "1024.0 KB").
Proof.
  change (2 ^ 53) with 9007199254740992.
  intros H. unfold Page.formatFileSize, Page.toFixed1.
  change (2 ^ 53) with 9007199254740992.
  change (10 ^ 21) with 1000000000000000000000.
  rewrite (Z.abs_eq bytes) by lia.
  destruct (Z.leb_spec 9007199254740992 bytes) as [|_]; [lia|].
  destruct (Z.ltb_spec bytes 1024) as [|_]; [lia|].
  destruct (Z.ltb_spec bytes 0) as [|_]; [lia|].
  change (1024 * 1024) with 1048576.
  destruct (Z.ltb_spec bytes 1048576) as [Lt|Ge].
  - destruct (Z.leb_spec (1000000000000000000000 * 1024) bytes) as [|_]; [lia|].
    set (n := (20 * bytes + 1024) / (2 * 1024)).
    assert (Hn : - 1024 < 2 * (1024 * n - 10 * bytes) <= 1024).
    { unfold n. Z.div_mod_to_equations. lia. }
    exists n, 1024, " KB". cbn [append].
    split; [now rewrite !append_assoc|].
    split; [left; repeat split; assumption|].
    split; [lia|].
    split; [apply ofInt_digit; Z.div_mod_to_equations; lia|].
    split; [exact Hn|].
    split; [lia|].
    intros [Lo _]. assert (E : n = 10240) by lia. rewrite E. reflexivity.
  - destruct (Z.leb_spec (1000000000000000000000 * 1048576) bytes) as [|_]; [lia|].
    set (n := (20 * bytes + 1048576) / (2 * 1048576)).
    assert (Hn : - 1048576 < 2 * (1048576 * n - 10 * bytes) <= 1048576).
    { unfold n. Z.div_mod_to_equations. lia. }
    exists n, 1048576, " MB". cbn [append].
    split; [now rewrite !append_assoc|].
    split; [right; repeat split; assumption|].
    split; [lia|].
    split; [apply ofInt_digit; Z.div_mod_to_equations; lia|].
    split; [exact Hn|].
    split; lia.
Qed.

Lemma file_size_rounding_witness : Page.formatFileSize 1048575 = Some "1024.0 KB".
Proof.
  destruct (file_size_rounding 1048575) as (n & size & unit & _ & _ & _ & _ & _ & _ & E).
  - split; [lia|reflexivity].
  - apply E. lia.
Defined.

Section Tags.




End Tags.



Section Video.

Lemma stripWww_inv h x :
  Page.stripWww h = x -> h = x \/ h = ("www." ++ x)%string.
Proof.
  unfold Page.stripWww, JsString.startsWith.
  destruct (String.prefix "www." h) eqn:E; intros <-; [right|now left].
  exact (prefix_slice "www." h E).
Qed.

Lemma embed_inv id out :
  Page.embed id = Some out ->
  exists i, id = Some i /\ i <> ""
            /\ out = ("https://www.youtube.com/embed/" ++ i)%string.
Proof.
  unfold Page.embed. destruct id as [i|]; [|discriminate].
  destruct (JsText.truthy i) eqn:T; [|discriminate].
  intros [= <-]. exists i. split; [reflexivity|]. split; [|reflexivity].
  now apply truthy_true.
Qed.

Lemma embed_some i :
  i <> "" -> Page.embed (Some i) = Some ("https://www.youtube.com/embed/" ++ i)%string.
Proof. intros H. unfold Page.embed. apply truthy_true in H. now rewrite H. Qed.

Lemma segment_inv path k i :
  nth_error (Page.segments path) k = Some i ->
  hasChar "/" i = false /\ In i (JsText.split "/" path).
Proof.
  intros H. apply nth_error_In in H. unfold Page.segments in H.
  apply filter_In in H. destruct H as [H _].
  split; [now apply (split_pieces "/" path)|exact H].
Qed.

(** The segments of a path that goes on after [id]. *)
Lemma segments_from id rest :
  id <> "" -> hasChar "/" id = false -> segmentEnd rest ->
  exists more, Page.segments (id ++ rest) = id :: more.
Proof.
  intros Hne Hid [->|[r ->]]; unfold Page.segments.
  - replace (id ++ "")%string with id
      by (clear; induction id as [|c r IH]; simpl; [reflexivity|now rewrite <- IH]).
    rewrite (split_single "/" id Hid). simpl.
    apply truthy_true in Hne. rewrite Hne. now exists [].
  - rewrite (split_app "/" id r Hid). simpl.
    apply truthy_true in Hne. rewrite Hne. eexists. reflexivity.
Qed.

Lemma shorts_path x :
  (("/shorts/" ++ x) =? "/watch")%string = false
  /\ JsString.startsWith ("/shorts/" ++ x) "/shorts/" = true.
Proof. split; [reflexivity|apply (prefix_app "/shorts/")]. Qed.

Lemma embed_path x :
  (("/embed/" ++ x) =? "/watch")%string = false
  /\ JsString.startsWith ("/embed/" ++ x) "/shorts/" = false
  /\ JsString.startsWith ("/embed/" ++ x) "/embed/" = true.
Proof.
  split; [reflexivity|]. split; [reflexivity|apply (prefix_app "/embed/")].
Qed.

End Video.

(** X11: whatever the address and whatever [new URL] makes of it, a video
    is embedded only from https://www.youtube.com/embed/ followed by an id
    that is not empty; the host of the address is then one of youtu.be,
    youtube.com and m.youtube.com, with or without one leading "www.", and
    the id is the v parameter of a /watch address or a segment of the path,
    without a slash.  An address that does not parse gives no video. *)
Theorem video_embed_sound (newURL : string -> option Page.URL) (url out : string) :
  Page.getYoutubeEmbedUrl newURL url = Some out ->
  exists parsed id,
    newURL url = Some parsed /\
    out = ("https://www.youtube.com/embed/" ++ id)%string /\
    id <> "" /\
    In (Page.hostname parsed) (shortHosts ++ videoHosts) /\
    (In (Page.hostname parsed) videoHosts /\ Page.pathname parsed = "/watch"
     /\ searchParams_get (Page.query parsed) "v" = Some id
     \/ hasChar "/" id = false /\ In id (JsText.split "/" (Page.pathname parsed))).
Proof.
  unfold Page.getYoutubeEmbedUrl. destruct (newURL url) as [parsed|]; [|discriminate].
  cbv zeta.
  destruct (String.eqb_spec (Page.stripWww (Page.hostname parsed)) "youtu.be") as [E|_].
  - intros H. apply embed_inv in H. destruct H as (i & Hi & Hne & ->).
    exists parsed, i. split; [reflexivity|]. split; [reflexivity|]. split; [exact Hne|].
    split.
    + apply stripWww_inv in E. destruct E as [-> | ->]; simpl; auto.
    + right. exact (segment_inv _ _ _ Hi).
  - assert (Host : (Page.stripWww (Page.hostname parsed) =? "youtube.com")%string
                   || (Page.stripWww (Page.hostname parsed) =? "m.youtube.com")%string
                   = true -> In (Page.hostname parsed) videoHosts).
    { intros H. apply orb_true_iff in H.
      destruct H as [H|H]; apply String.eqb_eq, stripWww_inv in H;
        destruct H as [-> | ->]; simpl; auto. }
    destruct ((Page.stripWww (Page.hostname parsed) =? "youtube.com")%string
              || (Page.stripWww (Page.hostname parsed) =? "m.youtube.com")%string);
      [|discriminate].
    specialize (Host eq_refl).
    destruct (String.eqb_spec (Page.pathname parsed) "/watch") as [W|_].
    + intros H. apply embed_inv in H. destruct H as (i & Hi & Hne & ->).
      exists parsed, i. split; [reflexivity|]. split; [reflexivity|].
      split; [exact Hne|]. split; [apply in_or_app; now right|]. left. auto.
    + destruct (JsString.startsWith (Page.pathname parsed) "/shorts/"
                || JsString.startsWith (Page.pathname parsed) "/embed/");
        [|discriminate].
      intros H. apply embed_inv in H. destruct H as (i & Hi & Hne & ->).
      exists parsed, i. split; [reflexivity|]. split; [reflexivity|].
      split; [exact Hne|]. split; [apply in_or_app; now right|].
      right. exact (segment_inv _ _ _ Hi).
Qed.

Lemma video_embed_sound_witness :
  exists id, id <> "" /\
    Page.getYoutubeEmbedUrl (fun _ => Some PageSample.short) "https://m.youtube.com/shorts/abc123"
    = Some ("https://www.youtube.com/embed/" ++ id)%string.
Proof.
  destruct (video_embed_sound (fun _ => Some PageSample.short)
              "https://m.youtube.com/shorts/abc123"
              "https://www.youtube.com/embed/abc123" eq_refl)
    as (parsed & id & _ & E & Hne & _).
  exists id. split; [exact Hne|]. rewrite <- E. reflexivity.
Defined.

(** X12: the usual addresses of a video are recognised.  With an id that
    is not empty: youtu.be/<id>, and on youtube.com or m.youtube.com (each
    with or without "www.") /watch with v=<id>, /shorts/<id> and
    /embed/<id>, the id without a slash and followed by nothing or by a
    slash, all give https://www.youtube.com/embed/<id>; so the address the
    page embeds is itself mapped to the same address. *)
Theorem video_embed_complete (newURL : string -> option Page.URL)
        (url : string) (parsed : Page.URL) (id rest : string) :
  newURL url = Some parsed ->
  id <> "" ->
  (In (Page.hostname parsed) videoHosts /\ Page.pathname parsed = "/watch"
   /\ searchParams_get (Page.query parsed) "v" = Some id
   \/ hasChar "/" id = false /\ segmentEnd rest /\
      (In (Page.hostname parsed) shortHosts
       /\ Page.pathname parsed = ("/" ++ id ++ rest)%string
       \/ In (Page.hostname parsed) videoHosts
          /\ (Page.pathname parsed = ("/shorts/" ++ id ++ rest)%string
              \/ Page.pathname parsed = ("/embed/" ++ id ++ rest)%string))) ->
  Page.getYoutubeEmbedUrl newURL url
  = Some ("https://www.youtube.com/embed/" ++ id)%string.
Proof.
  intros P Hne H. unfold Page.getYoutubeEmbedUrl. rewrite P. cbv zeta.
  destruct H as [(Hh & Hp & Hv) | (Hid & Hrest & [(Hh & Hp) | (Hh & Hp)])].
  - rewrite Hp, Hv.
    simpl in Hh. destruct Hh as [<-|[<-|[<-|[<-|[]]]]]; cbn; now apply embed_some.
  - rewrite Hp.
    destruct (segments_from id rest Hne Hid Hrest) as [more S].
    assert (S' : Page.segments ("/" ++ id ++ rest) = id :: more).
    { unfold Page.segments in *. cbn [append JsText.split Ascii.eqb Bool.eqb].
      cbn [filter JsText.truthy String.eqb negb]. exact S. }
    simpl in Hh. destruct Hh as [<-|[<-|[]]]; cbn [Page.stripWww JsString.startsWith
      String.prefix JsString.slice Page.hostname]; cbn -[Page.segments append];
      rewrite S'; now apply embed_some.
  - destruct (segments_from id rest Hne Hid Hrest) as [more S].
    destruct Hp as [Hp|Hp]; rewrite Hp.
    + assert (S' : Page.segments ("/shorts/" ++ id ++ rest) = "shorts" :: id :: more).
      { unfold Page.segments in *. cbn [append JsText.split Ascii.eqb Bool.eqb].
        cbn [filter JsText.truthy String.eqb negb Ascii.eqb Bool.eqb]. now rewrite S. }
      destruct (shorts_path (id ++ rest)) as [W Sh].
      simpl in Hh. destruct Hh as [<-|[<-|[<-|[<-|[]]]]];
        cbn -[Page.segments append JsString.startsWith String.eqb];
        rewrite W, Sh, S'; now apply embed_some.
    + assert (S' : Page.segments ("/embed/" ++ id ++ rest) = "embed" :: id :: more).
      { unfold Page.segments in *. cbn [append JsText.split Ascii.eqb Bool.eqb].
        cbn [filter JsText.truthy String.eqb negb Ascii.eqb Bool.eqb]. now rewrite S. }
      destruct (embed_path (id ++ rest)) as (W & Sh & Em).
      simpl in Hh. destruct Hh as [<-|[<-|[<-|[<-|[]]]]];
        cbn -[Page.segments append JsString.startsWith String.eqb];
        rewrite W, Sh, Em, S'; now apply embed_some.
Qed.

Lemma video_embed_complete_witness :
  Page.getYoutubeEmbedUrl (fun _ => Some PageSample.embedded)
                          "https://www.youtube.com/embed/abc123"
  = Some "https://www.youtube.com/embed/abc123".
Proof.
  apply (video_embed_complete (fun _ => Some PageSample.embedded)
           "https://www.youtube.com/embed/abc123" PageSample.embedded "abc123" "").
  - reflexivity.
  - discriminate.
  - right. split; [reflexivity|]. split; [now left|].
    right. split; [simpl; auto|]. right. reflexivity.
Defined.

Section Attachments.

Lemma isCardImage_marked a : a <> JNull -> Page.isCardImage a = Some (markedImage a).
Proof. destruct a; try reflexivity. congruence. Qed.

Lemma filterM_null (p : Json -> option bool) items :
  p JNull = None -> In JNull items -> JsValue.filterM p items = None.
Proof.
  intros Hp. induction items as [|a items IH]; [intros []|].
  intros [->|H]; cbn [JsValue.filterM]; [now rewrite Hp|].
  rewrite (IH H). now destruct (p a).
Qed.

Lemma filterM_total (p : Json -> option bool) (f : Json -> bool) items :
  (forall a, In a items -> p a = Some (f a)) ->
  JsValue.filterM p items = Some (filter f items).
Proof.
  induction items as [|a items IH]; intros H; [reflexivity|].
  cbn [JsValue.filterM filter]. rewrite (H a (or_introl eq_refl)).
  rewrite IH by (intros b Hb; apply H; now right). reflexivity.
Qed.

Lemma filter_split_length {A} (f : A -> bool) (l : list A) :
  (List.length (filter f l) + List.length (filter (fun a => negb (f a)) l)
   = List.length l)%nat.
Proof. induction l as [|a l IH]; simpl; [reflexivity|]. destruct (f a); simpl; lia. Qed.

Lemma filter_split_In {A} (f : A -> bool) (l : list A) a :
  In a l <-> In a (filter f l) \/ In a (filter (fun a => negb (f a)) l).
Proof.
  rewrite !filter_In. split.
  - intros H. destruct (f a) eqn:E; [left|right]; now rewrite ?E.
  - intros [[H _]|[H _]]; exact H.
Qed.

Lemma filter_interleaved {A} (f : A -> bool) (l : list A) :
  interleaved (filter f l) (filter (fun a => negb (f a)) l) l.
Proof.
  induction l as [|a l IH]; simpl; [constructor|].
  destruct (f a); simpl; now constructor.
Qed.

Lemma strictEq_text x t :
  JsValue.strictEq x (Some t) = true <-> x = Some (JString t).
Proof.
  unfold JsValue.strictEq. split.
  - destruct x as [[| | |s| |]|]; try discriminate.
    intros H. apply String.eqb_eq in H. now subst.
  - intros ->. apply String.eqb_refl.
Qed.

Lemma cardImage_same u k : Page.sameImage u k (Page.cardImage u k) = true.
Proof.
  unfold Page.sameImage. apply orb_true_iff. right.
  apply strictEq_text. reflexivity.
Qed.

Lemma not_null_in items a : ~ In JNull items -> In a items -> a <> JNull.
Proof. intros H Ha ->. contradiction. Qed.

Lemma fileAttachments_total items :
  ~ In JNull items ->
  Page.fileAttachments (JArray items)
  = Some (filter (fun a => negb (markedImage a)) items).
Proof.
  intros H. unfold Page.fileAttachments. apply filterM_total.
  intros a Ha. now rewrite (isCardImage_marked a (not_null_in items a H Ha)).
Qed.

(** The script counts the file attachments that are objects. *)
Lemma counted_and_others items :
  (List.length (filter (fun a => negb (markedImage a)) items)
   = List.length (filter Script.counted items)
     + List.length (filter (fun a => negb (JsValue.isObject a)) items))%nat.
Proof.
  induction items as [|a items IH]; [reflexivity|].
  cbn [filter]. unfold Script.counted at 1.
  fold (markedImage a).
  destruct (JsValue.isObject a) eqn:O; destruct (markedImage a) eqn:M;
    cbn [andb negb List.length]; try lia.
  destruct a; discriminate.
Qed.

End Attachments.

(** X13: the card page splits the stored attachments in two: the images of
    the card (kind "card-image") and the files (all the others); the stored
    list holds the items of the two lists, each list in its stored order
    and each stored item in exactly one of them.  The gallery is
    the list of the images, with the image of the card itself put in front
    when the card has an image address that no stored image repeats (by
    address or by key), so a card with an image address always has its image
    in the gallery.  A null among the stored items makes both lists fail. *)
Theorem gallery_and_files (imageUrl imageS3Key : option string) (items : list Json) :
  (In JNull items ->
   Page.galleryImages imageUrl imageS3Key (JArray items) = None /\
   Page.fileAttachments (JArray items) = None) /\
  (~ In JNull items ->
   exists own files,
     Page.fileAttachments (JArray items) = Some files /\
     (Page.galleryImages imageUrl imageS3Key (JArray items) = Some own \/
      exists u,
        imageUrl = Some u /\ u <> "" /\
        (forall img, In img own -> Page.sameImage u imageS3Key img = false) /\
        Page.galleryImages imageUrl imageS3Key (JArray items)
        = Some (Page.cardImage u imageS3Key :: own)) /\
     interleaved own files items /\
     (List.length own + List.length files = List.length items)%nat /\
     (forall a, In a items <-> In a own \/ In a files) /\
     (forall a, In a own -> JsValue.prop a "kind" = Some (JString "card-image")) /\
     (forall a, In a files -> JsValue.prop a "kind" <> Some (JString "card-image")) /\
     (forall u, imageUrl = Some u -> u <> "" ->
        exists gallery img,
          Page.galleryImages imageUrl imageS3Key (JArray items) = Some gallery /\
          In img gallery /\ Page.sameImage u imageS3Key img = true)).
Proof.
  split.
  - intros H. unfold Page.galleryImages, Page.fileAttachments.
    rewrite !filterM_null by (reflexivity || exact H). split; reflexivity.
  - intros H.
    set (own := filter markedImage items).
    set (files := filter (fun a => negb (markedImage a)) items).
    assert (G : JsValue.filterM Page.isCardImage items = Some own).
    { apply filterM_total. intros a Ha.
      exact (isCardImage_marked a (not_null_in items a H Ha)). }
    exists own, files.
    split; [now apply fileAttachments_total|].
    unfold Page.galleryImages. rewrite G.
    split; [|split; [apply filter_interleaved|
                     split; [apply filter_split_length|
                             split; [apply filter_split_In|]]]].
    + destruct imageUrl as [u|]; [|now left].
      destruct (JsText.truthy u) eqn:T; [|now left]. cbn [andb].
      destruct (existsb (Page.sameImage u imageS3Key) own) eqn:E; [now left|].
      right. exists u. split; [reflexivity|]. split; [now apply truthy_true|].
      split; [|reflexivity].
      intros img Hin. destruct (Page.sameImage u imageS3Key img) eqn:S; [|reflexivity].
      assert (X : existsb (Page.sameImage u imageS3Key) own = true)
        by (apply existsb_exists; now exists img).
      congruence.
    + split; [|split].
      * intros a Ha. apply filter_In in Ha. now apply strictEq_text.
      * intros a Ha K. apply filter_In in Ha. destruct Ha as [_ Ha].
        apply strictEq_text in K. fold (markedImage a) in K. now rewrite K in Ha.
      * intros u -> Hu. apply truthy_true in Hu. rewrite Hu. cbn [andb].
        destruct (existsb (Page.sameImage u imageS3Key) own) eqn:E.
        -- apply existsb_exists in E. destruct E as (img & Hin & S).
           exists own, img. auto.
        -- exists (Page.cardImage u imageS3Key :: own), (Page.cardImage u imageS3Key).
           split; [reflexivity|]. split; [now left|apply cardImage_same].
Qed.

Lemma gallery_and_files_witness :
  exists gallery img,
    Page.galleryImages (Some "u9") None (JArray PageSample.stored) = Some gallery /\
    In img gallery /\ Page.sameImage "u9" None img = true.
Proof.
  destruct (gallery_and_files (Some "u9") None PageSample.stored) as [_ H].
  destruct H as (own & files & _ & _ & _ & _ & _ & _ & _ & H).
  - intros [E|[E|[E|[]]]]; discriminate.
  - apply (H "u9"); [reflexivity|discriminate].
Defined.

(** X14: on a stored list the debugging script never stops.  It counts the
    file attachments that are objects, so its count is at most the number
    of items and at most the number of files the card page lists; the two
    differ by the number of stored items that are no objects (texts,
    numbers, booleans), which the page lists and the script leaves out.  A
    text the page cannot parse is an empty list for the script, and where
    the page does parse the text both work on the same value. *)
Theorem script_count_and_page (items : list Json) :
  exists n,
    Script.attachmentCount (JArray items) = Some n /\
    Script.totalItemsInJson (JArray items) = Some (Z.of_nat (List.length items)) /\
    0 <= n <= Z.of_nat (List.length items) /\
    (forall files,
       Page.fileAttachments (JArray items) = Some files ->
       n <= Z.of_nat (List.length files) /\
       Z.of_nat (List.length files) - n
       = Z.of_nat (List.length (filter (fun a => negb (JsValue.isObject a)) items))) /\
    (forall parse attachments,
       match Page.parsedAttachments parse attachments with
       | Some v => Script.parsed parse attachments = v
       | None => Script.parsed parse attachments = JArray []
       end).
Proof.
  eexists. split; [reflexivity|]. split; [reflexivity|].
  pose proof (length_filter_le Script.counted items) as L.
  split; [lia|]. split.
  - intros files F.
    assert (N : ~ In JNull items).
    { intros N. unfold Page.fileAttachments in F.
      rewrite filterM_null in F by (reflexivity || exact N). discriminate. }
    rewrite (fileAttachments_total items N) in F. injection F as <-.
    rewrite (counted_and_others items). lia.
  - intros parse attachments. unfold Page.parsedAttachments, Script.parsed.
    destruct attachments as [text|]; [|reflexivity].
    destruct (JsText.truthy text); [|reflexivity].
    destruct (parse text); reflexivity.
Qed.

Lemma script_count_and_page_witness :
  exists n files,
    Script.attachmentCount (JArray PageSample.stored) = Some n /\
    Page.fileAttachments (JArray PageSample.stored) = Some files /\
    Z.of_nat (List.length files) - n = 1.
Proof.
  destruct (script_count_and_page PageSample.stored) as (n & A & _ & _ & B & _).
  exists n, [PageSample.document; JString "note"].
  split; [exact A|]. split; [reflexivity|].
  destruct (B [PageSample.document; JString "note"] eq_refl) as [_ E].
  rewrite E. reflexivity.
Defined.

Section Label.

(** The first piece of a text that begins with a text free of the
    separator. *)
Lemma split_prefix sep a y :
  hasChar sep a = false ->
  exists p rest,
    JsText.split sep y = p :: rest /\
    JsText.split sep (a ++ y) = (a ++ p)%string :: rest.
Proof.
  intros H. induction a as [|c a IH].
  - destruct (JsText.split sep y) as [|p rest] eqn:E;
      [now destruct (split_not_nil sep y)|].
    exists p, rest. simpl. auto.
  - simpl in H. apply orb_false_iff in H. destruct H as [E H].
    destruct (IH H) as (p & rest & S & S'). exists p, rest.
    split; [exact S|]. simpl. now rewrite E, S'.
Qed.

Lemma split_no_separator sep s :
  hasChar sep s = false -> nth_error (JsText.split sep s) 1 = None.
Proof. intros H. now rewrite (split_single sep s H). Qed.

End Label.

(** X15: the label the connection test prints for the database is the text
    between the first "@" of DATABASE_URL and the next "@" or "?", and is
    undefined when the address has no "@".  What stands before the first
    "@" (the user and the password) is not printed, nor the parameters after
    "?"; with a password that holds an "@" the label is the part of the
    password after it. *)
Theorem database_label (before shown rest : string) :
  hasChar "@" before = false ->
  hasChar "@" shown = false ->
  hasChar "?" shown = false ->
  (rest = "" \/ exists r, rest = String "@" r \/ rest = String "?" r) ->
  Script.databaseLabel (before ++ "@" ++ shown ++ rest) = Some shown /\
  Script.databaseLabel before = None.
Proof.
  intros Hb Hs Hq Hr. split; [|unfold Script.databaseLabel;
                                now rewrite (split_no_separator "@" before Hb)].
  unfold Script.databaseLabel.
  change (before ++ "@" ++ shown ++ rest)%string
    with (before ++ String "@" (shown ++ rest))%string.
  rewrite (split_app "@" before _ Hb). cbn [nth_error].
  destruct Hr as [->|[r [->| ->]]].
  - replace (shown ++ "")%string with shown
      by (clear; induction shown as [|c r IH]; simpl; [reflexivity|now rewrite <- IH]).
    rewrite (split_single "@" shown Hs). cbn [nth_error].
    now rewrite (split_single "?" shown Hq).
  - rewrite (split_app "@" shown r Hs). cbn [nth_error].
    now rewrite (split_single "?" shown Hq).
  - destruct (split_prefix "@" shown (String "?" r) Hs) as (p & more & S & ->).
    cbn [nth_error].
    assert (P : exists q, p = String "?" q).
    { simpl in S. destruct (JsText.split "@" r) as [|piece k];
        injection S as <- _; eexists; reflexivity. }
    destruct P as [q ->]. now rewrite (split_app "?" shown q Hq).
Qed.

Lemma database_label_witness :
  Script.databaseLabel "postgres://app:p@ss@db.example.com/main?sslmode=require"
  = Some "ss".
Proof.
  apply (database_label "postgres://app:p" "ss" "@db.example.com/main?sslmode=require");
    try reflexivity.
  right. eexists. left. reflexivity.
Defined.

Section Agreement.

(** The report of one month and the history's entry of that month. *)
Lemma report_month table y m :
  Spec.representable y -> ~ 0 <= y <= 99 -> 1 <= m <= 12 ->
  exists r,
    reportOf (Some table) "monthly" (Num y) (Num m) = Some r /\
    periodStart r = m_periodStart (Spec.monthEntry table y m) /\
    periodEnd r = m_periodEnd (Spec.monthEntry table y m) /\
    totalRevenue r = m_totalRevenue (Spec.monthEntry table y m) /\
    totalExpenses r = m_totalExpenses (Spec.monthEntry table y m) /\
    netProfit r = m_netProfit (Spec.monthEntry table y m) /\
    cashInflow r = m_cashInflow (Spec.monthEntry table y m) /\
    cashOutflow r = m_cashOutflow (Spec.monthEntry table y m) /\
    netCashFlow r = m_netCashFlow (Spec.monthEntry table y m) /\
    expenseCategories r = m_expenseCategories (Spec.monthEntry table y m) /\
    periodItemCount (metadata r) = m_itemCount (Spec.monthEntry table y m) /\
    periodCompletedCount (metadata r)
    = m_completedCount (Spec.monthEntry table y m).
Proof.
  intros Rep H99 Hm.
  assert (Fy : Date.fullYear y = y).
  { destruct (fullYear_cases y) as [[? _]|[_ E]]; [lia|exact E]. }
  pose proof (bounds_monthly "monthly" y m ltac:(discriminate) ltac:(discriminate)) as B.
  rewrite Fy in B. specialize (B Rep Hm).
  unfold reportOf. rewrite B.
  destruct (monthStart_fields y m Hm) as [Is _].
  destruct (monthEnd_fields y m Hm) as [Ie _].
  unfold Summary.report, Db.selectBetween, Db.countAll, Db.countCompleted.
  rewrite Is, Ie. eexists. split; [reflexivity|].
  cbn [periodStart periodEnd totalRevenue totalExpenses netProfit cashInflow
       cashOutflow netCashFlow expenseCategories metadata periodItemCount
       periodCompletedCount].
  fold (Spec.inPeriod (Spec.monthStart y m) (Spec.monthEnd y m) table).
  rewrite !sumCost_total, categoryBreakdown_spec.
  repeat split.
Qed.

End Agreement.

(** X16: the two routes agree.  Each entry of a history carries the figures
    the report route gives for periodType=monthly with the year and month of
    that entry, on the same table: the dates, the six money figures, the
    expense categories and the two counts. *)
Theorem history_agrees_with_report (table : list StudyCard) (now : Z)
        (request : Request) (h : FinanceHistory) (s : MonthSummary) :
  0 <= now < Date.TimeFromYear 275760 ->
  Monthly.handle (Some table) now request = json HistoryBody h 200 ->
  In s (summaries h) ->
  exists y m r,
    1 <= m <= 12 /\
    m_periodStart s = (y, m, 1) /\
    reportOf (Some table) "monthly" (Num y) (Num m) = Some r /\
    periodStart r = m_periodStart s /\
    periodEnd r = m_periodEnd s /\
    totalRevenue r = m_totalRevenue s /\
    totalExpenses r = m_totalExpenses s /\
    netProfit r = m_netProfit s /\
    cashInflow r = m_cashInflow s /\
    cashOutflow r = m_cashOutflow s /\
    netCashFlow r = m_netCashFlow s /\
    expenseCategories r = m_expenseCategories s /\
    periodItemCount (metadata r) = m_itemCount s /\
    periodCompletedCount (metadata r) = m_completedCount s.
Proof.
  intros Hnow H Hs.
  destruct (history_entries table now request h Hnow H) as (n & Hn & E).
  rewrite E, map_map in Hs. apply in_map_iff in Hs.
  destruct Hs as (j & <- & Hj). apply In_indices in Hj.
  pose proof (YearFromTime_bounds now Hnow) as Hny.
  destruct (time_in_its_month now) as [Hnm _].
  pose proof (monthsBefore_range (Date.YearFromTime now) (Date.MonthFromTime now) j
                Hnm ltac:(lia)) as R.
  unfold Spec.monthsBefore in R. cbv zeta in R.
  set (idx := Date.YearFromTime now * 12 + Date.MonthFromTime now - j) in *.
  destruct R as (Hy & Hm & _).
  exists (idx / 12), (idx mod 12 + 1).
  destruct (report_month table (idx / 12) (idx mod 12 + 1)) as (r & Hr);
    [unfold Spec.representable; lia | lia | exact Hm |].
  exists r. split; [exact Hm|]. split; [reflexivity|]. exact Hr.
Qed.

Lemma history_agrees_with_report_witness :
  exists r,
    reportOf (Some Sample.march) "monthly" (Num 2024) (Num 3) = Some r /\
    totalExpenses r = m_totalExpenses (Spec.monthEntry Sample.march 2024 3).
Proof.
  destruct (history_agrees_with_report Sample.march Sample.now
              (Sample.query [("months", "2")])
              {| h_projectCode := "VLHOLDINGS"; h_projectName := "VL Holdings";
                 h_currency := "THB";
                 summaries := [Spec.monthEntry Sample.march 2024 4;
                               Spec.monthEntry Sample.march 2024 3] |}
              (Spec.monthEntry Sample.march 2024 3))
    as (y & m & r & _ & D & R & _ & _ & _ & X & _).
  - vm_compute. split; [discriminate|reflexivity].
  - vm_compute. reflexivity.
  - right. left. reflexivity.
  - injection D as <- <-. exists r. split; [exact R|exact X].
Defined.
